(** * TradeScope service layer: a shallow embedding

    The three service classes of the application ([TradingService],
    [BrokerCredentialService], [AuthService]) are wrappers around a hosted
    backend client, the browser's [fetch] and the CryptoJS cipher.  Every
    method is an [async] function built from [await]ed requests, [try]/[catch]
    blocks and object literals.

    The embedding follows that structure:
    - JavaScript values are an inductive type [value]; numbers are IEEE 754
      binary64 floats, objects are ordered field lists;
    - an [async] method is a tree of requests ([prog]): every [await] of the
      backend client, of [fetch] or of the Upstox service is a [Call] node
      whose continuation receives the outcome, and [throw] is a leaf;
    - the environment is an oracle that answers the n-th request of a run;
      running a method against an oracle yields its completion and the trace
      of requests that were issued;
    - the engine's conversions, [JSON] and the cipher are fields of a
      [Runtime] record the methods are parameterised by.

    Every [async] method of the three classes is modelled.  Left out are
    the synchronous helpers that return no result object
    ([getBrokerConfig], the realtime [subscribe] functions) and the calls to
    [console.error].

    The [useTrading] hook, which keeps the results of [TradingService] in
    React state, and the filter handlers of the trade management page are
    modelled after the services: a callback of the hook is a request tree
    that yields the state updates it queues.

    The file has two parts: the definitions, then the lemmas and theorems
    about them. *)

From Stdlib Require Import List String Ascii Bool Arith ZArith Lia.
From Stdlib Require Import PrimFloat FloatOps Uint63.
From Stdlib Require FloatAxioms.
Import ListNotations.

Open Scope string_scope.
Open Scope list_scope.
Open Scope nat_scope.

Set Warnings "-register-all".

(** ** JavaScript values

    The values the services handle are data: what the backend sends as
    JSON and what the pages put into plain objects.  An object is a record
    of data properties in property order; none of them shadows a method
    the object inherits.  Strings are byte strings. *)

Inductive value : Type :=
| VUndef
| VNull
| VBool (b : bool)
| VNum (x : float)
| VStr (s : string)
| VArr (items : list value)
| VObj (fields : list (string * value)).

Definition is_nan (x : float) : bool := negb (PrimFloat.eqb x x).

(** ToBoolean. *)
Definition truthy (v : value) : bool :=
  match v with
  | VUndef | VNull => false
  | VBool b => b
  | VNum x => negb (PrimFloat.eqb x 0%float || is_nan x)
  | VStr s => negb (String.eqb s "")
  | VArr _ | VObj _ => true
  end.

Definition nullish (v : value) : bool :=
  match v with
  | VUndef | VNull => true
  | _ => false
  end.

(** [a || b] *)
Definition js_or (a b : value) : value := if truthy a then a else b.

Fixpoint assoc (k : string) (fs : list (string * value)) : option value :=
  match fs with
  | [] => None
  | (k', v) :: rest => if String.eqb k k' then Some v else assoc k rest
  end.

Definition nat_to_float (n : nat) : float :=
  PrimFloat.of_uint63 (Uint63.of_Z (Z.of_nat n)).

(** Array-index property names: the canonical decimal numerals. *)
Definition digit_of (c : ascii) : option nat :=
  let n := nat_of_ascii c in
  if (48 <=? n) && (n <=? 57) then Some (n - 48) else None.

Fixpoint parse_digits (s : string) (acc : nat) : option nat :=
  match s with
  | EmptyString => Some acc
  | String c rest =>
      match digit_of c with
      | Some d => parse_digits rest (10 * acc + d)
      | None => None
      end
  end.

Definition parse_index (s : string) : option nat :=
  match s with
  | EmptyString => None
  | String "0"%char EmptyString => Some 0
  | String "0"%char _ => None
  | _ => parse_digits s 0
  end.

Fixpoint string_nth (n : nat) (s : string) : option ascii :=
  match s, n with
  | EmptyString, _ => None
  | String c _, O => Some c
  | String _ rest, S m => string_nth m rest
  end.

(** [v?.k]: an own data property, [undefined] when [v] is nullish or has no
    such property.  The property names the services read ([data], [error],
    [message], [success], [user], [id], ...) are on no prototype, so own
    properties are all there is to find. *)
Definition get (v : value) (k : string) : value :=
  match v with
  | VObj fs => match assoc k fs with Some x => x | None => VUndef end
  | VArr l =>
      if String.eqb k "length" then VNum (nat_to_float (List.length l))
      else match parse_index k with
           | Some i => nth i l VUndef
           | None => VUndef
           end
  | VStr s =>
      if String.eqb k "length" then VNum (nat_to_float (String.length s))
      else match parse_index k with
           | Some i => match string_nth i s with
                       | Some c => VStr (String c EmptyString)
                       | None => VUndef
                       end
           | None => VUndef
           end
  | _ => VUndef
  end.

Definition has_field (v : value) (k : string) : bool :=
  match v with
  | VObj fs => match assoc k fs with Some _ => true | None => false end
  | _ => false
  end.

(** Assignment [o.k = x] on a field list: an existing property keeps its
    place, a new one is appended. *)
Fixpoint obj_set (fs : list (string * value)) (k : string) (x : value)
  : list (string * value) :=
  match fs with
  | [] => [(k, x)]
  | (k', v) :: rest =>
      if String.eqb k k' then (k', x) :: rest else (k', v) :: obj_set rest k x
  end.

Fixpoint nat_to_string_aux (fuel n : nat) (acc : string) : string :=
  match fuel with
  | O => acc
  | S fuel' =>
      let acc' := String (ascii_of_nat (48 + n mod 10)) acc in
      match n / 10 with
      | O => acc'
      | q => nat_to_string_aux fuel' q acc'
      end
  end.

Definition nat_to_string (n : nat) : string := nat_to_string_aux (S n) n "".

Fixpoint indexed_from (i : nat) (l : list value) : list (string * value) :=
  match l with
  | [] => []
  | x :: rest => (nat_to_string i, x) :: indexed_from (S i) rest
  end.

Fixpoint chars_of (s : string) : list value :=
  match s with
  | EmptyString => []
  | String c rest => VStr (String c EmptyString) :: chars_of rest
  end.

(** The own enumerable properties copied by a spread [{...v}]. *)
Definition spread (v : value) : list (string * value) :=
  match v with
  | VObj fs => fs
  | VArr l => indexed_from 0 l
  | VStr s => indexed_from 0 (chars_of s)
  | _ => []
  end.

Definition str_is (v : value) (s : string) : bool :=
  match v with
  | VStr s' => String.eqb s' s
  | _ => false
  end.

Fixpoint includes (needle hay : string) : bool :=
  String.prefix needle hay
  || match hay with
     | EmptyString => false
     | String _ rest => includes needle rest
     end.

Definition error_value (name msg : string) : value :=
  VObj [("name", VStr name); ("message", VStr msg)].

(** A [TypeError] raised by the engine.  Its message text is engine specific;
    the model carries a description of the failed step instead. *)
Definition TypeError (what : string) : value := error_value "TypeError" what.

(** [new Error(msg)] *)
Definition Error (msg : string) : value := error_value "Error" msg.

(** ** Requests, outcomes and the environment *)

(** The query-builder methods chained on [supabase.from(table)]. *)
Inductive qop : Type :=
| OpSelect (cols : option string)
| OpInsert (row : value)
| OpUpdate (row : value)
| OpDelete
| OpEq (col : string) (v : value)
| OpIlike (col : string) (pattern : string)
| OpGte (col : string) (v : value)
| OpLte (col : string) (v : value)
| OpRange (from to : value)
| OpOrder (col : string) (ascending : bool)
| OpSingle.

(** Everything a service method awaits from outside the service layer. *)
Inductive request : Type :=
| RQuery (table : string) (ops : list qop)
| RAuth (method : string) (args : list value)
| RFetch (url : string) (headers : list (string * value))
| RBodyJson (response : value)
| RUpstox (method : string).

(** A promise settles one of two ways. *)
Inductive outcome : Type :=
| Resolved (v : value)
| Rejected (e : value).

(** Reads of the local environment, which cannot fail: the wall clock as
    [new Date().toISOString()] and the random salt CryptoJS draws for a
    passphrase. *)
Inductive local_query : Type :=
| QNow
| QSalt.

Record oracle : Type := {
  answer : nat -> request -> outcome;
  local_answer : nat -> local_query -> string
}.

(** ** Asynchronous methods as request trees *)

Inductive prog (A : Type) : Type :=
| Ret (a : A)
| Throw (e : value)
| Call (r : request) (k : outcome -> prog A)
| Local (q : local_query) (k : string -> prog A).

Arguments Ret {A} a.
Arguments Throw {A} e.
Arguments Call {A} r k.
Arguments Local {A} q k.

Fixpoint bind {A B : Type} (p : prog A) (f : A -> prog B) : prog B :=
  match p with
  | Ret a => f a
  | Throw e => Throw e
  | Call r k => Call r (fun out => bind (k out) f)
  | Local q k => Local q (fun s => bind (k s) f)
  end.

(** [try { p } catch (e) { h e }] *)
Fixpoint try_catch {A : Type} (p : prog A) (h : value -> prog A) : prog A :=
  match p with
  | Ret a => Ret a
  | Throw e => h e
  | Call r k => Call r (fun out => try_catch (k out) h)
  | Local q k => Local q (fun s => try_catch (k s) h)
  end.

Declare Scope prog_scope.
Delimit Scope prog_scope with prog.
Bind Scope prog_scope with prog.

Notation "x <- p ;; q" := (bind p (fun x => q))
  (at level 61, p at next level, right associativity) : prog_scope.
Notation "p ;;; q" := (bind p (fun _ => q))
  (at level 61, right associativity) : prog_scope.

Open Scope prog_scope.

(** [await r] *)
Definition await (r : request) : prog value :=
  Call r (fun out =>
    match out with
    | Resolved v => Ret v
    | Rejected e => Throw e
    end).

(** The check a destructuring pattern [const { ... } = v] performs first. *)
Definition destructurable (v : value) : prog unit :=
  if nullish v then Throw (TypeError "cannot destructure a nullish value")
  else Ret tt.

Definition now_iso : prog value := Local QNow (fun s => Ret (VStr s)).

Inductive completion (A : Type) : Type :=
| Returned (a : A)
| Thrown (e : value).

Arguments Returned {A} a.
Arguments Thrown {A} e.

(** Running a method: the oracle answers the request at each step, the
    requests issued are collected in order. *)
Fixpoint run {A : Type} (p : prog A) (o : oracle) (n : nat)
  : completion A * list request :=
  match p with
  | Ret a => (Returned a, [])
  | Throw e => (Thrown e, [])
  | Call r k =>
      let (c, tr) := run (k (answer o n r)) o (S n) in (c, r :: tr)
  | Local q k => run (k (local_answer o n q)) o (S n)
  end.

Definition result_of {A : Type} (p : prog A) (o : oracle) : completion A :=
  fst (run p o 0).

Definition trace_of {A : Type} (p : prog A) (o : oracle) : list request :=
  snd (run p o 0).

(** Number of environment steps a run takes (requests and local reads). *)
Fixpoint steps {A : Type} (p : prog A) (o : oracle) (n : nat) : nat :=
  match p with
  | Ret _ | Throw _ => 0
  | Call r k => S (steps (k (answer o n r)) o (S n))
  | Local q k => S (steps (k (local_answer o n q)) o (S n))
  end.

(** ** A weakest-precondition reading of request trees

    [wp P p Q]: whatever outcomes the environment gives, as long as the
    outcome of each request [r] satisfies [P r], the run of [p] ends in a
    completion and a trace that satisfy [Q]. *)
Fixpoint wp {A : Type} (P : request -> outcome -> Prop) (p : prog A)
  (Q : completion A -> list request -> Prop) : Prop :=
  match p with
  | Ret a => Q (Returned a) []
  | Throw e => Q (Thrown e) []
  | Call r k => forall out, P r out -> wp P (k out) (fun c tr => Q c (r :: tr))
  | Local q k => forall s, wp P (k s) Q
  end.

Definition any_outcome : request -> outcome -> Prop := fun _ _ => True.

(** An oracle all of whose answers satisfy [P]. *)
Definition answers (P : request -> outcome -> Prop) (o : oracle) : Prop :=
  forall n r, P r (answer o n r).

(** ** The JavaScript runtime and the libraries outside the repository

    String and number conversions of the engine, [JSON], the CryptoJS
    passphrase cipher and the build-time environment are not code of this
    repository.  The services are modelled over any runtime that provides
    them. *)
Record Runtime : Type := {
  (** [String.prototype.toLowerCase] *)
  toLowerCase : string -> string;
  (** [s.replace(/\s+/g, '_')] *)
  replace_whitespace_runs : string -> string;
  (** Number::toString *)
  number_to_string : float -> string;
  (** StringToNumber *)
  string_to_number : string -> float;
  (** the global [parseFloat] and [parseInt] on a string *)
  parseFloat_string : string -> float;
  parseInt_string : string -> float;
  (** [JSON.stringify(v)]: a string, or [undefined] *)
  JSON_stringify : value -> value;
  (** [JSON.parse(s)]; [None] when it throws a [SyntaxError] *)
  JSON_parse : string -> option value;
  (** [CryptoJS.AES.encrypt(message, key).toString()] for the salt drawn;
      [None] when it throws *)
  AES_encrypt : value -> value -> string -> option string;
  (** [CryptoJS.AES.decrypt(ciphertext, key).toString(CryptoJS.enc.Utf8)];
      [None] when it throws *)
  AES_decrypt_utf8 : value -> value -> option string;
  (** [import.meta.env.VITE_ENCRYPTION_KEY] *)
  VITE_ENCRYPTION_KEY : value;
  (** [window.location.origin] *)
  window_location_origin : value
}.

Section Coercions.

Context (rt : Runtime).

(** ToString, as template literals and string concatenation apply it.
    Objects are plain data here, so an object prints as [[object Object]]. *)
Fixpoint to_string (v : value) : string :=
  match v with
  | VUndef => "undefined"
  | VNull => "null"
  | VBool true => "true"
  | VBool false => "false"
  | VNum x => number_to_string rt x
  | VStr s => s
  | VArr l =>
      (fix join (l : list value) : string :=
         match l with
         | [] => ""
         | [x] => if nullish x then "" else to_string x
         | x :: rest =>
             ((if nullish x then "" else to_string x) ++ "," ++ join rest)%string
         end) l
  | VObj _ => "[object Object]"
  end.

(** ToPrimitive with no preferred type. *)
Definition to_primitive (v : value) : value :=
  match v with
  | VArr _ | VObj _ => VStr (to_string v)
  | _ => v
  end.

(** ToNumber. *)
Definition to_number (v : value) : float :=
  match to_primitive v with
  | VUndef => nan
  | VNull => 0%float
  | VBool b => if b then 1%float else 0%float
  | VNum x => x
  | VStr s => string_to_number rt s
  | _ => nan
  end.

(** [a + b] *)
Definition js_add (a b : value) : value :=
  match to_primitive a, to_primitive b with
  | VStr s, pb => VStr (s ++ to_string pb)
  | pa, VStr s => VStr (to_string pa ++ s)
  | pa, pb => VNum (to_number pa + to_number pb)
  end.

(** [a - b] *)
Definition js_sub (a b : value) : value :=
  VNum (to_number a - to_number b).

(** [a > x] for a number [x] *)
Definition js_gt_num (a : value) (x : float) : bool :=
  PrimFloat.ltb x (to_number a).

(** The globals [parseFloat(v)] and [parseInt(v)]. *)
Definition parseFloat (v : value) : value :=
  VNum (parseFloat_string rt (to_string v)).

Definition parseInt (v : value) : value :=
  VNum (parseInt_string rt (to_string v)).

(** [v?.toString()]: the inherited method, which does not throw. *)
Definition toString_method (v : value) : value :=
  if nullish v then VUndef else VStr (to_string v).

(** [v?.toLowerCase()] *)
Definition call_toLowerCase (v : value) : prog value :=
  match v with
  | VUndef | VNull => Ret VUndef
  | VStr s => Ret (VStr (toLowerCase rt s))
  | _ => Throw (TypeError "toLowerCase is not a function")
  end.

(** [v?.includes(s)] for a string [s]: the string method, or the array
    method, which compares elements with strict equality. *)
Definition call_includes (v : value) (s : string) : prog value :=
  match v with
  | VUndef | VNull => Ret VUndef
  | VStr m => Ret (VBool (includes s m))
  | VArr l => Ret (VBool (existsb (fun x => str_is x s) l))
  | _ => Throw (TypeError "includes is not a function")
  end.

(** [v?.filter(f)] *)
Definition call_filter (v : value) (f : value -> bool) : prog value :=
  match v with
  | VUndef | VNull => Ret VUndef
  | VArr l => Ret (VArr (filter f l))
  | _ => Throw (TypeError "filter is not a function")
  end.

(** [o[k] = x] on a plain object; the name [__proto__] reaches the
    prototype setter and leaves the own properties as they are. *)
Definition set_property (fs : list (string * value)) (k : value) (x : value)
  : list (string * value) :=
  let name := to_string k in
  if String.eqb name "__proto__" then fs else obj_set fs name x.

(** The values a [for (const x of v)] loop visits. *)
Definition iterate (v : value) : prog (list value) :=
  match v with
  | VArr l => Ret l
  | VStr s => Ret (chars_of s)
  | _ => Throw (TypeError "value is not iterable")
  end.

End Coercions.

(** ** Result objects *)

(** [{ success, data, error }] *)
Definition result3 (success : bool) (data error : value) : value :=
  VObj [("success", VBool success); ("data", data); ("error", error)].

(** [{ success, error }] *)
Definition result2 (success : bool) (error : value) : value :=
  VObj [("success", VBool success); ("error", error)].

(** [const { ... } = await r] *)
Definition await_destructured (r : request) : prog value :=
  resp <- await r ;;
  destructurable resp ;;;
  Ret resp.

Definition auth_getUser : request := RAuth "getUser" [].

(** ** BrokerCredentialService *)

Module BrokerCredentialService.
Section Methods.

Context (rt : Runtime).

Definition ENCRYPTION_KEY : value :=
  js_or (VITE_ENCRYPTION_KEY rt) (VStr "default-encryption-key-change-me").

Definition encrypt (data : value) : prog value :=
  try_catch
    (Local QSalt (fun salt =>
       match AES_encrypt rt (JSON_stringify rt data) ENCRYPTION_KEY salt with
       | Some c => Ret (VStr c)
       | None => Throw (Error "encryption failed")
       end))
    (fun _ => Throw (Error "Failed to encrypt credentials")).

Definition decrypt (encryptedData : value) : prog value :=
  try_catch
    (match AES_decrypt_utf8 rt encryptedData ENCRYPTION_KEY with
     | Some text =>
         match JSON_parse rt text with
         | Some v => Ret v
         | None => Throw (error_value "SyntaxError" "invalid JSON")
         end
     | None => Throw (Error "Malformed UTF-8 data")
     end)
    (fun _ => Throw (Error "Failed to decrypt credentials")).

Definition storeBrokerCredentials (brokerData : value) : prog value :=
  try_catch
    (resp <- await_destructured auth_getUser ;;
     let user := get resp "data" in
     if negb (truthy (get user "user")) then
       Ret (result2 false (VStr "User not authenticated"))
     else
       encryptedCredentials <-
         encrypt (VObj [
           ("apiKey", js_or (get brokerData "apiKey") VNull);
           ("apiSecret", js_or (get brokerData "apiSecret") VNull);
           ("userId", js_or (get brokerData "userId") VNull);
           ("password", js_or (get brokerData "password") VNull);
           ("totpKey", js_or (get brokerData "totpKey") VNull);
           ("serverAddress", js_or (get brokerData "serverAddress") VNull)]) ;;
       resp <- await_destructured (RQuery "brokers" [
         OpInsert (VObj [
           ("name", get brokerData "name");
           ("api_key", encryptedCredentials);
           ("api_secret", VNull);
           ("account_id", js_or (get brokerData "accountId") VNull);
           ("status", VStr "inactive");
           ("user_profile_id", get (get user "user") "id")]);
         OpSelect None; OpSingle]) ;;
       let data := get resp "data" in
       let error := get resp "error" in
       if truthy error then Ret (result2 false (get error "message"))
       else Ret (result3 true data VNull))
    (fun _ => Ret (result2 false (VStr "Failed to store broker credentials"))).

Definition getBrokerCredentials (brokerId : value) : prog value :=
  try_catch
    (resp <- await_destructured auth_getUser ;;
     let user := get resp "data" in
     if negb (truthy (get user "user")) then
       Ret (result2 false (VStr "User not authenticated"))
     else
       resp <- await_destructured (RQuery "brokers" [
         OpSelect (Some "*"); OpEq "id" brokerId;
         OpEq "user_profile_id" (get (get user "user") "id"); OpSingle]) ;;
       let data := get resp "data" in
       let error := get resp "error" in
       if truthy error then Ret (result2 false (get error "message"))
       else if negb (truthy (get data "api_key")) then
         Ret (result2 false (VStr "No credentials found"))
       else
         decryptedCredentials <- decrypt (get data "api_key") ;;
         Ret (result3 true
                (VObj (obj_set (spread data) "credentials" decryptedCredentials))
                VNull))
    (fun _ => Ret (result2 false (VStr "Failed to retrieve credentials"))).

Definition updateBrokerCredentials (brokerId newCredentials : value) : prog value :=
  try_catch
    (resp <- await_destructured auth_getUser ;;
     let user := get resp "data" in
     if negb (truthy (get user "user")) then
       Ret (result2 false (VStr "User not authenticated"))
     else
       encryptedCredentials <- encrypt newCredentials ;;
       updated_at <- now_iso ;;
       resp <- await_destructured (RQuery "brokers" [
         OpUpdate (VObj [("api_key", encryptedCredentials);
                         ("updated_at", updated_at)]);
         OpEq "id" brokerId;
         OpEq "user_profile_id" (get (get user "user") "id");
         OpSelect None; OpSingle]) ;;
       let data := get resp "data" in
       let error := get resp "error" in
       if truthy error then Ret (result2 false (get error "message"))
       else Ret (result3 true data VNull))
    (fun _ => Ret (result2 false (VStr "Failed to update credentials"))).

Definition connected : value :=
  result3 true (VObj [("status", VStr "connected")]) VNull.

Definition testZerodhaConnection (credentials : value) : prog value :=
  try_catch
    (testResponse <- await (RFetch "https://api.kite.trade/user/profile" [
       ("Authorization",
        VStr ("token " ++ to_string rt (get credentials "apiKey") ++ ":"
              ++ to_string rt (get credentials "apiSecret")));
       ("X-Kite-Version", VStr "3")]) ;;
     if truthy (get testResponse "ok") then Ret connected
     else Ret (result2 false (VStr "Invalid Zerodha credentials")))
    (fun _ => Ret (result2 false (VStr "Failed to connect to Zerodha API"))).

Definition testUpstoxConnection (credentials : value) : prog value :=
  try_catch
    (testResponse <- await (RFetch "https://api.upstox.com/v2/user/profile" [
       ("Authorization",
        VStr ("Bearer " ++ to_string rt (get credentials "apiKey")));
       ("Accept", VStr "application/json")]) ;;
     if truthy (get testResponse "ok") then Ret connected
     else Ret (result2 false (VStr "Invalid Upstox credentials")))
    (fun _ => Ret (result2 false (VStr "Failed to connect to Upstox API"))).

Definition testInteractiveBrokersConnection (credentials : value) : prog value :=
  try_catch
    (Ret connected)
    (fun _ => Ret (result2 false
                     (VStr "Failed to connect to Interactive Brokers API"))).

Definition testMT5Connection (credentials : value) : prog value :=
  try_catch
    (Ret connected)
    (fun _ => Ret (result2 false (VStr "Failed to connect to MT5 server"))).

Definition testAlpacaConnection (credentials : value) : prog value :=
  try_catch
    (testResponse <- await (RFetch "https://paper-api.alpaca.markets/v2/account" [
       ("APCA-API-KEY-ID", get credentials "apiKey");
       ("APCA-API-SECRET-KEY", get credentials "apiSecret")]) ;;
     if truthy (get testResponse "ok") then Ret connected
     else Ret (result2 false (VStr "Invalid Alpaca credentials")))
    (fun _ => Ret (result2 false (VStr "Failed to connect to Alpaca API"))).

Definition testBrokerConnection (brokerId : value) : prog value :=
  try_catch
    (credentialsResult <- getBrokerCredentials brokerId ;;
     if negb (truthy (get credentialsResult "success")) then
       Ret credentialsResult
     else
       destructurable credentialsResult ;;;
       let broker := get credentialsResult "data" in
       destructurable broker ;;;
       let credentials := get broker "credentials" in
       name <- call_toLowerCase rt (get broker "name") ;;
       if str_is name "zerodha kite" || str_is name "zerodha" then
         testZerodhaConnection credentials
       else if str_is name "upstox" then
         testUpstoxConnection credentials
       else if str_is name "interactive brokers" then
         testInteractiveBrokersConnection credentials
       else if str_is name "metatrader 5" || str_is name "mt5" then
         testMT5Connection credentials
       else if str_is name "alpaca markets" || str_is name "alpaca" then
         testAlpacaConnection credentials
       else
         Ret (result2 false (VStr "Unsupported broker type")))
    (fun _ => Ret (result2 false (VStr "Failed to test connection"))).

Definition updateBrokerStatus (brokerId status : value) : prog value :=
  try_catch
    (resp <- await_destructured auth_getUser ;;
     let user := get resp "data" in
     if negb (truthy (get user "user")) then
       Ret (result2 false (VStr "User not authenticated"))
     else
       last_sync_at <- (if str_is status "active" then now_iso else Ret VNull) ;;
       updated_at <- now_iso ;;
       resp <- await_destructured (RQuery "brokers" [
         OpUpdate (VObj [("status", status);
                         ("last_sync_at", last_sync_at);
                         ("updated_at", updated_at)]);
         OpEq "id" brokerId;
         OpEq "user_profile_id" (get (get user "user") "id");
         OpSelect None; OpSingle]) ;;
       let data := get resp "data" in
       let error := get resp "error" in
       if truthy error then Ret (result2 false (get error "message"))
       else Ret (result3 true data VNull))
    (fun _ => Ret (result2 false (VStr "Failed to update broker status"))).

Definition deleteBrokerCredentials (brokerId : value) : prog value :=
  try_catch
    (resp <- await_destructured auth_getUser ;;
     let user := get resp "data" in
     if negb (truthy (get user "user")) then
       Ret (result2 false (VStr "User not authenticated"))
     else
       resp <- await_destructured (RQuery "brokers" [
         OpDelete; OpEq "id" brokerId;
         OpEq "user_profile_id" (get (get user "user") "id")]) ;;
       let error := get resp "error" in
       if truthy error then Ret (result2 false (get error "message"))
       else Ret (result2 true VNull))
    (fun _ => Ret (result2 false (VStr "Failed to delete broker credentials"))).

End Methods.
End BrokerCredentialService.

(** ** AuthService *)

Module AuthService.
Section Methods.

Context (rt : Runtime).

Definition paused_project_message : string :=
  "Cannot connect to authentication service. Your Supabase project may be paused or inactive. Please check your Supabase dashboard and resume your project if needed.".

Definition something_went_wrong : value :=
  result2 false (VStr "Something went wrong. Please try again.").

(** The [catch] block shared by [signUp] and [signIn]. *)
Definition connection_catch (error : value) : prog value :=
  failed_to_fetch <- call_includes (get error "message") "Failed to fetch" ;;
  retryable <-
    (if truthy failed_to_fetch then Ret failed_to_fetch
     else call_includes (get error "message") "AuthRetryableFetchError") ;;
  if truthy retryable then Ret (result2 false (VStr paused_project_message))
  else Ret something_went_wrong.

Definition signUp (email password userData : value) : prog value :=
  try_catch
    (resp <- await_destructured (RAuth "signUp" [
       VObj [("email", email);
             ("password", password);
             ("options", VObj [
                ("data", VObj [
                   ("full_name", js_or (get userData "fullName") (VStr ""));
                   ("role", js_or (get userData "role") (VStr "trader"))])])]]) ;;
     let data := get resp "data" in
     let error := get resp "error" in
     if truthy error then
       Ret (result2 false (js_or (get error "message") (VStr "Sign up failed")))
     else Ret (result3 true data VNull))
    connection_catch.

Definition signIn (email password : value) : prog value :=
  try_catch
    (resp <- await_destructured (RAuth "signInWithPassword" [
       VObj [("email", email); ("password", password)]]) ;;
     let data := get resp "data" in
     let error := get resp "error" in
     if truthy error then
       Ret (result2 false (js_or (get error "message") (VStr "Sign in failed")))
     else Ret (result3 true data VNull))
    connection_catch.

Definition signOut : prog value :=
  try_catch
    (resp <- await_destructured (RAuth "signOut" []) ;;
     let error := get resp "error" in
     if truthy error then
       Ret (result2 false (js_or (get error "message") (VStr "Sign out failed")))
     else Ret (result2 true VNull))
    (fun _ => Ret something_went_wrong).

Definition session_result (success : bool) (session error : value) : value :=
  VObj [("success", VBool success); ("session", session); ("error", error)].

Definition profile_result (success : bool) (profile error : value) : value :=
  VObj [("success", VBool success); ("profile", profile); ("error", error)].

Definition getCurrentSession : prog value :=
  try_catch
    (resp <- await_destructured (RAuth "getSession" []) ;;
     destructurable (get resp "data") ;;;
     let session := get (get resp "data") "session" in
     let error := get resp "error" in
     if truthy error then Ret (session_result false VNull (get error "message"))
     else Ret (session_result true session VNull))
    (fun _ => Ret (session_result false VNull (VStr "Failed to get session"))).

Definition getCurrentUserProfile : prog value :=
  try_catch
    (resp <- await_destructured auth_getUser ;;
     destructurable (get resp "data") ;;;
     let user := get (get resp "data") "user" in
     let userError := get resp "error" in
     if truthy userError || negb (truthy user) then
       Ret (profile_result false VNull (VStr "User not authenticated"))
     else
       resp <- await_destructured (RQuery "user_profiles" [
         OpSelect (Some "*"); OpEq "id" (get user "id"); OpSingle]) ;;
       let profile := get resp "data" in
       let profileError := get resp "error" in
       if truthy profileError then
         Ret (profile_result false VNull (get profileError "message"))
       else Ret (profile_result true profile VNull))
    (fun _ => Ret (profile_result false VNull (VStr "Failed to fetch profile"))).

Definition updateProfile (updates : value) : prog value :=
  try_catch
    (resp <- await_destructured auth_getUser ;;
     destructurable (get resp "data") ;;;
     let user := get (get resp "data") "user" in
     let userError := get resp "error" in
     if truthy userError || negb (truthy user) then
       Ret (result2 false (VStr "User not authenticated"))
     else
       updated_at <- now_iso ;;
       resp <- await_destructured (RQuery "user_profiles" [
         OpUpdate (VObj (obj_set (spread updates) "updated_at" updated_at));
         OpEq "id" (get user "id"); OpSelect None; OpSingle]) ;;
       let data := get resp "data" in
       let error := get resp "error" in
       if truthy error then
         Ret (result2 false
                (js_or (get error "message") (VStr "Profile update failed")))
       else Ret (result3 true data VNull))
    (fun _ => Ret something_went_wrong).

Definition resetPassword (email : value) : prog value :=
  try_catch
    (resp <- await_destructured (RAuth "resetPasswordForEmail" [
       email;
       VObj [("redirectTo",
              VStr (to_string rt (window_location_origin rt)
                    ++ "/reset-password"))]]) ;;
     let error := get resp "error" in
     if truthy error then
       Ret (result2 false
              (js_or (get error "message") (VStr "Password reset failed")))
     else Ret (result2 true VNull))
    (fun _ => Ret something_went_wrong).

Definition updatePassword (newPassword : value) : prog value :=
  try_catch
    (resp <- await_destructured (RAuth "updateUser" [
       VObj [("password", newPassword)]]) ;;
     let error := get resp "error" in
     if truthy error then
       Ret (result2 false
              (js_or (get error "message") (VStr "Password update failed")))
     else Ret (result2 true VNull))
    (fun _ => Ret something_went_wrong).

Definition signInWithProvider (provider : value) : prog value :=
  try_catch
    (resp <- await_destructured (RAuth "signInWithOAuth" [
       VObj [("provider", provider);
             ("options", VObj [
                ("redirectTo",
                 VStr (to_string rt (window_location_origin rt)
                       ++ "/dashboard"))])]]) ;;
     let data := get resp "data" in
     let error := get resp "error" in
     if truthy error then
       Ret (result2 false
              (js_or (get error "message") (VStr "OAuth sign in failed")))
     else Ret (result3 true data VNull))
    (fun _ => Ret something_went_wrong).

End Methods.
End AuthService.

(** ** TradingService *)

Module TradingService.

(** The [results] object [syncFromBrokers] accumulates into. *)
Record sync_results : Type := {
  upstox : value;
  zerodha : value;
  interactive : value;
  alpaca : value;
  totalImported : value;
  errors : list string
}.

(** How [closeTrade] is given its third argument: not at all, as a [Date]
    (whose time value may be invalid), or as some other value. *)
Inductive date_arg : Type :=
| DateOmitted
| DateObject (iso : option string)
| DateOther (v : value).

Section Methods.

Context (rt : Runtime).

Definition trading_accounts_columns : string :=
"
          *,
          brokers (
            name,
            status
          )
        ".

Definition trades_columns : string :=
"
          *,
          trading_accounts (
            account_name,
            brokers (
              name
            )
          )
        ".

Definition getTradingAccounts : prog value :=
  try_catch
    (resp <- await_destructured (RQuery "trading_accounts" [
       OpSelect (Some trading_accounts_columns);
       OpEq "is_active" (VBool true);
       OpOrder "created_at" false]) ;;
     let data := get resp "data" in
     let error := get resp "error" in
     if truthy error then Ret (result3 false (VArr []) (get error "message"))
     else Ret (result3 true (js_or data (VArr [])) VNull))
    (fun _ => Ret (result3 false (VArr [])
                     (VStr "Failed to fetch trading accounts"))).

(** The query [getTrades] builds, one builder call after the other. *)
Definition trades_query (filters : value) : list qop :=
  let query := [OpSelect (Some trades_columns)] in
  let query :=
    if truthy (get filters "status")
    then query ++ [OpEq "status" (get filters "status")] else query in
  let query :=
    if truthy (get filters "symbol")
    then query ++ [OpIlike "symbol"
                     ("%" ++ to_string rt (get filters "symbol") ++ "%")]
    else query in
  let query :=
    if truthy (get filters "dateFrom")
    then query ++ [OpGte "opened_at" (get filters "dateFrom")] else query in
  let query :=
    if truthy (get filters "dateTo")
    then query ++ [OpLte "opened_at" (get filters "dateTo")] else query in
  let limit := js_or (get filters "limit") (VNum 50) in
  let offset := js_or (get filters "offset") (VNum 0) in
  let query :=
    query ++ [OpRange offset (js_sub rt (js_add rt offset limit) (VNum 1))] in
  query ++ [OpOrder "opened_at" false].

Definition getTrades (filters : value) : prog value :=
  try_catch
    (resp <- await_destructured (RQuery "trades" (trades_query filters)) ;;
     let data := get resp "data" in
     let error := get resp "error" in
     if truthy error then Ret (result3 false (VArr []) (get error "message"))
     else Ret (result3 true (js_or data (VArr [])) VNull))
    (fun _ => Ret (result3 false (VArr []) (VStr "Failed to fetch trades"))).

(** [console.error] calls are left out: they return nothing and reach
    neither the backend nor the result. *)
Definition createTrade (tradeData : value) : prog value :=
  try_catch
    (resp <- await_destructured auth_getUser ;;
     destructurable (get resp "data") ;;;
     let user := get (get resp "data") "user" in
     let userError := get resp "error" in
     if truthy userError || negb (truthy user) then
       Ret (result3 false VNull (VStr "User not authenticated"))
     else
       let userId := toString_method rt (get user "id") in
       if negb (truthy userId) then
         Ret (result3 false VNull (VStr "Invalid user ID"))
       else if negb (truthy (get tradeData "instrument"))
               || negb (truthy (get tradeData "quantity"))
               || negb (truthy (get tradeData "entryPrice")) then
         Ret (result3 false VNull (VStr "Missing required trade data"))
       else
         let instrument := toString_method rt (get tradeData "instrument") in
         let tradeType := toString_method rt (get tradeData "tradeType") in
         tradeDate <-
           (if truthy (get tradeData "tradeDate")
            then Ret (get tradeData "tradeDate") else now_iso) ;;
         resp <- await_destructured (RQuery "trades" [
           OpInsert (VObj [
             ("instrument", instrument);
             ("tradeType", tradeType);
             ("quantity", parseInt rt (get tradeData "quantity"));
             ("entryPrice", parseFloat rt (get tradeData "entryPrice"));
             ("exitPrice",
              if truthy (get tradeData "exitPrice")
              then parseFloat rt (get tradeData "exitPrice") else VNull);
             ("tradeDate", tradeDate);
             ("strategy", js_or (get tradeData "strategy") VNull);
             ("notes", js_or (get tradeData "notes") VNull);
             ("process", js_or (get tradeData "process") (VStr "manual"));
             ("pnl", js_or (get tradeData "pnl") (VNum 0));
             ("pnlCurrency", js_or (get tradeData "pnlCurrency") (VStr "INR"));
             ("userId", userId)]);
           OpSelect None; OpSingle]) ;;
         let data := get resp "data" in
         let error := get resp "error" in
         if truthy error then Ret (result3 false VNull (get error "message"))
         else Ret (result3 true data VNull))
    (fun _ => Ret (result3 false VNull (VStr "Failed to create trade"))).

Definition updateTrade (tradeId updates : value) : prog value :=
  try_catch
    (updated_at <- now_iso ;;
     resp <- await_destructured (RQuery "trades" [
       OpUpdate (VObj (obj_set (spread updates) "updated_at" updated_at));
       OpEq "id" tradeId; OpSelect None; OpSingle]) ;;
     let data := get resp "data" in
     let error := get resp "error" in
     if truthy error then Ret (result3 false VNull (get error "message"))
     else Ret (result3 true data VNull))
    (fun _ => Ret (result3 false VNull (VStr "Failed to update trade"))).

(** [closedAt?.toISOString()] on the argument as bound after defaulting;
    [now] is the default value [new Date()], which also stands in for an
    explicit [undefined]. *)
Definition closedAt_toISOString (closedAt : date_arg) (now : string)
  : prog value :=
  match closedAt with
  | DateOmitted | DateOther VUndef => Ret (VStr now)
  | DateObject (Some iso) => Ret (VStr iso)
  | DateObject None => Throw (error_value "RangeError" "Invalid time value")
  | DateOther VNull => Ret VUndef
  | DateOther _ => Throw (TypeError "toISOString is not a function")
  end.

Definition closeTrade (tradeId exitPrice : value) (closedAt : date_arg)
  : prog value :=
  Local QNow (fun default_closedAt =>
    try_catch
      (closed_at <- closedAt_toISOString closedAt default_closedAt ;;
       updated_at <- now_iso ;;
       resp <- await_destructured (RQuery "trades" [
         OpUpdate (VObj [("exit_price", exitPrice);
                         ("status", VStr "closed");
                         ("closed_at", closed_at);
                         ("updated_at", updated_at)]);
         OpEq "id" tradeId; OpSelect None; OpSingle]) ;;
       let data := get resp "data" in
       let error := get resp "error" in
       if truthy error then Ret (result3 false VNull (get error "message"))
       else Ret (result3 true data VNull))
      (fun _ => Ret (result3 false VNull (VStr "Failed to close trade")))).

Definition deleteTrade (tradeId : value) : prog value :=
  try_catch
    (resp <- await_destructured (RQuery "trades" [
       OpDelete; OpEq "id" tradeId]) ;;
     let error := get resp "error" in
     if truthy error then Ret (result2 false (get error "message"))
     else Ret (result2 true VNull))
    (fun _ => Ret (result2 false (VStr "Failed to delete trade"))).

(** [rows?.reduce((sum, row) => sum + (parseFloat(row?.[field]) || 0), 0)] *)
Definition sum_field (field : string) (rows : value) : prog value :=
  match rows with
  | VUndef | VNull => Ret VUndef
  | VArr l =>
      Ret (fold_left
             (fun sum row =>
                js_add rt sum (js_or (parseFloat rt (get row field)) (VNum 0)))
             l (VNum 0))
  | _ => Throw (TypeError "reduce is not a function")
  end.

Definition getPortfolioSummary : prog value :=
  try_catch
    (resp <- await_destructured (RQuery "portfolios" [
       OpSelect (Some "*"); OpOrder "created_at" false]) ;;
     let portfolios := get resp "data" in
     let portfolioError := get resp "error" in
     if truthy portfolioError then
       Ret (result3 false VNull (get portfolioError "message"))
     else
       resp <- await_destructured (RQuery "trading_accounts" [
         OpSelect (Some "balance, currency");
         OpEq "is_active" (VBool true)]) ;;
       let accounts := get resp "data" in
       let accountError := get resp "error" in
       if truthy accountError then
         Ret (result3 false VNull (get accountError "message"))
       else
         balance_sum <- sum_field "balance" accounts ;;
         let totalBalance := js_or balance_sum (VNum 0) in
         pnl_sum <- sum_field "total_pnl" portfolios ;;
         let totalPnL := js_or pnl_sum (VNum 0) in
         let summary := VObj [
           ("portfolios", js_or portfolios (VArr []));
           ("totalBalance", totalBalance);
           ("totalPnL", totalPnL);
           ("totalPnLPercentage",
            if js_gt_num rt totalBalance 0
            then VNum (to_number rt totalPnL / to_number rt totalBalance * 100)
            else VNum 0)] in
         Ret (result3 true summary VNull))
    (fun _ => Ret (result3 false VNull
                     (VStr "Failed to fetch portfolio summary"))).

(** The query [getAnalyticsData] builds. *)
Definition analytics_query (filters : value) : list qop :=
  let query := [OpSelect (Some "*")] in
  let query :=
    if truthy (get filters "dateFrom")
    then query ++ [OpGte "date" (get filters "dateFrom")] else query in
  let query :=
    if truthy (get filters "dateTo")
    then query ++ [OpLte "date" (get filters "dateTo")] else query in
  query ++ [OpOrder "date" true].

Definition getAnalyticsData (filters : value) : prog value :=
  try_catch
    (resp <- await_destructured
               (RQuery "analytics_data" (analytics_query filters)) ;;
     let data := get resp "data" in
     let error := get resp "error" in
     if truthy error then Ret (result3 false (VArr []) (get error "message"))
     else Ret (result3 true (js_or data (VArr [])) VNull))
    (fun _ => Ret (result3 false (VArr [])
                     (VStr "Failed to fetch analytics data"))).

Definition getBrokers : prog value :=
  try_catch
    (resp <- await_destructured (RQuery "brokers" [
       OpSelect (Some "*"); OpOrder "created_at" false]) ;;
     let data := get resp "data" in
     let error := get resp "error" in
     if truthy error then Ret (result3 false (VArr []) (get error "message"))
     else Ret (result3 true (js_or data (VArr [])) VNull))
    (fun _ => Ret (result3 false (VArr []) (VStr "Failed to fetch brokers"))).

Definition getStrategies : prog value :=
  try_catch
    (resp <- await_destructured (RQuery "strategies" [
       OpSelect (Some "*"); OpEq "is_active" (VBool true);
       OpOrder "created_at" false]) ;;
     let data := get resp "data" in
     let error := get resp "error" in
     if truthy error then Ret (result3 false (VArr []) (get error "message"))
     else Ret (result3 true (js_or data (VArr [])) VNull))
    (fun _ => Ret (result3 false (VArr []) (VStr "Failed to fetch strategies"))).

Definition createTradingAccountFromBroker (brokerId brokerData : value)
  : prog value :=
  try_catch
    (resp <- await_destructured auth_getUser ;;
     let user := get resp "data" in
     if negb (truthy (get user "user")) then
       Ret (result2 false (VStr "User not authenticated"))
     else
       resp <- await_destructured (RQuery "trading_accounts" [
         OpInsert (VObj [
           ("account_name",
            VStr (to_string rt (get brokerData "name") ++ " Account"));
           ("account_number", js_or (get brokerData "accountId") VNull);
           ("broker_id", brokerId);
           ("balance", VNum 0);
           ("currency", VStr "USD");
           ("is_active", VBool true);
           ("user_profile_id", get (get user "user") "id")]);
         OpSelect None; OpSingle]) ;;
       let data := get resp "data" in
       let error := get resp "error" in
       if truthy error then Ret (result2 false (get error "message"))
       else Ret (result3 true data VNull))
    (fun _ => Ret (result2 false (VStr "Failed to create trading account"))).

Definition addBroker (brokerData : value) : prog value :=
  try_catch
    (result <- BrokerCredentialService.storeBrokerCredentials rt brokerData ;;
     if negb (truthy (get result "success")) then Ret result
     else
       let id := get (get result "data") "id" in
       testResult <- BrokerCredentialService.testBrokerConnection rt id ;;
       (if truthy (get testResult "success") then
          BrokerCredentialService.updateBrokerStatus id (VStr "active") ;;;
          createTradingAccountFromBroker id brokerData
        else
          BrokerCredentialService.updateBrokerStatus id (VStr "error")) ;;;
       Ret (result3 true
              (VObj (obj_set (spread (get result "data"))
                       "connectionTest" testResult))
              VNull))
    (fun _ => Ret (result3 false VNull (VStr "Failed to add broker"))).

Definition imported_nothing : value :=
  result3 true (VObj [("importedCount", VNum 0)]) VNull.

Definition syncZerodhaData (brokerId : value) : prog value :=
  try_catch
    (credentialsResult <-
       BrokerCredentialService.getBrokerCredentials rt brokerId ;;
     if negb (truthy (get credentialsResult "success")) then
       Ret credentialsResult
     else
       destructurable (get credentialsResult "data") ;;;
       let credentials := get (get credentialsResult "data") "credentials" in
       response <- await (RFetch "https://api.kite.trade/portfolio/positions" [
         ("Authorization",
          VStr ("token " ++ to_string rt (get credentials "apiKey") ++ ":"
                ++ to_string rt (get credentials "apiSecret")));
         ("X-Kite-Version", VStr "3")]) ;;
       if negb (truthy (get response "ok")) then
         Ret (result2 false (VStr "Failed to fetch Zerodha data"))
       else
         await (RBodyJson response) ;;;
         Ret imported_nothing)
    (fun _ => Ret (result3 false VNull (VStr "Failed to sync Zerodha data"))).

Definition syncInteractiveBrokersData (brokerId : value) : prog value :=
  try_catch
    (credentialsResult <-
       BrokerCredentialService.getBrokerCredentials rt brokerId ;;
     if negb (truthy (get credentialsResult "success")) then
       Ret credentialsResult
     else Ret imported_nothing)
    (fun _ => Ret (result3 false VNull
                     (VStr "Failed to sync Interactive Brokers data"))).

Definition syncAlpacaData (brokerId : value) : prog value :=
  try_catch
    (credentialsResult <-
       BrokerCredentialService.getBrokerCredentials rt brokerId ;;
     if negb (truthy (get credentialsResult "success")) then
       Ret credentialsResult
     else
       destructurable (get credentialsResult "data") ;;;
       let credentials := get (get credentialsResult "data") "credentials" in
       response <- await (RFetch "https://paper-api.alpaca.markets/v2/positions" [
         ("APCA-API-KEY-ID", get credentials "apiKey");
         ("APCA-API-SECRET-KEY", get credentials "apiSecret")]) ;;
       if negb (truthy (get response "ok")) then
         Ret (result2 false (VStr "Failed to fetch Alpaca data"))
       else
         await (RBodyJson response) ;;;
         Ret imported_nothing)
    (fun _ => Ret (result3 false VNull (VStr "Failed to sync Alpaca data"))).

Definition initial_results : sync_results := {|
  upstox := result3 false VNull VNull;
  zerodha := result3 false VNull VNull;
  interactive := result3 false VNull VNull;
  alpaca := result3 false VNull VNull;
  totalImported := VNum 0;
  errors := []
|}.

Definition set_upstox (r : sync_results) (v : value) : sync_results :=
  {| upstox := v; zerodha := zerodha r; interactive := interactive r;
     alpaca := alpaca r; totalImported := totalImported r; errors := errors r |}.

Definition set_zerodha (r : sync_results) (v : value) : sync_results :=
  {| upstox := upstox r; zerodha := v; interactive := interactive r;
     alpaca := alpaca r; totalImported := totalImported r; errors := errors r |}.

Definition set_interactive (r : sync_results) (v : value) : sync_results :=
  {| upstox := upstox r; zerodha := zerodha r; interactive := v;
     alpaca := alpaca r; totalImported := totalImported r; errors := errors r |}.

Definition set_alpaca (r : sync_results) (v : value) : sync_results :=
  {| upstox := upstox r; zerodha := zerodha r; interactive := interactive r;
     alpaca := v; totalImported := totalImported r; errors := errors r |}.

Definition add_imported (r : sync_results) (count : value) : sync_results :=
  {| upstox := upstox r; zerodha := zerodha r; interactive := interactive r;
     alpaca := alpaca r; totalImported := js_add rt (totalImported r) count;
     errors := errors r |}.

Definition push_error (r : sync_results) (msg : string) : sync_results :=
  {| upstox := upstox r; zerodha := zerodha r; interactive := interactive r;
     alpaca := alpaca r; totalImported := totalImported r;
     errors := errors r ++ [msg] |}.

Definition results_value (r : sync_results) : value :=
  VObj [("upstox", upstox r); ("zerodha", zerodha r);
        ("interactive", interactive r); ("alpaca", alpaca r);
        ("totalImported", totalImported r);
        ("errors", VArr (map VStr (errors r)))].

Definition unsupported_broker : value :=
  result3 false VNull (VStr "Unsupported broker").

(** The [switch] of the loop body: the per-broker sync that is called and
    the slot of [results] its result is stored in. *)
Definition dispatch (results : sync_results) (broker : value)
  : prog (sync_results * value) :=
  name <- call_toLowerCase rt (get broker "name") ;;
  if str_is name "upstox" then
    upstoxConnected <- await (RUpstox "isConnected") ;;
    syncResult <-
      (if truthy upstoxConnected
       then await (RUpstox "importTradesToDatabase")
       else Ret unsupported_broker) ;;
    Ret (set_upstox results syncResult, syncResult)
  else if str_is name "zerodha kite" || str_is name "zerodha" then
    syncResult <- syncZerodhaData (get broker "id") ;;
    Ret (set_zerodha results syncResult, syncResult)
  else if str_is name "interactive brokers" then
    syncResult <- syncInteractiveBrokersData (get broker "id") ;;
    Ret (set_interactive results syncResult, syncResult)
  else if str_is name "alpaca markets" || str_is name "alpaca" then
    syncResult <- syncAlpacaData (get broker "id") ;;
    Ret (set_alpaca results syncResult, syncResult)
  else Ret (results, unsupported_broker).

(** What the loop body does with [syncResult] after the [switch]. *)
Definition tally (results : sync_results) (broker syncResult : value)
  : sync_results :=
  if truthy (get syncResult "success") then
    add_imported results
      (js_or (get (get syncResult "data") "importedCount") (VNum 0))
  else
    push_error results
      (to_string rt (get broker "name") ++ ": "
       ++ to_string rt (get syncResult "error")).

(** One iteration of the loop.  Nothing is assigned to [results] before the
    last statement that can throw, so the [catch] block sees the object as
    it was when the iteration began. *)
Definition sync_one (results : sync_results) (broker : value)
  : prog sync_results :=
  try_catch
    (step <- dispatch results broker ;;
     Ret (tally (fst step) broker (snd step)))
    (fun error =>
       Ret (push_error results
              (to_string rt (get broker "name") ++ ": "
               ++ to_string rt (get error "message")))).

Fixpoint sync_each (brokers : list value) (results : sync_results)
  : prog sync_results :=
  match brokers with
  | [] => Ret results
  | broker :: rest =>
      results' <- sync_one results broker ;;
      sync_each rest results'
  end.

Definition sync_report (results : sync_results) : value :=
  result3
    (js_gt_num rt (totalImported results) 0
     || Nat.eqb (List.length (errors results)) 0)
    (VObj [("totalImported", totalImported results);
           ("brokerResults", results_value results)])
    (if Nat.ltb 0 (List.length (errors results))
     then VStr (String.concat "; " (errors results))
     else VNull).

Definition syncFromBrokers : prog value :=
  try_catch
    (brokersResult <- getBrokers ;;
     if negb (truthy (get brokersResult "success")) then
       Ret (result3 false VNull (VStr "Failed to get brokers"))
     else
       activeBrokers <-
         call_filter (get brokersResult "data")
           (fun broker => str_is (get broker "status") "active") ;;
       brokers <- iterate activeBrokers ;;
       results <- sync_each brokers initial_results ;;
       last_sync_at <- now_iso ;;
       await (RQuery "brokers" [
         OpUpdate (VObj [("last_sync_at", last_sync_at)]);
         OpEq "status" (VStr "active")]) ;;;
       Ret (sync_report results))
    (fun _ => Ret (result3 false VNull (VStr "Failed to sync broker data"))).

Definition broker_status_entry (broker testResult : value) : value :=
  VObj [("name", get broker "name");
        ("connected", get testResult "success");
        ("lastSync", get broker "last_sync_at");
        ("status", get broker "status");
        ("error", get testResult "error")].

(** [broker?.name?.toLowerCase()?.replace(/\s+/g, '_')] *)
Definition broker_status_key (broker : value) : prog value :=
  name <- call_toLowerCase rt (get broker "name") ;;
  match name with
  | VStr s => Ret (VStr (replace_whitespace_runs rt s))
  | _ => Ret VUndef
  end.

Fixpoint status_each (brokers : list value) (statuses : list (string * value))
  : prog (list (string * value)) :=
  match brokers with
  | [] => Ret statuses
  | broker :: rest =>
      testResult <-
        BrokerCredentialService.testBrokerConnection rt (get broker "id") ;;
      key <- broker_status_key broker ;;
      status_each rest
        (set_property rt statuses key (broker_status_entry broker testResult))
  end.

Definition getBrokerStatus : prog value :=
  try_catch
    (upstoxStatus <- await (RUpstox "getConnectionStatus") ;;
     let statuses := [
       ("upstox", VObj [
          ("name", VStr "Upstox");
          ("connected", get upstoxStatus "connected");
          ("lastSync", get upstoxStatus "lastSync");
          ("status",
           if truthy (get upstoxStatus "connected")
           then VStr "active" else VStr "inactive");
          ("error", get upstoxStatus "error")])] in
     brokersResult <- getBrokers ;;
     statuses <-
       (if truthy (get brokersResult "success") then
          brokers <- iterate (get brokersResult "data") ;;
          status_each brokers statuses
        else Ret statuses) ;;
     Ret (result3 true (VObj statuses) VNull))
    (fun _ => Ret (result3 false VNull (VStr "Failed to get broker status"))).

End Methods.
End TradingService.

(** ** The asynchronous operations of the three services *)

Inductive operation : Type :=
| T_getTradingAccounts
| T_getTrades (filters : value)
| T_createTrade (tradeData : value)
| T_updateTrade (tradeId updates : value)
| T_closeTrade (tradeId exitPrice : value) (closedAt : TradingService.date_arg)
| T_deleteTrade (tradeId : value)
| T_getPortfolioSummary
| T_getAnalyticsData (filters : value)
| T_getBrokers
| T_addBroker (brokerData : value)
| T_createTradingAccountFromBroker (brokerId brokerData : value)
| T_syncFromBrokers
| T_syncZerodhaData (brokerId : value)
| T_syncInteractiveBrokersData (brokerId : value)
| T_syncAlpacaData (brokerId : value)
| T_getBrokerStatus
| T_getStrategies
| B_storeBrokerCredentials (brokerData : value)
| B_getBrokerCredentials (brokerId : value)
| B_updateBrokerCredentials (brokerId newCredentials : value)
| B_testBrokerConnection (brokerId : value)
| B_testZerodhaConnection (credentials : value)
| B_testUpstoxConnection (credentials : value)
| B_testInteractiveBrokersConnection (credentials : value)
| B_testMT5Connection (credentials : value)
| B_testAlpacaConnection (credentials : value)
| B_updateBrokerStatus (brokerId status : value)
| B_deleteBrokerCredentials (brokerId : value)
| A_signUp (email password userData : value)
| A_signIn (email password : value)
| A_signOut
| A_getCurrentSession
| A_getCurrentUserProfile
| A_updateProfile (updates : value)
| A_resetPassword (email : value)
| A_updatePassword (newPassword : value)
| A_signInWithProvider (provider : value).

Definition perform (rt : Runtime) (op : operation) : prog value :=
  match op with
  | T_getTradingAccounts => TradingService.getTradingAccounts
  | T_getTrades filters => TradingService.getTrades rt filters
  | T_createTrade tradeData => TradingService.createTrade rt tradeData
  | T_updateTrade tradeId updates => TradingService.updateTrade tradeId updates
  | T_closeTrade tradeId exitPrice closedAt =>
      TradingService.closeTrade tradeId exitPrice closedAt
  | T_deleteTrade tradeId => TradingService.deleteTrade tradeId
  | T_getPortfolioSummary => TradingService.getPortfolioSummary rt
  | T_getAnalyticsData filters => TradingService.getAnalyticsData filters
  | T_getBrokers => TradingService.getBrokers
  | T_addBroker brokerData => TradingService.addBroker rt brokerData
  | T_createTradingAccountFromBroker brokerId brokerData =>
      TradingService.createTradingAccountFromBroker rt brokerId brokerData
  | T_syncFromBrokers => TradingService.syncFromBrokers rt
  | T_syncZerodhaData brokerId => TradingService.syncZerodhaData rt brokerId
  | T_syncInteractiveBrokersData brokerId =>
      TradingService.syncInteractiveBrokersData rt brokerId
  | T_syncAlpacaData brokerId => TradingService.syncAlpacaData rt brokerId
  | T_getBrokerStatus => TradingService.getBrokerStatus rt
  | T_getStrategies => TradingService.getStrategies
  | B_storeBrokerCredentials brokerData =>
      BrokerCredentialService.storeBrokerCredentials rt brokerData
  | B_getBrokerCredentials brokerId =>
      BrokerCredentialService.getBrokerCredentials rt brokerId
  | B_updateBrokerCredentials brokerId newCredentials =>
      BrokerCredentialService.updateBrokerCredentials rt brokerId newCredentials
  | B_testBrokerConnection brokerId =>
      BrokerCredentialService.testBrokerConnection rt brokerId
  | B_testZerodhaConnection credentials =>
      BrokerCredentialService.testZerodhaConnection rt credentials
  | B_testUpstoxConnection credentials =>
      BrokerCredentialService.testUpstoxConnection rt credentials
  | B_testInteractiveBrokersConnection credentials =>
      BrokerCredentialService.testInteractiveBrokersConnection credentials
  | B_testMT5Connection credentials =>
      BrokerCredentialService.testMT5Connection credentials
  | B_testAlpacaConnection credentials =>
      BrokerCredentialService.testAlpacaConnection credentials
  | B_updateBrokerStatus brokerId status =>
      BrokerCredentialService.updateBrokerStatus brokerId status
  | B_deleteBrokerCredentials brokerId =>
      BrokerCredentialService.deleteBrokerCredentials brokerId
  | A_signUp email password userData =>
      AuthService.signUp email password userData
  | A_signIn email password => AuthService.signIn email password
  | A_signOut => AuthService.signOut
  | A_getCurrentSession => AuthService.getCurrentSession
  | A_getCurrentUserProfile => AuthService.getCurrentUserProfile
  | A_updateProfile updates => AuthService.updateProfile updates
  | A_resetPassword email => AuthService.resetPassword rt email
  | A_updatePassword newPassword => AuthService.updatePassword newPassword
  | A_signInWithProvider provider => AuthService.signInWithProvider rt provider
  end.

(** ** What the clients promise, and what the services return *)

Definition has_message (e : value) : bool :=
  match get e "message" with
  | VStr _ => true
  | _ => false
  end.

(** A thrown value that is an [Error]: its message is a string, or absent. *)
Definition error_like (e : value) : bool :=
  match get e "message" with
  | VStr _ | VUndef => true
  | _ => false
  end.

(** The documented behaviour of the backend client: a resolved
    [{ data, error }] response has either no error or an error object with
    a string [message], and what an authentication call rejects with is an
    [Error].  Nothing is promised about [fetch] or the Upstox service. *)
Definition backend_contract (r : request) (out : outcome) : Prop :=
  match r, out with
  | RAuth _ _, Rejected e => error_like e = true
  | (RQuery _ _ | RAuth _ _), Resolved v =>
      truthy (get v "error") = true -> has_message (get v "error") = true
  | _, _ => True
  end.

(** The shape every service result has: a boolean [success] and an [error]
    that is a message when [success] is false.  The strict shape also asks
    for [error: null] when [success] is true; [with_data] asks for a [data]
    property. *)
Definition shape (strict with_data : bool) (res : value) : bool :=
  match res with
  | VObj fs =>
      match assoc "success" fs, assoc "error" fs with
      | Some (VBool true), Some VNull => true
      | Some (VBool true), Some _ => negb strict
      | Some (VBool false), Some (VStr _) => true
      | _, _ => false
      end
      && (negb with_data || has_field res "data")
  | _ => false
  end.

Definition returns_shape (strict with_data : bool)
  : completion value -> list request -> Prop :=
  fun c _ =>
    match c with
    | Returned res => shape strict with_data res = true
    | Thrown _ => False
    end.

(** The operations every result of which carries a [data] property. *)
Definition carries_data (op : operation) : bool :=
  match op with
  | T_getTradingAccounts | T_getTrades _ | T_createTrade _ | T_updateTrade _ _
  | T_closeTrade _ _ _ | T_getPortfolioSummary | T_getAnalyticsData _
  | T_getBrokers | T_syncFromBrokers | T_getBrokerStatus | T_getStrategies =>
      true
  | _ => false
  end.

(** [syncFromBrokers] alone may report success together with an error. *)
Definition strict_success (op : operation) : bool :=
  match op with
  | T_syncFromBrokers => false
  | _ => true
  end.

(** What the result of operation [op] looks like. *)
Definition result_contract (op : operation) (res : value) : Prop :=
  exists b,
    get res "success" = VBool b /\
    has_field res "error" = true /\
    (b = false -> exists m, get res "error" = VStr m) /\
    (b = true -> op <> T_syncFromBrokers -> get res "error" = VNull) /\
    (carries_data op = true -> has_field res "data" = true).

Definition is_array (v : value) : bool :=
  match v with
  | VArr _ => true
  | _ => false
  end.

(** ** Sample environments *)

Definition scripted (f : nat -> request -> outcome) : oracle := {|
  answer := f;
  local_answer := fun _ q =>
    match q with
    | QNow => "2025-01-01T00:00:00.000Z"
    | QSalt => "c2FsdA=="
    end
|}.

(** [{ data, error: null }] *)
Definition ok_response (data : value) : value :=
  VObj [("data", data); ("error", VNull)].

(** [{ data: null, error: { message } }] *)
Definition error_response (message : string) : value :=
  VObj [("data", VNull); ("error", VObj [("message", VStr message)])].

(** The environment that gives the same outcome to every request. *)
Definition always (out : outcome) : oracle := scripted (fun _ _ => out).

(** ** A sample runtime

    A small runtime to evaluate the services on concrete inputs.  Its
    conversions agree with the engine on the integers, ASCII names and
    escape-free strings the examples use; its cipher is a stand-in that is
    reversible under one key, as the CryptoJS cipher is. *)
Module Sample.

Definition lower_ascii (c : ascii) : ascii :=
  let n := nat_of_ascii c in
  if (65 <=? n) && (n <=? 90) then ascii_of_nat (n + 32) else c.

Fixpoint lower (s : string) : string :=
  match s with
  | EmptyString => EmptyString
  | String c rest => String (lower_ascii c) (lower rest)
  end.

Definition is_space (c : ascii) : bool :=
  let n := nat_of_ascii c in
  (n =? 32) || ((9 <=? n) && (n <=? 13)).

Fixpoint underscore_runs (in_run : bool) (s : string) : string :=
  match s with
  | EmptyString => EmptyString
  | String c rest =>
      if is_space c then
        if in_run then underscore_runs true rest
        else String "_"%char (underscore_runs true rest)
      else String c (underscore_runs false rest)
  end.

(** The integer a float denotes, when it denotes one. *)
Definition float_to_Z (x : float) : option Z :=
  match Prim2SF x with
  | SpecFloat.S754_zero _ => Some 0%Z
  | SpecFloat.S754_finite s m e =>
      let mag :=
        match e with
        | Z0 => Some (Zpos m)
        | Zpos k => Some (Zpos m * 2 ^ Zpos k)%Z
        | Zneg k =>
            if (Zpos m mod 2 ^ Zpos k =? 0)%Z
            then Some (Zpos m / 2 ^ Zpos k)%Z else None
        end in
      match mag with
      | Some z => Some (if s then (- z)%Z else z)
      | None => None
      end
  | _ => None
  end.

Definition print_number (x : float) : string :=
  match float_to_Z x with
  | Some z =>
      if (z <? 0)%Z then ("-" ++ nat_to_string (Z.to_nat (- z)))%string
      else nat_to_string (Z.to_nat z)
  | None => "NaN"
  end.

Definition read_number (s : string) : float :=
  match s with
  | EmptyString => nan
  | String "-"%char rest =>
      match parse_digits rest 0 with
      | Some n => if String.eqb rest "" then nan else (- nat_to_float n)%float
      | None => nan
      end
  | _ =>
      match parse_digits s 0 with
      | Some n => nat_to_float n
      | None => nan
      end
  end.

Definition dquote : ascii := ascii_of_nat 34.

Fixpoint escape (s : string) : string :=
  match s with
  | EmptyString => EmptyString
  | String c rest =>
      if Ascii.eqb c dquote || Ascii.eqb c "\"%char
      then String "\"%char (String c (escape rest))
      else String c (escape rest)
  end.

Definition quote (s : string) : string :=
  (String dquote (escape s) ++ String dquote EmptyString)%string.

Fixpoint print (v : value) : string :=
  match v with
  | VUndef | VNull => "null"
  | VBool true => "true"
  | VBool false => "false"
  | VNum x => print_number x
  | VStr s => quote s
  | VArr l =>
      ("[" ++ (fix items (l : list value) : string :=
                 match l with
                 | [] => ""
                 | [x] => print x
                 | x :: rest => print x ++ "," ++ items rest
                 end) l ++ "]")%string
  | VObj fs =>
      ("{" ++ (fix members (first : bool) (fs : list (string * value)) : string :=
                 match fs with
                 | [] => ""
                 | (k, VUndef) :: rest => members first rest
                 | (k, x) :: rest =>
                     (if first then "" else ",") ++ quote k ++ ":" ++ print x
                     ++ members false rest
                 end) true fs ++ "}")%string
  end.

Definition stringify (v : value) : value :=
  match v with
  | VUndef => VUndef
  | _ => VStr (print v)
  end.

(** Reading back what [print] writes. *)
Fixpoint read_string (s : string) (acc : string) : option (string * string) :=
  match s with
  | EmptyString => None
  | String c rest =>
      if Ascii.eqb c dquote then Some (acc, rest)
      else if Ascii.eqb c "\"%char then
        match rest with
        | String c' rest' =>
            read_string rest' (acc ++ String c' EmptyString)
        | EmptyString => None
        end
      else read_string rest (acc ++ String c EmptyString)
  end.

Fixpoint read_digits (s : string) (acc : string) : string * string :=
  match s with
  | String c rest =>
      match digit_of c with
      | Some _ => read_digits rest (acc ++ String c EmptyString)
      | None => (acc, s)
      end
  | EmptyString => (acc, s)
  end.

Definition take_prefix (p s : string) : option string :=
  if String.prefix p s
  then Some (String.substring (String.length p) (String.length s - String.length p) s)
  else None.

Fixpoint read_value (fuel : nat) (s : string) : option (value * string) :=
  match fuel with
  | O => None
  | S fuel' =>
      match s with
      | String "n"%char _ =>
          option_map (fun r => (VNull, r)) (take_prefix "null" s)
      | String "t"%char _ =>
          option_map (fun r => (VBool true, r)) (take_prefix "true" s)
      | String "f"%char _ =>
          option_map (fun r => (VBool false, r)) (take_prefix "false" s)
      | String "["%char (String "]"%char rest) => Some (VArr [], rest)
      | String "["%char rest =>
          (fix items (n : nat) (s : string) (acc : list value)
             : option (value * string) :=
             match n with
             | O => None
             | S n' =>
                 match read_value fuel' s with
                 | Some (x, String ","%char r) => items n' r (acc ++ [x])
                 | Some (x, String "]"%char r) => Some (VArr (acc ++ [x]), r)
                 | _ => None
                 end
             end) fuel' rest []
      | String "{"%char (String "}"%char rest) => Some (VObj [], rest)
      | String "{"%char rest =>
          (fix members (n : nat) (s : string) (acc : list (string * value))
             : option (value * string) :=
             match n with
             | O => None
             | S n' =>
                 match s with
                 | String c r =>
                     if Ascii.eqb c dquote then
                       match read_string r "" with
                       | Some (k, String ":"%char r') =>
                           match read_value fuel' r' with
                           | Some (x, String ","%char r'') =>
                               members n' r'' (acc ++ [(k, x)])
                           | Some (x, String "}"%char r'') =>
                               Some (VObj (acc ++ [(k, x)]), r'')
                           | _ => None
                           end
                       | _ => None
                       end
                     else None
                 | _ => None
                 end
             end) fuel' rest []
      | String "-"%char rest =>
          let (ds, r) := read_digits rest "" in
          if String.eqb ds "" then None
          else Some (VNum (read_number (String "-"%char ds)), r)
      | String c rest =>
          if Ascii.eqb c dquote then
            option_map (fun p => (VStr (fst p), snd p)) (read_string rest "")
          else
            let (ds, r) := read_digits s "" in
            if String.eqb ds "" then None else Some (VNum (read_number ds), r)
      | EmptyString => None
      end
  end.

Definition parse (s : string) : option value :=
  match read_value (S (String.length s)) s with
  | Some (v, EmptyString) => Some v
  | _ => None
  end.

(** The stand-in cipher: the salt, then the plaintext with every byte
    shifted by the matching byte of the key. *)
Fixpoint shift (up : bool) (key all_key : string) (s : string) : string :=
  match s with
  | EmptyString => EmptyString
  | String c rest =>
      match key with
      | EmptyString =>
          match all_key with
          | EmptyString => s
          | String k key' =>
              String (ascii_of_nat
                        (if up then nat_of_ascii c + nat_of_ascii k
                         else nat_of_ascii c + 256 - nat_of_ascii k))
                (shift up key' all_key rest)
          end
      | String k key' =>
          String (ascii_of_nat
                    (if up then nat_of_ascii c + nat_of_ascii k
                     else nat_of_ascii c + 256 - nat_of_ascii k))
            (shift up key' all_key rest)
      end
  end.

Definition encipher (message key : value) (salt : string) : option string :=
  match message, key with
  | VStr m, VStr k => Some (salt ++ ":" ++ shift true k k m)%string
  | _, _ => None
  end.

Fixpoint after_colon (s : string) : option string :=
  match s with
  | EmptyString => None
  | String c rest => if Ascii.eqb c ":"%char then Some rest else after_colon rest
  end.

Definition decipher (ciphertext key : value) : option string :=
  match ciphertext, key with
  | VStr c, VStr k => option_map (shift false k k) (after_colon c)
  | _, _ => None
  end.

Definition rt : Runtime := {|
  toLowerCase := lower;
  replace_whitespace_runs := underscore_runs false;
  number_to_string := print_number;
  string_to_number := read_number;
  parseFloat_string := read_number;
  parseInt_string := read_number;
  JSON_stringify := stringify;
  JSON_parse := parse;
  AES_encrypt := encipher;
  AES_decrypt_utf8 := decipher;
  VITE_ENCRYPTION_KEY := VUndef;
  window_location_origin := VStr "https://tradescope.example"
|}.

End Sample.

(** ** List reads *)

Definition is_list_read (op : operation) : bool :=
  match op with
  | T_getTradingAccounts | T_getTrades _ | T_getAnalyticsData _
  | T_getBrokers | T_getStrategies => true
  | _ => false
  end.

(** A select without [single()] resolves with an array of rows, or with no
    rows at all ([null]). *)
Definition rows_contract (r : request) (out : outcome) : Prop :=
  match out with
  | Resolved v => is_array (get v "data") || nullish (get v "data") = true
  | Rejected _ => True
  end.

(** [data] is an array, and the empty one unless [success] is true. *)
Definition array_data (res : value) : bool :=
  match get res "data" with
  | VArr rows =>
      match get res "success" with
      | VBool true => true
      | VBool false => match rows with [] => true | _ :: _ => false end
      | _ => false
      end
  | _ => false
  end.

(** ** Optional filters *)

(** The builder call an optional filter contributes: [op] when the filter
    value is set, which the services test as JavaScript truthiness (an
    absent property, an empty string and 0 all count as not set). *)
Definition when_set (v : value) (op : qop) : list qop :=
  if truthy v then [op] else [].

(** How the list reads turn the response to their one request into a
    result: rows pass through as they are. *)
Definition rows_result (out : outcome) (failure : string) : value :=
  match out with
  | Rejected _ => result3 false (VArr []) (VStr failure)
  | Resolved resp =>
      if nullish resp then result3 false (VArr []) (VStr failure)
      else if truthy (get resp "error")
      then result3 false (VArr []) (get (get resp "error") "message")
      else result3 true (js_or (get resp "data") (VArr [])) VNull
  end.

(** The request was answered by a response without error that carries
    [data]. *)
Definition succeeds_with (out : outcome) (data : value) : Prop :=
  exists resp,
    out = Resolved resp /\
    nullish resp = false /\
    truthy (get resp "error") = false /\
    get resp "data" = data.

(** ** The portfolio summary *)

(** [rows.reduce((sum, row) => sum + (parseFloat(row?.[field]) || 0), 0)] *)
Definition total (rt : Runtime) (field : string) (rows : list value) : value :=
  fold_left
    (fun sum row =>
       js_add rt sum (js_or (parseFloat rt (get row field)) (VNum 0)))
    rows (VNum 0).

Definition portfolios_query : request :=
  RQuery "portfolios" [OpSelect (Some "*"); OpOrder "created_at" false].

Definition accounts_query : request :=
  RQuery "trading_accounts"
    [OpSelect (Some "balance, currency"); OpEq "is_active" (VBool true)].

(** Two portfolios and two active accounts. *)
Definition sample_portfolios : list value := [
  VObj [("id", VNum 1); ("name", VStr "Swing"); ("total_pnl", VNum 30)];
  VObj [("id", VNum 2); ("name", VStr "Intraday"); ("total_pnl", VNum 45)]].

Definition sample_accounts : list value := [
  VObj [("balance", VNum 100); ("currency", VStr "USD")];
  VObj [("balance", VNum 50); ("currency", VStr "USD")]].

Definition portfolio_backend : oracle :=
  scripted (fun _ r =>
    match r with
    | RQuery table _ =>
        if String.eqb table "portfolios"
        then Resolved (ok_response (VArr sample_portfolios))
        else Resolved (ok_response (VArr sample_accounts))
    | _ => Rejected (Error "not available")
    end).

(** ** Validation in [createTrade] *)

(** [!tradeData?.instrument || !tradeData?.quantity || !tradeData?.entryPrice] *)
Definition missing_trade_data (tradeData : value) : bool :=
  negb (truthy (get tradeData "instrument"))
  || negb (truthy (get tradeData "quantity"))
  || negb (truthy (get tradeData "entryPrice")).

(** The user [auth.getUser()] reports; [undefined] when it reports an error
    or does not answer. *)
Definition session_user (out : outcome) : value :=
  match out with
  | Resolved resp =>
      if truthy (get resp "error") then VUndef
      else get (get resp "data") "user"
  | Rejected _ => VUndef
  end.

(** [user?.id?.toString()] *)
Definition user_id_text (rt : Runtime) (user : value) : value :=
  toString_method rt (get user "id").

(** A user with a usable id is signed in. *)
Definition signed_in (rt : Runtime) (out : outcome) : bool :=
  truthy (session_user out)
  && truthy (user_id_text rt (session_user out)).

(** [auth.getUser()] answered with an object that has a [data] object:
    the destructuring [const { data: { user }, error: userError } = ...]
    goes through. *)
Definition getUser_answered (out : outcome) : bool :=
  match out with
  | Resolved resp => negb (nullish resp) && negb (nullish (get resp "data"))
  | Rejected _ => false
  end.

(** The message each refusal comes with, in the order the checks run. *)
Definition refusal_message (rt : Runtime) (out : outcome) : string :=
  if negb (truthy (session_user out)) then "User not authenticated"
  else if negb (truthy (user_id_text rt (session_user out)))
  then "Invalid user ID"
  else "Missing required trade data".

(** The message of a refused [createTrade]: that of the [catch] block when
    [getUser] did not answer, and that of the first check that fails
    otherwise. *)
Definition createTrade_refusal (rt : Runtime) (out : outcome) : string :=
  if getUser_answered out then refusal_message rt out
  else "Failed to create trade".

(** ** Broker synchronisation *)

Definition is_write (op : qop) : bool :=
  match op with
  | OpInsert _ | OpUpdate _ | OpDelete => true
  | _ => false
  end.

(** A request that writes no row of any table. *)
Definition read_only (r : request) : bool :=
  match r with
  | RQuery _ ops => negb (existsb is_write ops)
  | _ => true
  end.

(** The stored credentials of a broker can be fetched and decrypted. *)
Definition credentials_retrievable
  (rt : Runtime) (o : oracle) (n : nat) (brokerId : value) : Prop :=
  exists credentialsResult,
    fst (run (BrokerCredentialService.getBrokerCredentials rt brokerId) o n)
    = Returned credentialsResult
    /\ truthy (get credentialsResult "success") = true.

(** Every [fetch] is answered with an [ok] response whose body is JSON. *)
Definition fetch_succeeds (o : oracle) : Prop :=
  forall k url headers,
    exists response,
      answer o k (RFetch url headers) = Resolved response /\
      truthy (get response "ok") = true /\
      exists body, answer o (S k) (RBodyJson response) = Resolved body.

(** A backend with one signed-in user and one stored broker, and a remote
    API that answers every fetch. *)
Definition sample_credentials : value :=
  VObj [("apiKey", VStr "kite-key"); ("apiSecret", VStr "kite-secret");
        ("userId", VNull); ("password", VNull); ("totpKey", VNull);
        ("serverAddress", VNull)].

Definition sample_ciphertext : value :=
  match Sample.encipher (Sample.stringify sample_credentials)
          (VStr "default-encryption-key-change-me") "c2FsdA==" with
  | Some c => VStr c
  | None => VNull
  end.

Definition sample_broker (name : string) : value :=
  VObj [("id", VStr "broker-1"); ("name", VStr name);
        ("api_key", sample_ciphertext); ("status", VStr "active")].

Definition broker_backend (name : string) : oracle :=
  scripted (fun _ r =>
    match r with
    | RAuth _ _ =>
        Resolved (ok_response (VObj [("user", VObj [("id", VStr "user-1")])]))
    | RQuery _ (OpSelect _ :: OpEq _ _ :: _) =>
        Resolved (ok_response (sample_broker name))
    | RQuery _ _ => Resolved (ok_response (VArr [sample_broker name]))
    | RFetch _ _ => Resolved (VObj [("ok", VBool true)])
    | RBodyJson _ => Resolved (VObj [("data", VArr [])])
    | RUpstox _ => Resolved (VBool false)
    end).

(** Modelled from the spec: [UpstoxService] is not among these sources.  The
    spec describes the broker sync functions as stubs that return zero
    imported records, so a successful Upstox import is taken to report
    none, as the three sync functions here do. *)
Definition upstox_imports_nothing (r : request) (out : outcome) : Prop :=
  match r, out with
  | RUpstox _, Resolved v =>
      truthy (get v "success") = true ->
      truthy (get (get v "data") "importedCount") = false
  | _, _ => True
  end.


(** The two operations whose [catch] block looks into what was thrown. *)
Definition inspects_rejection (op : operation) : bool :=
  match op with
  | A_signUp _ _ _ | A_signIn _ _ => true
  | _ => false
  end.

(** The method returned. *)
Definition returned {A : Type} : completion A -> list request -> Prop :=
  fun c _ => exists a, c = Returned a.

(** ** Single flight *)


(** The traces of the loop of [syncFromBrokers], one per broker visited. *)
Fixpoint sync_traces (rt : Runtime) (brokers : list value)
  (results : TradingService.sync_results) (o : oracle) (n : nat)
  : list (list request) :=
  match brokers with
  | [] => []
  | broker :: rest =>
      let p := TradingService.sync_one rt results broker in
      match fst (run p o n) with
      | Returned results' =>
          snd (run p o n)
          :: sync_traces rt rest results' o (n + steps p o n)
      | Thrown _ => [snd (run p o n)]
      end
  end.



(** ** The credential cipher *)

(** [d] is JSON-serializable: it has a JSON text, and the text parses back
    to [d]. *)
Definition json_round_trips (rt : Runtime) (d : value) (text : string) : Prop :=
  JSON_stringify rt d = VStr text /\ JSON_parse rt text = Some d.

(** The cipher is reversible on [text] under [key]: what encryption with
    the salt drawn produces, decryption under the same key turns back into
    [text]. *)
Definition cipher_round_trips
  (rt : Runtime) (key : value) (salt text ciphertext : string) : Prop :=
  AES_encrypt rt (VStr text) key salt = Some ciphertext
  /\ AES_decrypt_utf8 rt (VStr ciphertext) key = Some text.



(** An Upstox account that imports five trades, next to a broker of an
    unknown kind. *)
Definition upstox_backend : oracle :=
  scripted (fun _ r =>
    match r with
    | RQuery _ (OpSelect _ :: _) =>
        Resolved (ok_response
                    (VArr [sample_broker "Upstox"; sample_broker "Robinhood"]))
    | RQuery _ _ => Resolved (ok_response VNull)
    | RUpstox method =>
        if String.eqb method "isConnected" then Resolved (VBool true)
        else Resolved (result3 true (VObj [("importedCount", VNum 5)]) VNull)
    | _ => Rejected (Error "not available")
    end).

(** ** Who is signed in *)

(** [user?.user] after [const { data: user } = await supabase.auth.getUser()]:
    the signed-in user as the credential service reads it. *)
Definition reported_user (out : outcome) : value :=
  match out with
  | Resolved resp => get (get resp "data") "user"
  | Rejected _ => VUndef
  end.

(** [auth.getUser()] resolved with something that can be destructured. *)
Definition getUser_resolved (out : outcome) : bool :=
  match out with
  | Resolved resp => negb (nullish resp)
  | Rejected _ => false
  end.

(** The operations whose first step is to ask who is signed in and to give
    up when nobody is: the methods of [BrokerCredentialService] that reach
    the [brokers] table, and the operations of [TradingService] that begin
    by calling one of them. *)
Definition asks_user_first (op : operation) : bool :=
  match op with
  | B_storeBrokerCredentials _ | B_getBrokerCredentials _
  | B_updateBrokerCredentials _ _ | B_testBrokerConnection _
  | B_updateBrokerStatus _ _ | B_deleteBrokerCredentials _
  | T_createTradingAccountFromBroker _ _ | T_addBroker _
  | T_syncZerodhaData _ | T_syncInteractiveBrokersData _
  | T_syncAlpacaData _ => true
  | _ => false
  end.

(** The broker row an operation of [BrokerCredentialService] reads, updates
    or deletes. *)
Definition broker_row (op : operation) : option value :=
  match op with
  | B_getBrokerCredentials brokerId | B_updateBrokerCredentials brokerId _
  | B_updateBrokerStatus brokerId _ | B_deleteBrokerCredentials brokerId =>
      Some brokerId
  | _ => None
  end.

Definition is_profile_operation (op : operation) : bool :=
  match op with
  | A_getCurrentUserProfile | A_updateProfile _ => true
  | _ => false
  end.

(** Every request of the trace satisfies [R]. *)
Definition all_requests {A : Type} (R : request -> Prop)
  : completion A -> list request -> Prop :=
  fun _ tr => forall r, In r tr -> R r.

(** ** Rejections *)

(** What a promise rejects with is an [Error]. *)
Definition rejections_are_errors (r : request) (out : outcome) : Prop :=
  match out with
  | Rejected e => error_like e = true
  | Resolved _ => True
  end.

Definition signIn_request (email password : value) : request :=
  RAuth "signInWithPassword" [VObj [("email", email); ("password", password)]].

Definition signUp_request (email password userData : value) : request :=
  RAuth "signUp" [
    VObj [("email", email);
          ("password", password);
          ("options", VObj [
             ("data", VObj [
                ("full_name", js_or (get userData "fullName") (VStr ""));
                ("role", js_or (get userData "role") (VStr "trader"))])])]].

(** A network failure, as the [catch] blocks of [signUp] and [signIn]
    recognise it in the message of what was thrown. *)
Definition looks_like_network_failure (message : string) : bool :=
  includes "Failed to fetch" message
  || includes "AuthRetryableFetchError" message.

(** The operations of [AuthService] that fall back on a message of their
    own when the backend's error has none. *)
Definition has_default_message (op : operation) : bool :=
  match op with
  | A_signUp _ _ _ | A_signIn _ _ | A_signOut | A_updateProfile _
  | A_resetPassword _ | A_updatePassword _ | A_signInWithProvider _ => true
  | _ => false
  end.

(** The result says what happened: [error] is [null] on success and some
    truthy value on failure. *)
Definition tells_outcome (res : value) : Prop :=
  (get res "success" = VBool true /\ get res "error" = VNull)
  \/ (get res "success" = VBool false /\ truthy (get res "error") = true).

(** ** Rows written by the services *)

(** The object [storeBrokerCredentials] encrypts. *)
Definition credential_fields (brokerData : value) : value :=
  VObj [("apiKey", js_or (get brokerData "apiKey") VNull);
        ("apiSecret", js_or (get brokerData "apiSecret") VNull);
        ("userId", js_or (get brokerData "userId") VNull);
        ("password", js_or (get brokerData "password") VNull);
        ("totpKey", js_or (get brokerData "totpKey") VNull);
        ("serverAddress", js_or (get brokerData "serverAddress") VNull)].

(** The row [storeBrokerCredentials] inserts for a ciphertext. *)
Definition broker_row_of (brokerData user_id : value) (ciphertext : string)
  : value :=
  VObj [("name", get brokerData "name");
        ("api_key", VStr ciphertext);
        ("api_secret", VNull);
        ("account_id", js_or (get brokerData "accountId") VNull);
        ("status", VStr "inactive");
        ("user_profile_id", user_id)].

(** The row [updateBrokerStatus] writes. *)
Definition status_row (status last_sync_at : value) (updated_at : string)
  : value :=
  VObj [("status", status); ("last_sync_at", last_sync_at);
        ("updated_at", VStr updated_at)].


(** The row [closeTrade] writes. *)
Definition closing_row (exitPrice closed_at : value) (updated_at : string)
  : value :=
  VObj [("exit_price", exitPrice); ("status", VStr "closed");
        ("closed_at", closed_at); ("updated_at", VStr updated_at)].

(** No rows: [null], or the empty array. *)
Definition no_rows (data : value) : bool :=
  match data with
  | VNull | VArr [] => true
  | _ => false
  end.

(** The columns of the row [createTrade] inserts. *)
Definition trade_columns : list string :=
  ["instrument"; "tradeType"; "quantity"; "entryPrice"; "exitPrice";
   "tradeDate"; "strategy"; "notes"; "process"; "pnl"; "pnlCurrency";
   "userId"].

Definition is_number (v : value) : bool :=
  match v with
  | VNum _ => true
  | _ => false
  end.

Definition is_string (v : value) : bool :=
  match v with
  | VStr _ => true
  | _ => false
  end.

(** ** Brokers *)

(** The names of the brokers [testBrokerConnection] knows, in lower case. *)
Definition known_brokers : list string :=
  ["zerodha kite"; "zerodha"; "upstox"; "interactive brokers";
   "metatrader 5"; "mt5"; "alpaca markets"; "alpaca"].

Definition brokers_query : request :=
  RQuery "brokers" [OpSelect (Some "*"); OpOrder "created_at" false].

(** [broker?.status === 'active'] *)
Definition is_active (broker : value) : bool :=
  str_is (get broker "status") "active".

(** The timestamp update that ends [syncFromBrokers]. *)
Definition stamp_active_brokers (now : string) : request :=
  RQuery "brokers" [OpUpdate (VObj [("last_sync_at", VStr now)]);
                    OpEq "status" (VStr "active")].

Definition upstox_status_query : request := RUpstox "getConnectionStatus".

(** The entry [getBrokerStatus] starts with. *)
Definition upstox_entry (upstoxStatus : value) : value :=
  VObj [("name", VStr "Upstox");
        ("connected", get upstoxStatus "connected");
        ("lastSync", get upstoxStatus "lastSync");
        ("status",
         if truthy (get upstoxStatus "connected")
         then VStr "active" else VStr "inactive");
        ("error", get upstoxStatus "error")].



(** ** The calls of the composite operations *)




(** ** More sample environments *)

(** Nobody is signed in. *)
Definition signed_out_backend : oracle :=
  always (Resolved (ok_response (VObj [("user", VNull)]))).

(** The network is down: every promise rejects as [fetch] does. *)
Definition offline_backend : oracle :=
  always (Rejected (TypeError "Failed to fetch")).

(** One signed-in user; every query is answered with the one stored
    broker row, every [fetch] is refused. *)
Definition single_broker_backend (name : string) : oracle :=
  scripted (fun _ r =>
    match r with
    | RAuth _ _ =>
        Resolved (ok_response (VObj [("user", VObj [("id", VStr "user-1")])]))
    | RQuery _ _ => Resolved (ok_response (sample_broker name))
    | RFetch _ _ => Resolved (VObj [("ok", VBool false)])
    | _ => Rejected (Error "not available")
    end).

(** Two stored brokers, one of them inactive. *)
Definition two_brokers_backend : oracle :=
  scripted (fun _ r =>
    match r with
    | RAuth _ _ =>
        Resolved (ok_response (VObj [("user", VObj [("id", VStr "user-1")])]))
    | RQuery _ (OpSelect _ :: OpOrder _ _ :: _) =>
        Resolved (ok_response
                    (VArr [sample_broker "Interactive Brokers";
                           VObj [("id", VStr "broker-2");
                                 ("name", VStr "Alpaca");
                                 ("status", VStr "inactive")]]))
    | RQuery _ _ => Resolved (ok_response (sample_broker "Interactive Brokers"))
    | _ => Rejected (Error "not available")
    end).

(** Upstox answers, the [brokers] table does not. *)
Definition upstox_only_backend : oracle :=
  scripted (fun _ r =>
    match r with
    | RUpstox _ =>
        Resolved (VObj [("connected", VBool true);
                        ("lastSync", VStr "2024-12-31T18:00:00.000Z");
                        ("error", VNull)])
    | _ => Resolved (error_response "permission denied for table brokers")
    end).


(** ** The [useTrading] hook

    The hook keeps eight pieces of React state and hands out callbacks that
    await one call of [TradingService] and then call the state setters; a
    realtime subscription calls the setters as rows change.  A callback is
    modelled as the request tree of the service call it awaits, returning
    what the callback returns together with the setter calls it has made,
    in order.  React applies the calls in that order, each to the state
    its predecessor left. *)

Definition primitive (v : value) : bool :=
  match v with
  | VArr _ | VObj _ => false
  | _ => true
  end.

(** [a === b].  Numbers compare as IEEE 754 numbers, so [NaN] differs from
    itself.  Two objects are strictly equal when they are one and the same
    object, which the value model does not record: on two objects the
    model answers [false], and the properties below are stated for row ids
    that are primitive, as the number or string key of a row is. *)
Definition strict_equal (a b : value) : bool :=
  match a, b with
  | VUndef, VUndef | VNull, VNull => true
  | VBool x, VBool y => Bool.eqb x y
  | VNum x, VNum y => PrimFloat.eqb x y
  | VStr s, VStr t => String.eqb s t
  | _, _ => false
  end.

(** [v?.map(f)] *)
Definition call_map (v : value) (f : value -> value) : prog value :=
  match v with
  | VUndef | VNull => Ret VUndef
  | VArr l => Ret (VArr (map f l))
  | _ => Throw (TypeError "map is not a function")
  end.

(** [v?.find(f)] *)
Definition call_find (v : value) (f : value -> bool) : prog value :=
  match v with
  | VUndef | VNull => Ret VUndef
  | VArr l => Ret match find f l with Some x => x | None => VUndef end
  | _ => Throw (TypeError "find is not a function")
  end.

(** [{ ...a, ...b }] *)
Definition merge (a b : value) : value :=
  VObj (fold_left (fun fs kv => obj_set fs (fst kv) (snd kv))
          (spread b) (spread a)).

Module UseTrading.

Record state : Type := {
  trades : value;
  accounts : value;
  brokers : value;
  strategies : value;
  portfolio : value;
  analytics : value;
  loading : value;
  error : value
}.

(** The state after the [useState] calls of the first render. *)
Definition initial : state := {|
  trades := VArr [];
  accounts := VArr [];
  brokers := VArr [];
  strategies := VArr [];
  portfolio := VNull;
  analytics := VArr [];
  loading := VObj [("trades", VBool false); ("accounts", VBool false);
                   ("brokers", VBool false); ("strategies", VBool false);
                   ("portfolio", VBool false); ("analytics", VBool false)];
  error := VNull
|}.

Inductive slot : Type :=
| Trades | Accounts | Brokers | Strategies | Portfolio | Analytics
| Loading | Failure.

Definition read (s : slot) (st : state) : value :=
  match s with
  | Trades => trades st
  | Accounts => accounts st
  | Brokers => brokers st
  | Strategies => strategies st
  | Portfolio => portfolio st
  | Analytics => analytics st
  | Loading => loading st
  | Failure => error st
  end.

Definition write (s : slot) (v : value) (st : state) : state :=
  match s with
  | Trades =>
      {| trades := v; accounts := accounts st; brokers := brokers st;
         strategies := strategies st; portfolio := portfolio st;
         analytics := analytics st; loading := loading st; error := error st |}
  | Accounts =>
      {| trades := trades st; accounts := v; brokers := brokers st;
         strategies := strategies st; portfolio := portfolio st;
         analytics := analytics st; loading := loading st; error := error st |}
  | Brokers =>
      {| trades := trades st; accounts := accounts st; brokers := v;
         strategies := strategies st; portfolio := portfolio st;
         analytics := analytics st; loading := loading st; error := error st |}
  | Strategies =>
      {| trades := trades st; accounts := accounts st; brokers := brokers st;
         strategies := v; portfolio := portfolio st;
         analytics := analytics st; loading := loading st; error := error st |}
  | Portfolio =>
      {| trades := trades st; accounts := accounts st; brokers := brokers st;
         strategies := strategies st; portfolio := v;
         analytics := analytics st; loading := loading st; error := error st |}
  | Analytics =>
      {| trades := trades st; accounts := accounts st; brokers := brokers st;
         strategies := strategies st; portfolio := portfolio st;
         analytics := v; loading := loading st; error := error st |}
  | Loading =>
      {| trades := trades st; accounts := accounts st; brokers := brokers st;
         strategies := strategies st; portfolio := portfolio st;
         analytics := analytics st; loading := v; error := error st |}
  | Failure =>
      {| trades := trades st; accounts := accounts st; brokers := brokers st;
         strategies := strategies st; portfolio := portfolio st;
         analytics := analytics st; loading := loading st; error := v |}
  end.

(** What a setter is called with: a value, or one of the functions of the
    previous state the hook passes. *)
Inductive updater : Type :=
| Value (v : value)
  (** [set(v)] *)
| Flag (key : string) (flag : bool)
  (** [set(prev => ({ ...prev, key: flag }))] *)
| Prepend (x : value)
  (** [set(prev => [x, ...prev])] *)
| MergeWhere (id data : value)
  (** [set(prev => prev?.map(t => t?.id === id ? { ...t, ...data } : t))] *)
| ReplaceWhere (id row : value)
  (** [set(prev => prev?.map(t => t?.id === id ? row : t))] *)
| RemoveWhere (id : value)
  (** [set(prev => prev?.filter(t => t?.id !== id))] *)
| Upsert (row : value)
  (** the function [setAnalytics] is given on a realtime change *).

Definition apply_updater (u : updater) (prev : value) : prog value :=
  match u with
  | Value v => Ret v
  | Flag key flag => Ret (VObj (obj_set (spread prev) key (VBool flag)))
  | Prepend x =>
      rest <- iterate prev ;;
      Ret (VArr (x :: rest))
  | MergeWhere id data =>
      call_map prev
        (fun t => if strict_equal (get t "id") id then merge t data else t)
  | ReplaceWhere id row =>
      call_map prev
        (fun t => if strict_equal (get t "id") id then row else t)
  | RemoveWhere id =>
      call_filter prev (fun t => negb (strict_equal (get t "id") id))
  | Upsert row =>
      existing <-
        call_find prev (fun item => strict_equal (get item "id") (get row "id")) ;;
      if truthy existing then
        call_map prev
          (fun item =>
             if strict_equal (get item "id") (get row "id") then row else item)
      else
        items <- iterate prev ;;
        Ret (VArr (items ++ [row]))
  end.

(** One call of a state setter. *)
Inductive call : Type :=
| Set_ (s : slot) (u : updater).

(** A function passed to a setter runs when React renders the update, not
    inside the callback that passed it: an exception it throws is thrown by
    that render. *)
Definition apply_call (c : call) (st : state) : prog state :=
  match c with
  | Set_ s u =>
      v <- apply_updater u (read s st) ;;
      Ret (write s v st)
  end.

Fixpoint apply_calls (cs : list call) (st : state) : prog state :=
  match cs with
  | [] => Ret st
  | c :: rest =>
      st' <- apply_call c st ;;
      apply_calls rest st'
  end.

Section Callbacks.

Context (rt : Runtime).

(** The six [load...] callbacks differ in the service method they await,
    the piece of state they set, the value they fall back on and their two
    messages. *)
Definition loader (key : string) (target : slot) (fetch : prog value)
  (fallback : value) (failed threw : string) : prog (list call) :=
  calls <-
    try_catch
      (result <- fetch ;;
       if truthy (get result "success") then
         Ret [Set_ target (Value (js_or (get result "data") fallback));
              Set_ Failure (Value VNull)]
       else
         Ret [Set_ Failure (Value (js_or (get result "error") (VStr failed)))])
      (fun _ => Ret [Set_ Failure (Value (VStr threw))]) ;;
  Ret (Set_ Loading (Flag key true) :: calls
       ++ [Set_ Loading (Flag key false)]).

Definition loadAccounts : prog (list call) :=
  loader "accounts" Accounts TradingService.getTradingAccounts (VArr [])
    "Failed to load accounts" "Failed to load trading accounts".

Definition loadTrades (filters : value) : prog (list call) :=
  loader "trades" Trades (TradingService.getTrades rt filters) (VArr [])
    "Failed to load trades" "Failed to load trades".

Definition loadBrokers : prog (list call) :=
  loader "brokers" Brokers TradingService.getBrokers (VArr [])
    "Failed to load brokers" "Failed to load brokers".

Definition loadStrategies : prog (list call) :=
  loader "strategies" Strategies TradingService.getStrategies (VArr [])
    "Failed to load strategies" "Failed to load strategies".

Definition loadPortfolio : prog (list call) :=
  loader "portfolio" Portfolio (TradingService.getPortfolioSummary rt) VNull
    "Failed to load portfolio" "Failed to load portfolio".

Definition loadAnalytics (filters : value) : prog (list call) :=
  loader "analytics" Analytics (TradingService.getAnalyticsData filters)
    (VArr []) "Failed to load analytics" "Failed to load analytics".

(** [{ success: true, data }] *)
Definition succeeded (data : value) : value :=
  VObj [("success", VBool true); ("data", data)].

Definition createTrade (tradeData : value) : prog (value * list call) :=
  try_catch
    (result <- TradingService.createTrade rt tradeData ;;
     if truthy (get result "success") then
       Ret (succeeded (get result "data"),
            [Set_ Trades (Prepend (get result "data"));
             Set_ Failure (Value VNull)])
     else
       Ret (result2 false (get result "error"),
            [Set_ Failure
               (Value (js_or (get result "error")
                         (VStr "Failed to create trade")))]))
    (fun _ =>
       Ret (result2 false (VStr "Failed to create trade"),
            [Set_ Failure (Value (VStr "Failed to create trade"))])).

Definition updateTrade (tradeId updates : value) : prog (value * list call) :=
  try_catch
    (result <- TradingService.updateTrade tradeId updates ;;
     if truthy (get result "success") then
       Ret (succeeded (get result "data"),
            [Set_ Trades (MergeWhere tradeId (get result "data"));
             Set_ Failure (Value VNull)])
     else
       Ret (result2 false (get result "error"),
            [Set_ Failure
               (Value (js_or (get result "error")
                         (VStr "Failed to update trade")))]))
    (fun _ =>
       Ret (result2 false (VStr "Failed to update trade"),
            [Set_ Failure (Value (VStr "Failed to update trade"))])).

Definition closeTrade (tradeId exitPrice : value) : prog (value * list call) :=
  try_catch
    (result <-
       TradingService.closeTrade tradeId exitPrice TradingService.DateOmitted ;;
     if truthy (get result "success") then
       Ret (succeeded (get result "data"),
            [Set_ Trades (MergeWhere tradeId (get result "data"));
             Set_ Failure (Value VNull)])
     else
       Ret (result2 false (get result "error"),
            [Set_ Failure
               (Value (js_or (get result "error")
                         (VStr "Failed to close trade")))]))
    (fun _ =>
       Ret (result2 false (VStr "Failed to close trade"),
            [Set_ Failure (Value (VStr "Failed to close trade"))])).

Definition deleteTrade (tradeId : value) : prog (value * list call) :=
  try_catch
    (result <- TradingService.deleteTrade tradeId ;;
     if truthy (get result "success") then
       Ret (VObj [("success", VBool true)],
            [Set_ Trades (RemoveWhere tradeId); Set_ Failure (Value VNull)])
     else
       Ret (result2 false (get result "error"),
            [Set_ Failure
               (Value (js_or (get result "error")
                         (VStr "Failed to delete trade")))]))
    (fun _ =>
       Ret (result2 false (VStr "Failed to delete trade"),
            [Set_ Failure (Value (VStr "Failed to delete trade"))])).

Definition addBroker (brokerData : value) : prog (value * list call) :=
  try_catch
    (result <- TradingService.addBroker rt brokerData ;;
     if truthy (get result "success") then
       Ret (succeeded (get result "data"),
            [Set_ Brokers (Prepend (get result "data"));
             Set_ Failure (Value VNull)])
     else
       Ret (result2 false (get result "error"),
            [Set_ Failure
               (Value (js_or (get result "error")
                         (VStr "Failed to add broker")))]))
    (fun _ =>
       Ret (result2 false (VStr "Failed to add broker"),
            [Set_ Failure (Value (VStr "Failed to add broker"))])).

End Callbacks.

(** The six loaders. *)
Inductive load : Type :=
| LoadAccounts
| LoadTrades (filters : value)
| LoadBrokers
| LoadStrategies
| LoadPortfolio
| LoadAnalytics (filters : value).

Definition perform_load (rt : Runtime) (l : load) : prog (list call) :=
  match l with
  | LoadAccounts => loadAccounts
  | LoadTrades filters => loadTrades rt filters
  | LoadBrokers => loadBrokers
  | LoadStrategies => loadStrategies
  | LoadPortfolio => loadPortfolio rt
  | LoadAnalytics filters => loadAnalytics filters
  end.

(** The service operation a loader awaits, its key in [loading], the
    piece of state it sets and the value it falls back on. *)
Definition load_operation (l : load) : operation :=
  match l with
  | LoadAccounts => T_getTradingAccounts
  | LoadTrades filters => T_getTrades filters
  | LoadBrokers => T_getBrokers
  | LoadStrategies => T_getStrategies
  | LoadPortfolio => T_getPortfolioSummary
  | LoadAnalytics filters => T_getAnalyticsData filters
  end.

Definition load_key (l : load) : string :=
  match l with
  | LoadAccounts => "accounts"
  | LoadTrades _ => "trades"
  | LoadBrokers => "brokers"
  | LoadStrategies => "strategies"
  | LoadPortfolio => "portfolio"
  | LoadAnalytics _ => "analytics"
  end.

Definition load_target (l : load) : slot :=
  match l with
  | LoadAccounts => Accounts
  | LoadTrades _ => Trades
  | LoadBrokers => Brokers
  | LoadStrategies => Strategies
  | LoadPortfolio => Portfolio
  | LoadAnalytics _ => Analytics
  end.

Definition load_fallback (l : load) : value :=
  match l with
  | LoadPortfolio => VNull
  | _ => VArr []
  end.

(** The five callbacks that change rows. *)
Inductive mutation : Type :=
| CreateTrade (tradeData : value)
| UpdateTrade (tradeId updates : value)
| CloseTrade (tradeId exitPrice : value)
| DeleteTrade (tradeId : value)
| AddBroker (brokerData : value).

Definition perform_mutation (rt : Runtime) (m : mutation)
  : prog (value * list call) :=
  match m with
  | CreateTrade tradeData => createTrade rt tradeData
  | UpdateTrade tradeId updates => updateTrade tradeId updates
  | CloseTrade tradeId exitPrice => closeTrade tradeId exitPrice
  | DeleteTrade tradeId => deleteTrade tradeId
  | AddBroker brokerData => addBroker rt brokerData
  end.

Definition mutation_operation (m : mutation) : operation :=
  match m with
  | CreateTrade tradeData => T_createTrade tradeData
  | UpdateTrade tradeId updates => T_updateTrade tradeId updates
  | CloseTrade tradeId exitPrice =>
      T_closeTrade tradeId exitPrice TradingService.DateOmitted
  | DeleteTrade tradeId => T_deleteTrade tradeId
  | AddBroker brokerData => T_addBroker brokerData
  end.

(** The list a mutation changes when it succeeds. *)
Definition mutation_target (m : mutation) : slot :=
  match m with
  | AddBroker _ => Brokers
  | _ => Trades
  end.

(** The callback subscribed to changes of the [trades] table. *)
Definition on_trades_change (payload : value) : list call :=
  if str_is (get payload "eventType") "INSERT" then
    [Set_ Trades (Prepend (get payload "new"))]
  else if str_is (get payload "eventType") "UPDATE" then
    [Set_ Trades (ReplaceWhere (get (get payload "new") "id")
                    (get payload "new"))]
  else if str_is (get payload "eventType") "DELETE" then
    [Set_ Trades (RemoveWhere (get (get payload "old") "id"))]
  else [].

(** The callback subscribed to changes of the [analytics_data] table. *)
Definition on_analytics_change (payload : value) : list call :=
  if str_is (get payload "eventType") "INSERT"
     || str_is (get payload "eventType") "UPDATE"
  then [Set_ Analytics (Upsert (get payload "new"))]
  else [].

(** [clearError] *)
Definition clearError : list call := [Set_ Failure (Value VNull)].

End UseTrading.

(** ** The trade management page *)

Module TradeManagement.

Section Handlers.

Context (rt : Runtime).

(** The filters the page starts with. *)
Definition initial_filters : value :=
  VObj [("status", VStr ""); ("symbol", VStr ""); ("dateFrom", VStr "");
        ("dateTo", VStr ""); ("limit", VNum 50); ("offset", VNum 0)].

(** [setFilters(prev => ({ ...prev, ...newFilters, offset: 0 }))] *)
Definition handleFilterChange (prev newFilters : value) : value :=
  VObj (obj_set (spread (merge prev newFilters)) "offset" (VNum 0)).

(** [setFilters(prev => ({ ...prev, offset: prev?.offset + prev?.limit }))] *)
Definition handleLoadMore (prev : value) : value :=
  VObj (obj_set (spread prev) "offset"
          (js_add rt (get prev "offset") (get prev "limit"))).

End Handlers.

End TradeManagement.

(** ** Rows and their ids *)

(** No row of the list has the id. *)
Definition absent (id : value) (rows : list value) : Prop :=
  Forall (fun t => strict_equal (get t "id") id = false) rows.

(** No two rows of the list have the same id. *)
Definition distinct_ids (rows : list value) : Prop :=
  ForallOrdPairs
    (fun a b => strict_equal (get a "id") (get b "id") = false) rows.

(** An id that identifies: a primitive that is equal to itself, which
    every primitive but [NaN] is. *)
Definition identifies (id : value) : bool :=
  primitive id && strict_equal id id.

(** A realtime payload. *)
Definition change (eventType : string) (old new : value) : value :=
  VObj [("eventType", VStr eventType); ("old", old); ("new", new)].

(** Two listed trades. *)
Definition sample_trades : list value := [
  VObj [("id", VNum 7); ("instrument", VStr "NIFTY"); ("status", VStr "open")];
  VObj [("id", VNum 8); ("instrument", VStr "RELIANCE");
        ("status", VStr "open")]].

Definition with_trades (rows : list value) : UseTrading.state :=
  UseTrading.write UseTrading.Trades (VArr rows) UseTrading.initial.

(** Two days of analytics. *)
Definition sample_analytics : list value := [
  VObj [("id", VStr "2025-01-01"); ("daily_pnl", VNum 120)];
  VObj [("id", VStr "2025-01-02"); ("daily_pnl", VNum 45)]].

Definition with_analytics (rows : list value) : UseTrading.state :=
  UseTrading.write UseTrading.Analytics (VArr rows) UseTrading.initial.

(** A backend with one signed-in user that answers every query with one
    trade row. *)
Definition created_trade : value :=
  VObj [("id", VNum 9); ("instrument", VStr "TCS"); ("status", VStr "open")].

Definition trade_backend : oracle :=
  scripted (fun _ r =>
    match r with
    | RAuth _ _ =>
        Resolved (ok_response (VObj [("user", VObj [("id", VStr "user-1")])]))
    | RQuery _ _ => Resolved (ok_response created_trade)
    | _ => Rejected (Error "not available")
    end).

(** The id of the trade an [updateTrade] or [closeTrade] of the hook
    merges into. *)
Definition merged_trade (m : UseTrading.mutation) : option value :=
  match m with
  | UseTrading.UpdateTrade tradeId _ | UseTrading.CloseTrade tradeId _ =>
      Some tradeId
  | _ => None
  end.

(** A row is what the merge of [before] and [data] gives: the properties
    of [data], and those of [before] that [data] does not name. *)
Definition merges (before data after : value) : Prop :=
  forall k,
    get after k
    = match assoc k (spread data) with
      | Some v => v
      | None => get (VObj (spread before)) k
      end.

(** * Properties *)

(** ** Sanity checks of the value model *)

Example truthy_zero : truthy (VNum 0%float) = false.
Proof. reflexivity. Qed.

Example truthy_nan : truthy (VNum nan) = false.
Proof. reflexivity. Qed.

Example truthy_empty_string : truthy (VStr "") = false.
Proof. reflexivity. Qed.

Example get_optional_chain : get (get VNull "data") "user" = VUndef.
Proof. reflexivity. Qed.

Example get_length : get (VArr [VNull; VNull]) "length" = VNum 2%float.
Proof. reflexivity. Qed.

Example spread_then_set :
  obj_set (spread (VObj [("a", VNull); ("b", VNull)])) "a" (VBool true)
  = [("a", VBool true); ("b", VNull)].
Proof. reflexivity. Qed.

Example nat_to_string_120 : nat_to_string 120 = "120".
Proof. reflexivity. Qed.

Example includes_fetch : includes "Failed to fetch" "TypeError: Failed to fetch" = true.
Proof. reflexivity. Qed.

(** ** Running request trees *)

Section ProgLemmas.

Context {A : Type}.

Lemma wp_mono (P : request -> outcome -> Prop) (p : prog A)
  (Q Q' : completion A -> list request -> Prop) :
  (forall c tr, Q c tr -> Q' c tr) -> wp P p Q -> wp P p Q'.
Proof.
  revert Q Q'.
  induction p as [a | e | r k IH | q k IH]; simpl; intros Q Q' HQ Hwp; auto.
  - intros out Hout. eapply IH; [| apply Hwp; exact Hout].
    intros c tr H. apply HQ. exact H.
  - intros s. eapply IH; [exact HQ | apply Hwp].
Qed.

Lemma wp_weaken (P P' : request -> outcome -> Prop) (p : prog A)
  (Q : completion A -> list request -> Prop) :
  (forall r out, P' r out -> P r out) -> wp P p Q -> wp P' p Q.
Proof.
  intros HP. revert Q.
  induction p as [a | e | r k IH | q k IH]; simpl; intros Q Hwp; auto.
Qed.

Lemma wp_run (P : request -> outcome -> Prop) (p : prog A)
  (Q : completion A -> list request -> Prop) (o : oracle) (n : nat) :
  answers P o -> wp P p Q -> Q (fst (run p o n)) (snd (run p o n)).
Proof.
  intros Ho. revert Q n.
  induction p as [a | e | r k IH | q k IH]; simpl; intros Q n Hwp; auto.
  - specialize (IH (answer o n r) _ (S n) (Hwp _ (Ho n r))).
    destruct (run (k (answer o n r)) o (S n)) as [c tr]. exact IH.
  - apply IH. apply Hwp.
Qed.

Lemma wp_try_catch (P : request -> outcome -> Prop) (p : prog A)
  (h : value -> prog A) (Q : completion A -> list request -> Prop) :
  wp P p (fun c tr =>
            match c with
            | Returned a => Q (Returned a) tr
            | Thrown e => wp P (h e) (fun c' tr' => Q c' (tr ++ tr'))
            end) ->
  wp P (try_catch p h) Q.
Proof.
  revert Q.
  induction p as [a | e | r k IH | q k IH]; simpl; intros Q Hwp.
  - exact Hwp.
  - exact Hwp.
  - intros out Hout. apply IH. eapply wp_mono; [| apply Hwp; exact Hout].
    intros [a | e] tr H; simpl in *; auto.
  - intros s. apply IH. apply Hwp.
Qed.

End ProgLemmas.

Lemma wp_bind {A B : Type} (P : request -> outcome -> Prop) (p : prog A)
  (f : A -> prog B) (Q : completion B -> list request -> Prop) :
  wp P p (fun c tr =>
            match c with
            | Returned a => wp P (f a) (fun c' tr' => Q c' (tr ++ tr'))
            | Thrown e => Q (Thrown e) tr
            end) ->
  wp P (bind p f) Q.
Proof.
  revert Q.
  induction p as [a | e | r k IH | q k IH]; simpl; intros Q Hwp.
  - exact Hwp.
  - exact Hwp.
  - intros out Hout. apply IH. eapply wp_mono; [| apply Hwp; exact Hout].
    intros [a | e] tr H; simpl in *; auto.
  - intros s. apply IH. apply Hwp.
Qed.

Lemma wp_any {A : Type} (P : request -> outcome -> Prop) (p : prog A)
  (Q : completion A -> list request -> Prop) :
  (forall c tr, Q c tr) -> wp P p Q.
Proof.
  revert Q.
  induction p as [a | e | r k IH | q k IH]; simpl; intros Q HQ; auto.
Qed.

(** ** Pure steps: they issue no request and either return or throw *)

Section PureSteps.

Context (P : request -> outcome -> Prop) (rt : Runtime).
Context (Q : completion value -> list request -> Prop).
Hypothesis HR : forall x, Q (Returned x) [].
Hypothesis HT : forall e, Q (Thrown e) [].

Lemma wp_call_toLowerCase (v : value) : wp P (call_toLowerCase rt v) Q.
Proof. unfold call_toLowerCase. destruct v; simpl; auto. Qed.

Lemma wp_call_includes (v : value) (s : string) : wp P (call_includes v s) Q.
Proof. unfold call_includes. destruct v; simpl; auto. Qed.

Lemma wp_call_filter (v : value) (f : value -> bool) : wp P (call_filter v f) Q.
Proof. unfold call_filter. destruct v; simpl; auto. Qed.

Lemma wp_encrypt (v : value) : wp P (BrokerCredentialService.encrypt rt v) Q.
Proof.
  unfold BrokerCredentialService.encrypt. simpl. intros s.
  destruct (AES_encrypt rt _ _ _); simpl; auto.
Qed.

Lemma wp_decrypt (v : value) : wp P (BrokerCredentialService.decrypt rt v) Q.
Proof.
  unfold BrokerCredentialService.decrypt.
  destruct (AES_decrypt_utf8 rt _ _); simpl; auto.
  destruct (JSON_parse rt _); simpl; auto.
Qed.

Lemma wp_sum_field (field : string) (rows : value) :
  wp P (TradingService.sum_field rt field rows) Q.
Proof. unfold TradingService.sum_field. destruct rows; simpl; auto. Qed.

Lemma wp_closedAt_toISOString (closedAt : TradingService.date_arg) (now : string) :
  wp P (TradingService.closedAt_toISOString closedAt now) Q.
Proof.
  unfold TradingService.closedAt_toISOString.
  destruct closedAt as [| [iso |] | v]; simpl; auto.
  destruct v; simpl; auto.
Qed.

End PureSteps.

Lemma wp_iterate (P : request -> outcome -> Prop) (v : value)
  (Q : completion (list value) -> list request -> Prop) :
  (forall l, Q (Returned l) []) -> (forall e, Q (Thrown e) []) ->
  wp P (iterate v) Q.
Proof. intros HR HT. unfold iterate. destruct v; simpl; auto. Qed.

(** Symbolic execution of a request tree, one source statement at a time. *)
Ltac wp_step :=
  lazymatch goal with
  | |- wp _ (try_catch _ _) _ => apply wp_try_catch
  | |- wp _ (bind _ _) _ => apply wp_bind
  | |- wp _ (if ?b then _ else _) _ => destruct b eqn:?
  | |- wp _ (Ret _) _ => cbn [wp]
  | |- wp _ (Throw _) _ => cbn [wp]
  | |- wp _ (Call _ _) _ => cbn [wp]; intros [?v | ?e] ?Hc
  | |- wp _ (Local _ _) _ => cbn [wp]; intros ?s
  | |- wp _ (await _) _ => unfold await
  | |- wp _ (await_destructured _) _ => unfold await_destructured
  | |- wp _ (destructurable _) _ => unfold destructurable
  | |- wp _ now_iso _ => unfold now_iso
  | |- wp _ (call_toLowerCase _ _) _ => apply wp_call_toLowerCase; intros
  | |- wp _ (call_includes _ _) _ => apply wp_call_includes; intros
  | |- wp _ (call_filter _ _) _ => apply wp_call_filter; intros
  | |- wp _ (iterate _) _ => apply wp_iterate; intros
  | |- wp _ (BrokerCredentialService.encrypt _ _) _ => apply wp_encrypt; intros
  | |- wp _ (BrokerCredentialService.decrypt _ _) _ => apply wp_decrypt; intros
  | |- wp _ (TradingService.sum_field _ _ _) _ => apply wp_sum_field; intros
  | |- wp _ (TradingService.closedAt_toISOString _ _) _ =>
      apply wp_closedAt_toISOString; intros
  | |- wp _ (match ?x with _ => _ end) _ => destruct x eqn:?
  end.

Ltac wp_go := repeat (wp_step; cbv beta iota).

Ltac use_contract :=
  repeat match goal with
  | H : backend_contract _ _ |- _ => cbn in H
  | H : truthy ?e = true -> has_message ?e = true, E : truthy ?e = true |- _ =>
      specialize (H E); unfold has_message in H
  | H : match ?x with _ => _ end = true |- _ =>
      destruct x eqn:?; try discriminate H
  end.

Ltac shape_done := use_contract; cbn; auto.

(** A sub-operation whose specification is already known. *)
Create HintDb shapes.

Ltac wp_sub :=
  eapply wp_mono; [| solve [eauto with shapes]];
  intros [?res | ?e] ?tr ?Hres; cbn [returns_shape] in *; [| contradiction].

Ltac wp_compose := repeat (first [wp_step | wp_sub]; cbv beta iota).

(** ** The shape of service results *)

Section Shapes.

Context (rt : Runtime).

Local Abbreviation shaped p :=
  (wp backend_contract p (returns_shape true false)).
Local Abbreviation shaped_with_data p :=
  (wp backend_contract p (returns_shape true true)).

Lemma getTradingAccounts_shape : shaped_with_data TradingService.getTradingAccounts.
Proof. unfold TradingService.getTradingAccounts. wp_go; shape_done. Qed.

Lemma getTrades_shape filters : shaped_with_data (TradingService.getTrades rt filters).
Proof. unfold TradingService.getTrades. wp_go; shape_done. Qed.

Lemma createTrade_shape tradeData :
  shaped_with_data (TradingService.createTrade rt tradeData).
Proof. unfold TradingService.createTrade. wp_go; shape_done. Qed.

Lemma updateTrade_shape tradeId updates :
  shaped_with_data (TradingService.updateTrade tradeId updates).
Proof. unfold TradingService.updateTrade. wp_go; shape_done. Qed.

Lemma closeTrade_shape tradeId exitPrice closedAt :
  shaped_with_data (TradingService.closeTrade tradeId exitPrice closedAt).
Proof. unfold TradingService.closeTrade. wp_go; shape_done. Qed.

Lemma deleteTrade_shape tradeId : shaped (TradingService.deleteTrade tradeId).
Proof. unfold TradingService.deleteTrade. wp_go; shape_done. Qed.

Lemma getPortfolioSummary_shape : shaped_with_data (TradingService.getPortfolioSummary rt).
Proof. unfold TradingService.getPortfolioSummary. wp_go; shape_done. Qed.

Lemma getAnalyticsData_shape filters :
  shaped_with_data (TradingService.getAnalyticsData filters).
Proof. unfold TradingService.getAnalyticsData. wp_go; shape_done. Qed.

Lemma getBrokers_shape : shaped_with_data TradingService.getBrokers.
Proof. unfold TradingService.getBrokers. wp_go; shape_done. Qed.

Lemma getStrategies_shape : shaped_with_data TradingService.getStrategies.
Proof. unfold TradingService.getStrategies. wp_go; shape_done. Qed.

Lemma createTradingAccountFromBroker_shape brokerId brokerData :
  shaped (TradingService.createTradingAccountFromBroker rt brokerId brokerData).
Proof. unfold TradingService.createTradingAccountFromBroker. wp_go; shape_done. Qed.

Lemma storeBrokerCredentials_shape brokerData :
  shaped (BrokerCredentialService.storeBrokerCredentials rt brokerData).
Proof. unfold BrokerCredentialService.storeBrokerCredentials. wp_go; shape_done. Qed.

Lemma getBrokerCredentials_shape brokerId :
  shaped (BrokerCredentialService.getBrokerCredentials rt brokerId).
Proof. unfold BrokerCredentialService.getBrokerCredentials. wp_go; shape_done. Qed.

#[local] Hint Resolve getBrokerCredentials_shape : shapes.

Lemma updateBrokerCredentials_shape brokerId newCredentials :
  shaped (BrokerCredentialService.updateBrokerCredentials rt brokerId newCredentials).
Proof. unfold BrokerCredentialService.updateBrokerCredentials. wp_go; shape_done. Qed.

Lemma testZerodhaConnection_shape credentials :
  shaped (BrokerCredentialService.testZerodhaConnection rt credentials).
Proof. unfold BrokerCredentialService.testZerodhaConnection. wp_go; shape_done. Qed.

Lemma testUpstoxConnection_shape credentials :
  shaped (BrokerCredentialService.testUpstoxConnection rt credentials).
Proof. unfold BrokerCredentialService.testUpstoxConnection. wp_go; shape_done. Qed.

Lemma testInteractiveBrokersConnection_shape credentials :
  shaped (BrokerCredentialService.testInteractiveBrokersConnection credentials).
Proof. unfold BrokerCredentialService.testInteractiveBrokersConnection. wp_go; shape_done. Qed.

Lemma testMT5Connection_shape credentials :
  shaped (BrokerCredentialService.testMT5Connection credentials).
Proof. unfold BrokerCredentialService.testMT5Connection. wp_go; shape_done. Qed.

Lemma testAlpacaConnection_shape credentials :
  shaped (BrokerCredentialService.testAlpacaConnection credentials).
Proof. unfold BrokerCredentialService.testAlpacaConnection. wp_go; shape_done. Qed.

Lemma updateBrokerStatus_shape brokerId status :
  shaped (BrokerCredentialService.updateBrokerStatus brokerId status).
Proof. unfold BrokerCredentialService.updateBrokerStatus. wp_go; shape_done. Qed.

Lemma deleteBrokerCredentials_shape brokerId :
  shaped (BrokerCredentialService.deleteBrokerCredentials brokerId).
Proof. unfold BrokerCredentialService.deleteBrokerCredentials. wp_go; shape_done. Qed.

#[local] Hint Resolve testZerodhaConnection_shape testUpstoxConnection_shape
  testInteractiveBrokersConnection_shape testMT5Connection_shape
  testAlpacaConnection_shape : shapes.

Lemma testBrokerConnection_shape brokerId :
  shaped (BrokerCredentialService.testBrokerConnection rt brokerId).
Proof.
  unfold BrokerCredentialService.testBrokerConnection.
  wp_compose; shape_done.
Qed.

Lemma syncZerodhaData_shape brokerId :
  shaped (TradingService.syncZerodhaData rt brokerId).
Proof. unfold TradingService.syncZerodhaData. wp_compose; shape_done. Qed.

Lemma syncInteractiveBrokersData_shape brokerId :
  shaped (TradingService.syncInteractiveBrokersData rt brokerId).
Proof. unfold TradingService.syncInteractiveBrokersData. wp_compose; shape_done. Qed.

Lemma syncAlpacaData_shape brokerId :
  shaped (TradingService.syncAlpacaData rt brokerId).
Proof. unfold TradingService.syncAlpacaData. wp_compose; shape_done. Qed.

#[local] Hint Resolve storeBrokerCredentials_shape testBrokerConnection_shape
  updateBrokerStatus_shape createTradingAccountFromBroker_shape
  syncZerodhaData_shape syncInteractiveBrokersData_shape syncAlpacaData_shape
  getBrokers_shape : shapes.

Lemma addBroker_shape brokerData :
  shaped (TradingService.addBroker rt brokerData).
Proof. unfold TradingService.addBroker. wp_compose; shape_done. Qed.

Lemma sync_one_returns (P : request -> outcome -> Prop) results broker :
  wp P (TradingService.sync_one rt results broker)
    (fun c _ => exists results', c = Returned results').
Proof.
  unfold TradingService.sync_one. apply wp_try_catch. apply wp_bind.
  apply wp_any. intros [step | e] tr; simpl; eauto.
Qed.

Lemma sync_each_returns (P : request -> outcome -> Prop) brokers results :
  wp P (TradingService.sync_each rt brokers results)
    (fun c _ => exists results', c = Returned results').
Proof.
  revert results.
  induction brokers as [| broker rest IH]; intros results; simpl; eauto.
  apply wp_bind. eapply wp_mono; [| apply sync_one_returns].
  intros c tr [results' ->]. simpl.
  eapply wp_mono; [| apply IH]. auto.
Qed.

Lemma sync_report_shape results :
  shape false true (TradingService.sync_report rt results) = true.
Proof.
  unfold TradingService.sync_report.
  destruct (TradingService.errors results) as [| msg rest]; simpl.
  - rewrite orb_true_r. reflexivity.
  - rewrite orb_false_r.
    destruct (js_gt_num rt (TradingService.totalImported results) 0);
      reflexivity.
Qed.

Lemma syncFromBrokers_shape :
  wp backend_contract (TradingService.syncFromBrokers rt)
    (returns_shape false true).
Proof.
  unfold TradingService.syncFromBrokers.
  apply wp_try_catch. apply wp_bind.
  eapply wp_mono; [| apply getBrokers_shape].
  intros [brokersResult | e] tr Hres; cbn [returns_shape] in *; [| contradiction].
  destruct (negb (truthy (get brokersResult "success"))); [reflexivity |].
  wp_go; try reflexivity.
  eapply wp_mono; [| apply sync_each_returns].
  intros c tr' [results ->]. cbv beta iota.
  wp_go; try reflexivity. apply sync_report_shape.
Qed.

Lemma getBrokerStatus_shape : shaped_with_data (TradingService.getBrokerStatus rt).
Proof.
  unfold TradingService.getBrokerStatus.
  wp_go; try reflexivity.
  apply wp_any. intros [brokersResult | e] tr; [| reflexivity].
  apply wp_bind. apply wp_any. intros [statuses | e] tr'; reflexivity.
Qed.

Lemma connection_catch_shape e :
  error_like e = true -> shaped (AuthService.connection_catch e).
Proof.
  unfold error_like, AuthService.connection_catch, call_includes.
  destruct (get e "message") as [| | b | x | m | items | fields];
    try discriminate; intros _; cbn.
  - reflexivity.
  - destruct (includes "Failed to fetch" m); cbn; [reflexivity |].
    destruct (includes "AuthRetryableFetchError" m); reflexivity.
Qed.

Ltac auth_catch :=
  try (apply connection_catch_shape; first [assumption | reflexivity]).

Ltac auth_done :=
  auth_catch; use_contract; try discriminate; cbn; auto;
  try (unfold js_or;
       match goal with
       | |- context [if ?b then _ else _] => destruct b; reflexivity
       end).

Lemma signUp_shape email password userData :
  shaped (AuthService.signUp email password userData).
Proof. unfold AuthService.signUp. wp_go; auth_done. Qed.

Lemma signIn_shape email password :
  shaped (AuthService.signIn email password).
Proof. unfold AuthService.signIn. wp_go; auth_done. Qed.

Lemma signOut_shape : shaped AuthService.signOut.
Proof. unfold AuthService.signOut. wp_go; auth_done. Qed.

Lemma getCurrentSession_shape : shaped AuthService.getCurrentSession.
Proof. unfold AuthService.getCurrentSession. wp_go; auth_done. Qed.

Lemma getCurrentUserProfile_shape : shaped AuthService.getCurrentUserProfile.
Proof. unfold AuthService.getCurrentUserProfile. wp_go; auth_done. Qed.

Lemma updateProfile_shape updates : shaped (AuthService.updateProfile updates).
Proof. unfold AuthService.updateProfile. wp_go; auth_done. Qed.

Lemma resetPassword_shape email : shaped (AuthService.resetPassword rt email).
Proof. unfold AuthService.resetPassword. wp_go; auth_done. Qed.

Lemma updatePassword_shape newPassword :
  shaped (AuthService.updatePassword newPassword).
Proof. unfold AuthService.updatePassword. wp_go; auth_done. Qed.

Lemma signInWithProvider_shape provider :
  shaped (AuthService.signInWithProvider rt provider).
Proof. unfold AuthService.signInWithProvider. wp_go; auth_done. Qed.

End Shapes.

Lemma shape_spec (strict with_data : bool) (res : value) :
  shape strict with_data res = true ->
  exists b,
    get res "success" = VBool b /\
    has_field res "error" = true /\
    (b = false -> exists m, get res "error" = VStr m) /\
    (b = true -> strict = true -> get res "error" = VNull) /\
    (with_data = true -> has_field res "data" = true).
Proof.
  unfold shape, get, has_field.
  destruct res as [| | | | | | fs]; try discriminate.
  destruct (assoc "success" fs) as [[| | [|] | | | |] |]; try discriminate;
    destruct (assoc "error" fs) as [err |]; try discriminate;
    intros H; apply andb_prop in H; destruct H as [H1 H2].
  - exists true. repeat split; try discriminate.
    + intros _ ->. destruct err; try discriminate; reflexivity.
    + intros ->. exact H2.
  - exists false. repeat split; try discriminate.
    + intros _. destruct err; try discriminate. eauto.
    + intros ->. exact H2.
Qed.

Lemma shape_weaken (strict with_data : bool) (res : value) :
  shape true with_data res = true -> shape strict false res = true.
Proof.
  unfold shape. destruct res; try discriminate.
  intros H. apply andb_prop in H. destruct H as [H _].
  rewrite andb_true_r.
  destruct (assoc "success" fields) as [[| | [|] | | | |] |]; try discriminate;
    destruct (assoc "error" fields) as [[| | | | | |] |]; try discriminate;
    reflexivity.
Qed.

Lemma perform_shape (rt : Runtime) (op : operation) :
  wp backend_contract (perform rt op)
    (returns_shape (strict_success op) (carries_data op)).
Proof.
  destruct op; cbn [perform strict_success carries_data].
  - apply getTradingAccounts_shape.
  - apply getTrades_shape.
  - apply createTrade_shape.
  - apply updateTrade_shape.
  - apply closeTrade_shape.
  - apply deleteTrade_shape.
  - apply getPortfolioSummary_shape.
  - apply getAnalyticsData_shape.
  - apply getBrokers_shape.
  - apply addBroker_shape.
  - apply createTradingAccountFromBroker_shape.
  - apply syncFromBrokers_shape.
  - apply syncZerodhaData_shape.
  - apply syncInteractiveBrokersData_shape.
  - apply syncAlpacaData_shape.
  - apply getBrokerStatus_shape.
  - apply getStrategies_shape.
  - apply storeBrokerCredentials_shape.
  - apply getBrokerCredentials_shape.
  - apply updateBrokerCredentials_shape.
  - apply testBrokerConnection_shape.
  - apply testZerodhaConnection_shape.
  - apply testUpstoxConnection_shape.
  - apply testInteractiveBrokersConnection_shape.
  - apply testMT5Connection_shape.
  - apply testAlpacaConnection_shape.
  - apply updateBrokerStatus_shape.
  - apply deleteBrokerCredentials_shape.
  - apply signUp_shape.
  - apply signIn_shape.
  - apply signOut_shape.
  - apply getCurrentSession_shape.
  - apply getCurrentUserProfile_shape.
  - apply updateProfile_shape.
  - apply resetPassword_shape.
  - apply updatePassword_shape.
  - apply signInWithProvider_shape.
Qed.

(** ** Nothing is propagated *)

(** A [try] whose [catch] block only returns a value cannot throw. *)
Lemma try_catch_returns {A : Type} (P : request -> outcome -> Prop)
  (p : prog A) (h : value -> prog A) :
  (forall e, exists a, h e = Ret a) -> wp P (try_catch p h) returned.
Proof.
  intros Hh. apply wp_try_catch. apply wp_any.
  intros [a | e] tr.
  - exists a. reflexivity.
  - destruct (Hh e) as [a ->]. cbn. exists a. reflexivity.
Qed.

Ltac literal_catch := apply try_catch_returns; intros e; eexists; reflexivity.

(** Whatever the backend, [fetch] and the Upstox service do, every
    operation other than [signUp] and [signIn] returns. *)
Lemma operations_never_throw (rt : Runtime) (op : operation) (o : oracle) (n : nat) :
  inspects_rejection op = false ->
  exists res, fst (run (perform rt op) o n) = Returned res.
Proof.
  intros Hop.
  assert (Ho : answers any_outcome o) by (intros k r; exact I).
  apply (wp_run any_outcome (perform rt op) returned o n Ho).
  destruct op; try discriminate; cbn [perform]; try literal_catch.
  unfold TradingService.closeTrade. cbn [wp]. intros s. literal_catch.
Qed.

(** ** C1: the result shape *)

(** C1, as stated, fails: a successful [deleteTrade] returns
    [{ success: true, error: null }], an object with no [data] property. *)
Lemma deleteTrade_result_has_no_data :
  result_of (TradingService.deleteTrade (VStr "trade-1"))
    (always (Resolved (ok_response VNull)))
  = Returned (result2 true VNull)
  /\ has_field (result2 true VNull) "data" = false.
Proof. split; reflexivity. Qed.

(** C1, amended.  Against a backend that keeps its documented error
    behaviour, every asynchronous operation of the three services returns
    (it never throws) an object with a boolean [success] and an [error]
    property; [error] is a message string whenever [success] is false, and
    [null] whenever [success] is true, except in [syncFromBrokers].  The
    [data] property is present on every result of the operations listed by
    [carries_data]; other operations leave it out on some paths. *)
Theorem service_results_have_success_and_error
  (rt : Runtime) (op : operation) (o : oracle) (n : nat) :
  answers backend_contract o ->
  exists res,
    fst (run (perform rt op) o n) = Returned res /\ result_contract op res.
Proof.
  intros Ho.
  pose proof (wp_run _ _ _ o n Ho (perform_shape rt op)) as H.
  unfold returns_shape in H.
  destruct (fst (run (perform rt op) o n)) as [res | e]; [| contradiction].
  destruct (shape_spec _ _ _ H) as (b & Hs & He & Hf & Ht & Hd).
  exists res. split; [reflexivity |]. exists b. repeat split; auto.
  intros Hb Hop. apply Ht; [exact Hb |].
  destruct op; try reflexivity. contradiction.
Qed.

Lemma always_ok_keeps_contract (data : value) :
  answers backend_contract (always (Resolved (ok_response data))).
Proof. intros n r. destruct r; simpl; intros; try discriminate; exact I. Qed.

(** A backend that answers every request without error keeps the contract. *)
Lemma service_results_have_success_and_error_witness :
  answers backend_contract (always (Resolved (ok_response VNull))) /\
  exists res,
    fst (run (perform Sample.rt (T_deleteTrade (VStr "trade-1")))
           (always (Resolved (ok_response VNull))) 0) = Returned res
    /\ result_contract (T_deleteTrade (VStr "trade-1")) res.
Proof.
  split.
  - apply always_ok_keeps_contract.
  - apply (service_results_have_success_and_error Sample.rt
             (T_deleteTrade (VStr "trade-1"))
             (always (Resolved (ok_response VNull))) 0).
    apply always_ok_keeps_contract.
Defined.

(** ** C10: list reads return arrays *)

Ltac rows_done :=
  repeat match goal with
  | H : rows_contract _ _ |- _ => cbn in H
  end;
  cbn; auto;
  try match goal with
  | H : is_array ?d || nullish ?d = true |- context [js_or ?d _] =>
      unfold js_or; destruct d; simpl in H; try discriminate H; reflexivity
  end.

Lemma list_read_array_data (rt : Runtime) (op : operation) :
  is_list_read op = true ->
  wp rows_contract (perform rt op)
    (fun c _ =>
       match c with
       | Returned res => array_data res = true
       | Thrown _ => False
       end).
Proof.
  destruct op; try discriminate; intros _; cbn [perform].
  - unfold TradingService.getTradingAccounts. wp_go; rows_done.
  - unfold TradingService.getTrades. wp_go; rows_done.
  - unfold TradingService.getAnalyticsData. wp_go; rows_done.
  - unfold TradingService.getBrokers. wp_go; rows_done.
  - unfold TradingService.getStrategies. wp_go; rows_done.
Qed.

(** C10.  Whatever the input and whatever the backend does (an error
    response, a rejection, a response with no rows), the five list reads
    return a [data] property that is an array, and the empty array whenever
    [success] is false.  The backend is taken at its word that the rows of a
    list select, when there are any, come as an array. *)
Theorem list_reads_return_arrays
  (rt : Runtime) (op : operation) (o : oracle) (n : nat) :
  is_list_read op = true ->
  answers rows_contract o ->
  exists res rows,
    fst (run (perform rt op) o n) = Returned res /\
    get res "data" = VArr rows /\
    (get res "success" = VBool false -> rows = []).
Proof.
  intros Hop Ho.
  pose proof (wp_run _ _ _ o n Ho (list_read_array_data rt op Hop)) as H.
  cbv beta in H.
  destruct (fst (run (perform rt op) o n)) as [res | e]; [| contradiction].
  unfold array_data in H.
  destruct (get res "data") as [| | | | | rows |] eqn:Hd; try discriminate.
  exists res, rows. split; [reflexivity |]. split; [exact Hd |].
  intros Hs. rewrite Hs in H. destruct rows; [reflexivity | discriminate].
Qed.

Lemma always_rows_keeps_contract (rows : list value) :
  answers rows_contract (always (Resolved (ok_response (VArr rows)))).
Proof. intros n r. reflexivity. Qed.

(** A backend that answers every select with one row. *)
Lemma list_reads_return_arrays_witness :
  is_list_read (T_getTrades (VObj [("status", VStr "open")])) = true /\
  answers rows_contract
    (always (Resolved (ok_response (VArr [VObj [("id", VNum 1)]])))) /\
  exists res rows,
    fst (run (perform Sample.rt (T_getTrades (VObj [("status", VStr "open")])))
           (always (Resolved (ok_response (VArr [VObj [("id", VNum 1)]])))) 0)
    = Returned res /\
    get res "data" = VArr rows /\
    (get res "success" = VBool false -> rows = []).
Proof.
  split; [reflexivity |]. split; [apply always_rows_keeps_contract |].
  apply (list_reads_return_arrays Sample.rt
           (T_getTrades (VObj [("status", VStr "open")]))
           (always (Resolved (ok_response (VArr [VObj [("id", VNum 1)]])))) 0).
  - reflexivity.
  - apply always_rows_keeps_contract.
Defined.

(** ** C5 and C6: the queries of [getTrades] and [getAnalyticsData] *)

Lemma run_list_read (r : request) (failure : string) (o : oracle) (n : nat) :
  run (try_catch
         (resp <- await_destructured r ;;
          let data := get resp "data" in
          let error := get resp "error" in
          if truthy error then Ret (result3 false (VArr []) (get error "message"))
          else Ret (result3 true (js_or data (VArr [])) VNull))
         (fun _ => Ret (result3 false (VArr []) (VStr failure)))) o n
  = (Returned (rows_result (answer o n r) failure), [r]).
Proof.
  unfold await_destructured, await, destructurable, rows_result. cbn.
  destruct (answer o n r) as [resp | e]; cbn; [| reflexivity].
  destruct (nullish resp); cbn; [reflexivity |].
  destruct (truthy (get resp "error")); reflexivity.
Qed.

Lemma trades_query_spec (rt : Runtime) (filters : value) :
  TradingService.trades_query rt filters =
    [OpSelect (Some TradingService.trades_columns)]
    ++ when_set (get filters "status") (OpEq "status" (get filters "status"))
    ++ when_set (get filters "symbol")
         (OpIlike "symbol" ("%" ++ to_string rt (get filters "symbol") ++ "%"))
    ++ when_set (get filters "dateFrom")
         (OpGte "opened_at" (get filters "dateFrom"))
    ++ when_set (get filters "dateTo") (OpLte "opened_at" (get filters "dateTo"))
    ++ [OpRange (js_or (get filters "offset") (VNum 0))
          (js_sub rt
             (js_add rt (js_or (get filters "offset") (VNum 0))
                (js_or (get filters "limit") (VNum 50)))
             (VNum 1));
        OpOrder "opened_at" false].
Proof.
  unfold TradingService.trades_query, when_set.
  destruct (truthy (get filters "status")), (truthy (get filters "symbol")),
    (truthy (get filters "dateFrom")), (truthy (get filters "dateTo"));
    reflexivity.
Qed.

(** C5.  [getTrades] issues one request, a select on [trades] whose builder
    calls are, in order: the equality filter on [status], the
    case-insensitive pattern [%symbol%] on [symbol], [opened_at >= dateFrom]
    and [opened_at <= dateTo], each present exactly when its filter value is
    set; the row range from [offset] to [offset + limit - 1] with [limit]
    defaulting to 50 and [offset] to 0; and the descending order on
    [opened_at].  Nothing else is asked for, and the rows of the response are
    returned as they come. *)
Theorem getTrades_forwards_filters
  (rt : Runtime) (filters : value) (o : oracle) (n : nat) :
  let status := get filters "status" in
  let symbol := get filters "symbol" in
  let dateFrom := get filters "dateFrom" in
  let dateTo := get filters "dateTo" in
  let limit := js_or (get filters "limit") (VNum 50) in
  let offset := js_or (get filters "offset") (VNum 0) in
  let query :=
    RQuery "trades"
      ([OpSelect (Some TradingService.trades_columns)]
       ++ when_set status (OpEq "status" status)
       ++ when_set symbol (OpIlike "symbol" ("%" ++ to_string rt symbol ++ "%"))
       ++ when_set dateFrom (OpGte "opened_at" dateFrom)
       ++ when_set dateTo (OpLte "opened_at" dateTo)
       ++ [OpRange offset (js_sub rt (js_add rt offset limit) (VNum 1));
           OpOrder "opened_at" false]) in
  run (TradingService.getTrades rt filters) o n
  = (Returned (rows_result (answer o n query) "Failed to fetch trades"),
     [query]).
Proof.
  cbv zeta. unfold TradingService.getTrades.
  rewrite run_list_read, trades_query_spec. reflexivity.
Qed.

Lemma analytics_query_spec (filters : value) :
  TradingService.analytics_query filters =
    [OpSelect (Some "*")]
    ++ when_set (get filters "dateFrom") (OpGte "date" (get filters "dateFrom"))
    ++ when_set (get filters "dateTo") (OpLte "date" (get filters "dateTo"))
    ++ [OpOrder "date" true].
Proof.
  unfold TradingService.analytics_query, when_set.
  destruct (truthy (get filters "dateFrom")), (truthy (get filters "dateTo"));
    reflexivity.
Qed.

(** C6.  [getAnalyticsData] issues one request, a select of all columns of
    [analytics_data] with [date >= dateFrom] and [date <= dateTo], each
    present exactly when its filter value is set, ordered by [date]
    ascending; the rows of the response are returned as they come, no row is
    touched. *)
Theorem getAnalyticsData_reads_rows_directly
  (filters : value) (o : oracle) (n : nat) :
  let dateFrom := get filters "dateFrom" in
  let dateTo := get filters "dateTo" in
  let query :=
    RQuery "analytics_data"
      ([OpSelect (Some "*")]
       ++ when_set dateFrom (OpGte "date" dateFrom)
       ++ when_set dateTo (OpLte "date" dateTo)
       ++ [OpOrder "date" true]) in
  run (TradingService.getAnalyticsData filters) o n
  = (Returned (rows_result (answer o n query) "Failed to fetch analytics data"),
     [query]).
Proof.
  cbv zeta. unfold TradingService.getAnalyticsData.
  rewrite run_list_read, analytics_query_spec. reflexivity.
Qed.

(** On a successful response the rows are the backend's, unchanged. *)
Lemma rows_result_passes_rows (rows : list value) (failure : string) :
  rows_result (Resolved (ok_response (VArr rows))) failure
  = result3 true (VArr rows) VNull.
Proof. reflexivity. Qed.

Example getTrades_page_three :
  trace_of
    (TradingService.getTrades Sample.rt
       (VObj [("status", VStr "open"); ("symbol", VStr "");
              ("limit", VNum 20); ("offset", VNum 40)]))
    (always (Resolved (ok_response (VArr []))))
  = [RQuery "trades"
       [OpSelect (Some TradingService.trades_columns);
        OpEq "status" (VStr "open");
        OpRange (VNum 40) (VNum 59);
        OpOrder "opened_at" false]].
Proof. vm_compute. reflexivity. Qed.

(** ** C4: derived values *)

(** C4, as stated, fails: on two portfolios with profits 30 and 45 and two
    accounts with balances 100 and 50, [getPortfolioSummary] returns the
    sums 150 and 75 and the percentage 50, none of which is a backend row. *)
Lemma getPortfolioSummary_computes_aggregates :
  run (TradingService.getPortfolioSummary Sample.rt) portfolio_backend 0
  = (Returned
       (result3 true
          (VObj [("portfolios", VArr sample_portfolios);
                 ("totalBalance", VNum 150);
                 ("totalPnL", VNum 75);
                 ("totalPnLPercentage", VNum 50)])
          VNull),
     [portfolios_query; accounts_query]).
Proof. vm_compute. reflexivity. Qed.

Lemma list_read_passes_rows (rt : Runtime) (op : operation) (o : oracle) (n : nat) :
  is_list_read op = true ->
  exists r failure,
    run (perform rt op) o n = (Returned (rows_result (answer o n r) failure), [r]).
Proof.
  destruct op; try discriminate; intros _; cbn [perform].
  - eexists _, _. unfold TradingService.getTradingAccounts. apply run_list_read.
  - eexists _, _. unfold TradingService.getTrades. apply run_list_read.
  - eexists _, _. unfold TradingService.getAnalyticsData. apply run_list_read.
  - eexists _, _. unfold TradingService.getBrokers. apply run_list_read.
  - eexists _, _. unfold TradingService.getStrategies. apply run_list_read.
Qed.

(** C4, amended.  The list reads ([getTradingAccounts], [getTrades],
    [getAnalyticsData], [getBrokers], [getStrategies]) return the rows of
    their one response as they come and compute nothing.
    [getPortfolioSummary] does compute: next to the portfolio rows it
    returns [totalBalance] and [totalPnL], the client-side sums of the
    parsed [balance] and [total_pnl] columns, and [totalPnLPercentage],
    their ratio times 100 when the balance is positive. *)
Theorem reads_pass_rows_and_summary_aggregates
  (rt : Runtime) (o : oracle) (n : nat) (portfolios accounts : list value) :
  succeeds_with (answer o n portfolios_query) (VArr portfolios) ->
  succeeds_with (answer o (S n) accounts_query) (VArr accounts) ->
  let totalBalance := js_or (total rt "balance" accounts) (VNum 0) in
  let totalPnL := js_or (total rt "total_pnl" portfolios) (VNum 0) in
  fst (run (TradingService.getPortfolioSummary rt) o n)
  = Returned
      (result3 true
         (VObj [("portfolios", VArr portfolios);
                ("totalBalance", totalBalance);
                ("totalPnL", totalPnL);
                ("totalPnLPercentage",
                 if js_gt_num rt totalBalance 0
                 then VNum (to_number rt totalPnL / to_number rt totalBalance
                            * 100)
                 else VNum 0)])
         VNull)
  /\ forall op, is_list_read op = true ->
       exists r failure,
         run (perform rt op) o n
         = (Returned (rows_result (answer o n r) failure), [r]).
Proof.
  intros (resp1 & H1 & Hn1 & He1 & Hd1) (resp2 & H2 & Hn2 & He2 & Hd2).
  cbv zeta. split; [| intros op Hop; apply list_read_passes_rows; exact Hop].
  unfold TradingService.getPortfolioSummary, await_destructured, await,
    destructurable, portfolios_query, accounts_query in *.
  cbn. rewrite H1. cbn. rewrite Hn1. cbn. rewrite He1. cbn.
  rewrite H2. cbn. rewrite Hn2. cbn. rewrite He2. cbn.
  rewrite Hd1, Hd2. reflexivity.
Qed.

Lemma portfolio_backend_answers (table : string) (ops : list qop) (n : nat)
  (rows : list value) :
  answer portfolio_backend n (RQuery table ops) = Resolved (ok_response (VArr rows)) ->
  succeeds_with (answer portfolio_backend n (RQuery table ops)) (VArr rows).
Proof. intros H. exists (ok_response (VArr rows)). repeat split. exact H. Qed.

(** The sample portfolios and accounts: the total balance is the computed
    sum. *)
Lemma reads_pass_rows_and_summary_aggregates_witness :
  succeeds_with (answer portfolio_backend 0 portfolios_query)
    (VArr sample_portfolios) /\
  succeeds_with (answer portfolio_backend 1 accounts_query)
    (VArr sample_accounts) /\
  get (match fst (run (TradingService.getPortfolioSummary Sample.rt)
                    portfolio_backend 0) with
       | Returned res => get res "data"
       | Thrown _ => VUndef
       end) "totalBalance"
  = js_or (total Sample.rt "balance" sample_accounts) (VNum 0).
Proof.
  assert (H1 : succeeds_with (answer portfolio_backend 0 portfolios_query)
                 (VArr sample_portfolios))
    by (apply portfolio_backend_answers; reflexivity).
  assert (H2 : succeeds_with (answer portfolio_backend 1 accounts_query)
                 (VArr sample_accounts))
    by (apply portfolio_backend_answers; reflexivity).
  split; [exact H1 |]. split; [exact H2 |].
  rewrite (proj1 (reads_pass_rows_and_summary_aggregates Sample.rt
                    portfolio_backend 0 sample_portfolios sample_accounts
                    H1 H2)).
  reflexivity.
Defined.

(** ** C8: [createTrade] validates before it writes *)

(** C8, amended.  When a required field of [tradeData] is missing or
    falsy, or when no user with a usable id is signed in, [createTrade]
    returns [{ success: false, data: null, error }] and the only request it
    has issued is [auth.getUser()]: nothing is inserted.  The message is
    [User not authenticated] when [getUser] reports an error or no user,
    [Invalid user ID] when the user's id has no truthy string form and
    [Missing required trade data] otherwise; but when [getUser] itself
    rejects, or resolves without a [data] object, it is the
    [Failed to create trade] of the [catch] block. *)
Theorem createTrade_validates_before_insert
  (rt : Runtime) (tradeData : value) (o : oracle) (n : nat) :
  missing_trade_data tradeData = true
  \/ signed_in rt (answer o n auth_getUser) = false ->
  run (TradingService.createTrade rt tradeData) o n
  = (Returned
       (result3 false VNull
          (VStr (createTrade_refusal rt (answer o n auth_getUser)))),
     [auth_getUser]).
Proof.
  intros H.
  unfold TradingService.createTrade, await_destructured, await, auth_getUser
    in *.
  cbn [run bind try_catch].
  unfold createTrade_refusal, getUser_answered, refusal_message, signed_in in *.
  destruct (answer o n (RAuth "getUser" [])) as [resp | e];
    cbn [run bind try_catch session_user] in *.
  2: reflexivity.
  unfold destructurable.
  destruct (nullish resp) eqn:Hn; cbn [run bind try_catch negb andb].
  { reflexivity. }
  destruct (nullish (get resp "data")) eqn:Hd; cbn [run bind try_catch negb andb].
  { reflexivity. }
  destruct (truthy (get resp "error")) eqn:He;
    cbn [run bind try_catch orb negb andb truthy] in *.
  { reflexivity. }
  set (user := get (get resp "data") "user") in *.
  destruct (truthy user) eqn:Hu; cbn [run bind try_catch orb negb andb] in *.
  2: reflexivity.
  cbv zeta. fold (user_id_text rt user).
  destruct (truthy (user_id_text rt user)) eqn:Hid;
    cbn [run bind try_catch negb andb] in *.
  - destruct H as [H | H]; [| discriminate H].
    unfold missing_trade_data in H. rewrite H. cbn [run bind try_catch].
    reflexivity.
  - reflexivity.
Qed.

(** C8, as stated, fails: with the network down, a trade without quantity
    and price is refused with the message of the [catch] block, which is
    none of the three messages of the checks. *)
Example createTrade_refused_without_a_listed_message :
  missing_trade_data (VObj [("instrument", VStr "NIFTY")]) = true
  /\ signed_in Sample.rt (answer offline_backend 0 auth_getUser) = false
  /\ run (TradingService.createTrade Sample.rt (VObj [("instrument", VStr "NIFTY")]))
       offline_backend 0
     = (Returned (result3 false VNull (VStr "Failed to create trade")),
        [auth_getUser]).
Proof. repeat split. Qed.

Example createTrade_without_quantity :
  run (TradingService.createTrade Sample.rt
         (VObj [("instrument", VStr "NIFTY"); ("entryPrice", VNum 100)]))
    (always (Resolved (ok_response (VObj [("user", VObj [("id", VStr "u-1")])]))))
    0
  = (Returned (result3 false VNull (VStr "Missing required trade data")),
     [auth_getUser]).
Proof. vm_compute. reflexivity. Qed.

(** A trade without quantity and price, and no user signed in. *)
Lemma createTrade_validates_before_insert_witness :
  (missing_trade_data (VObj [("instrument", VStr "NIFTY")]) = true
   \/ signed_in Sample.rt
        (answer (always (Resolved (ok_response (VObj [("user", VNull)]))))
           0 auth_getUser) = false) /\
  run (TradingService.createTrade Sample.rt (VObj [("instrument", VStr "NIFTY")]))
    (always (Resolved (ok_response (VObj [("user", VNull)])))) 0
  = (Returned (result3 false VNull (VStr "User not authenticated")),
     [auth_getUser]).
Proof.
  split.
  - left. reflexivity.
  - exact (createTrade_validates_before_insert Sample.rt
             (VObj [("instrument", VStr "NIFTY")])
             (always (Resolved (ok_response (VObj [("user", VNull)])))) 0
             (or_introl eq_refl)).
Defined.

(** ** Running sequences *)

Lemma run_bind {A B : Type} (p : prog A) (f : A -> prog B) (o : oracle) (n : nat) :
  run (bind p f) o n =
  match run p o n with
  | (Returned a, tr) =>
      let (c, tr') := run (f a) o (n + steps p o n) in (c, tr ++ tr')
  | (Thrown e, tr) => (Thrown e, tr)
  end.
Proof.
  revert n.
  induction p as [a | e | r k IH | q k IH]; intros n; cbn [bind run steps].
  - rewrite Nat.add_0_r. destruct (run (f a) o n). reflexivity.
  - reflexivity.
  - rewrite IH. destruct (run (k (answer o n r)) o (S n)) as [[a | e] tr].
    + rewrite Nat.add_succ_r.
      destruct (run (f a) o _) as [c tr']. reflexivity.
    + reflexivity.
  - rewrite IH. destruct (run (k (local_answer o n q)) o (S n)) as [[a | e] tr].
    + rewrite Nat.add_succ_r. reflexivity.
    + reflexivity.
Qed.

Lemma run_try_catch {A : Type} (p : prog A) (h : value -> prog A)
  (o : oracle) (n : nat) :
  run (try_catch p h) o n =
  match run p o n with
  | (Returned a, tr) => (Returned a, tr)
  | (Thrown e, tr) =>
      let (c, tr') := run (h e) o (n + steps p o n) in (c, tr ++ tr')
  end.
Proof.
  revert n.
  induction p as [a | e | r k IH | q k IH]; intros n; cbn [try_catch run steps].
  - reflexivity.
  - rewrite Nat.add_0_r. destruct (run (h e) o n). reflexivity.
  - rewrite IH. destruct (run (k (answer o n r)) o (S n)) as [[a | e] tr].
    + reflexivity.
    + rewrite Nat.add_succ_r.
      destruct (run (h e) o _) as [c tr']. reflexivity.
  - rewrite IH. destruct (run (k (local_answer o n q)) o (S n)) as [[a | e] tr].
    + reflexivity.
    + rewrite Nat.add_succ_r. reflexivity.
Qed.

Lemma steps_bind {A B : Type} (p : prog A) (f : A -> prog B) (o : oracle) (n : nat) :
  steps (bind p f) o n =
  match fst (run p o n) with
  | Returned a => steps p o n + steps (f a) o (n + steps p o n)
  | Thrown _ => steps p o n
  end.
Proof.
  revert n.
  induction p as [a | e | r k IH | q k IH]; intros n; cbn [bind run steps fst].
  - rewrite Nat.add_0_r. reflexivity.
  - reflexivity.
  - rewrite IH. destruct (run (k (answer o n r)) o (S n)) as [[a | e] tr];
      cbn [fst]; [rewrite Nat.add_succ_r |]; reflexivity.
  - rewrite IH. destruct (run (k (local_answer o n q)) o (S n)) as [[a | e] tr];
      cbn [fst]; [rewrite Nat.add_succ_r |]; reflexivity.
Qed.

(** ** C3: the per-broker sync functions are stubs *)

Ltac run_cases :=
  repeat match goal with
  | |- context [match answer ?o ?n ?r with _ => _ end] =>
      destruct (answer o n r) eqn:?; cbn
  | |- context [if ?b then _ else _] => destruct b eqn:?; cbn
  | |- context [match ?x with _ => _ end] => destruct x eqn:?; cbn
  end.

Lemma getBrokerCredentials_success
  (rt : Runtime) (brokerId : value) (o : oracle) (n : nat) (res : value) :
  fst (run (BrokerCredentialService.getBrokerCredentials rt brokerId) o n)
  = Returned res ->
  truthy (get res "success") = true ->
  steps (BrokerCredentialService.getBrokerCredentials rt brokerId) o n = 2
  /\ nullish (get res "data") = false
  /\ forallb read_only
       (snd (run (BrokerCredentialService.getBrokerCredentials rt brokerId) o n))
     = true.
Proof.
  unfold BrokerCredentialService.getBrokerCredentials,
    BrokerCredentialService.decrypt, await_destructured, await, destructurable,
    auth_getUser.
  cbn.
  destruct (answer o n (RAuth "getUser" [])) as [resp | e]; cbn.
  2: { intros [= <-]. discriminate. }
  destruct (nullish resp); cbn.
  { intros [= <-]. discriminate. }
  destruct (truthy (get (get resp "data") "user")); cbn.
  2: { intros [= <-]. discriminate. }
  match goal with
  | |- context [answer o (S n) ?r] => destruct (answer o (S n) r) as [resp2 | e]
  end; cbn.
  2: { intros [= <-]. discriminate. }
  destruct (nullish resp2); cbn.
  { intros [= <-]. discriminate. }
  destruct (truthy (get resp2 "error")); cbn.
  { intros [= <-]. discriminate. }
  destruct (truthy (get (get resp2 "data") "api_key")); cbn.
  2: { intros [= <-]. discriminate. }
  destruct (AES_decrypt_utf8 rt _ _) as [text |]; cbn.
  2: { intros [= <-]. discriminate. }
  destruct (JSON_parse rt text) as [credentials |]; cbn.
  2: { intros [= <-]. discriminate. }
  intros [= <-] _. repeat split.
Qed.

Ltac fetch_step Hf :=
  match goal with
  | |- context [answer ?o ?k (RFetch ?u ?h)] =>
      let response := fresh "response" in
      let body := fresh "body" in
      let Hr := fresh "Hr" in
      let Hok := fresh "Hok" in
      let Hb := fresh "Hb" in
      destruct (Hf k u h) as (response & Hr & Hok & body & Hb);
      rewrite Hr; cbn; rewrite Hok; cbn; rewrite Hb; cbn
  end.

(** C3.  For a broker whose credentials can be retrieved, and with the
    remote fetch answering, [syncZerodhaData], [syncInteractiveBrokersData]
    and [syncAlpacaData] each return
    [{ success: true, data: { importedCount: 0 }, error: null }], and none
    of the requests they issue inserts, updates or deletes a row. *)
Theorem broker_sync_stubs_import_nothing
  (rt : Runtime) (brokerId : value) (o : oracle) (n : nat) :
  credentials_retrievable rt o n brokerId ->
  fetch_succeeds o ->
  let stub := result3 true (VObj [("importedCount", VNum 0)]) VNull in
  (fst (run (TradingService.syncZerodhaData rt brokerId) o n) = Returned stub
   /\ forallb read_only
        (snd (run (TradingService.syncZerodhaData rt brokerId) o n)) = true)
  /\ (fst (run (TradingService.syncInteractiveBrokersData rt brokerId) o n)
      = Returned stub
      /\ forallb read_only
           (snd (run (TradingService.syncInteractiveBrokersData rt brokerId) o n))
         = true)
  /\ (fst (run (TradingService.syncAlpacaData rt brokerId) o n) = Returned stub
      /\ forallb read_only
           (snd (run (TradingService.syncAlpacaData rt brokerId) o n)) = true).
Proof.
  intros (cr & Hcr & Hs) Hf. cbv zeta.
  destruct (getBrokerCredentials_success rt brokerId o n cr Hcr Hs)
    as (Hsteps & Hdata & Hro).
  unfold TradingService.syncZerodhaData, TradingService.syncInteractiveBrokersData,
    TradingService.syncAlpacaData, TradingService.imported_nothing.
  rewrite !run_try_catch, !run_bind.
  destruct (run (BrokerCredentialService.getBrokerCredentials rt brokerId) o n)
    as [c tr].
  cbn [fst snd] in Hcr, Hro. subst c. rewrite Hsteps, Hs.
  cbn [negb]. unfold destructurable, await. rewrite Hdata.
  split; [| split].
  - cbn. fetch_step Hf. rewrite forallb_app, Hro. split; reflexivity.
  - cbn. rewrite app_nil_r. split; [reflexivity | exact Hro].
  - cbn. fetch_step Hf. rewrite forallb_app, Hro. split; reflexivity.
Qed.

Lemma broker_backend_fetch_succeeds (name : string) :
  fetch_succeeds (broker_backend name).
Proof.
  intros k url headers. exists (VObj [("ok", VBool true)]).
  split; [reflexivity |]. split; [reflexivity |].
  exists (VObj [("data", VArr [])]). reflexivity.
Qed.

Lemma broker_backend_credentials :
  credentials_retrievable Sample.rt (broker_backend "Zerodha") 0
    (VStr "broker-1").
Proof.
  eexists. split.
  - vm_compute. reflexivity.
  - reflexivity.
Qed.

(** The sample broker, whose stored credentials decrypt. *)
Lemma broker_sync_stubs_import_nothing_witness :
  credentials_retrievable Sample.rt (broker_backend "Zerodha") 0
    (VStr "broker-1") /\
  fetch_succeeds (broker_backend "Zerodha") /\
  fst (run (TradingService.syncZerodhaData Sample.rt (VStr "broker-1"))
         (broker_backend "Zerodha") 0)
  = Returned (result3 true (VObj [("importedCount", VNum 0)]) VNull).
Proof.
  split; [apply broker_backend_credentials |].
  split; [apply broker_backend_fetch_succeeds |].
  apply (broker_sync_stubs_import_nothing Sample.rt (VStr "broker-1")
           (broker_backend "Zerodha") 0
           broker_backend_credentials
           (broker_backend_fetch_succeeds "Zerodha")).
Defined.

(** Whatever the environment does, the three functions issue no write. *)
Lemma broker_sync_stubs_never_write (rt : Runtime) (brokerId : value)
  (o : oracle) (n : nat) :
  forallb read_only (snd (run (TradingService.syncZerodhaData rt brokerId) o n))
  = true
  /\ forallb read_only
       (snd (run (TradingService.syncInteractiveBrokersData rt brokerId) o n))
     = true
  /\ forallb read_only
       (snd (run (TradingService.syncAlpacaData rt brokerId) o n))
     = true.
Proof.
  assert (Ho : answers any_outcome o) by (intros k r; exact I).
  repeat split.
  - apply (wp_run any_outcome _ (fun _ tr => forallb read_only tr = true) o n Ho).
    unfold TradingService.syncZerodhaData,
      BrokerCredentialService.getBrokerCredentials.
    wp_go; reflexivity.
  - apply (wp_run any_outcome _ (fun _ tr => forallb read_only tr = true) o n Ho).
    unfold TradingService.syncInteractiveBrokersData,
      BrokerCredentialService.getBrokerCredentials.
    wp_go; reflexivity.
  - apply (wp_run any_outcome _ (fun _ tr => forallb read_only tr = true) o n Ho).
    unfold TradingService.syncAlpacaData,
      BrokerCredentialService.getBrokerCredentials.
    wp_go; reflexivity.
Qed.

Example syncZerodhaData_trace :
  trace_of (TradingService.syncZerodhaData Sample.rt (VStr "broker-1"))
    (broker_backend "Zerodha")
  = [auth_getUser;
     RQuery "brokers" [OpSelect (Some "*"); OpEq "id" (VStr "broker-1");
                       OpEq "user_profile_id" (VStr "user-1"); OpSingle];
     RFetch "https://api.kite.trade/portfolio/positions"
       [("Authorization", VStr "token kite-key:kite-secret");
        ("X-Kite-Version", VStr "3")];
     RBodyJson (VObj [("ok", VBool true)])].
Proof. vm_compute. reflexivity. Qed.

(** ** C9: the report of [syncFromBrokers] *)


Section SyncInvariant.

Context (rt : Runtime).

Local Abbreviation counts_nothing res :=
  (truthy (get res "success") = true ->
   truthy (get (get res "data") "importedCount") = false).

Ltac stub_done :=
  cbn; try (intros; reflexivity); try (intros; discriminate); auto.

Lemma syncZerodhaData_counts_nothing (P : request -> outcome -> Prop) brokerId :
  wp P (TradingService.syncZerodhaData rt brokerId)
    (fun c _ => match c with
                | Returned res => counts_nothing res
                | Thrown _ => False
                end).
Proof.
  unfold TradingService.syncZerodhaData,
    BrokerCredentialService.getBrokerCredentials.
  wp_go; stub_done.
Qed.

Lemma syncInteractiveBrokersData_counts_nothing
  (P : request -> outcome -> Prop) brokerId :
  wp P (TradingService.syncInteractiveBrokersData rt brokerId)
    (fun c _ => match c with
                | Returned res => counts_nothing res
                | Thrown _ => False
                end).
Proof.
  unfold TradingService.syncInteractiveBrokersData,
    BrokerCredentialService.getBrokerCredentials.
  wp_go; stub_done.
Qed.

Lemma syncAlpacaData_counts_nothing (P : request -> outcome -> Prop) brokerId :
  wp P (TradingService.syncAlpacaData rt brokerId)
    (fun c _ => match c with
                | Returned res => counts_nothing res
                | Thrown _ => False
                end).
Proof.
  unfold TradingService.syncAlpacaData,
    BrokerCredentialService.getBrokerCredentials.
  wp_go; stub_done.
Qed.

Lemma dispatch_counts_nothing results broker :
  wp upstox_imports_nothing (TradingService.dispatch rt results broker)
    (fun c _ =>
       match c with
       | Returned (results', syncResult) =>
           TradingService.totalImported results'
           = TradingService.totalImported results
           /\ counts_nothing syncResult
       | Thrown _ => True
       end).
Proof.
  unfold TradingService.dispatch.
  wp_go; try exact I.
  - cbn in Hc0. split; [reflexivity | exact Hc0].
  - split; [reflexivity |]. cbn. discriminate.
  - eapply wp_mono; [| apply syncZerodhaData_counts_nothing].
    intros [res | e] tr H; [| contradiction]. cbn. split; [reflexivity | exact H].
  - eapply wp_mono; [| apply syncInteractiveBrokersData_counts_nothing].
    intros [res | e] tr H; [| contradiction]. cbn. split; [reflexivity | exact H].
  - eapply wp_mono; [| apply syncAlpacaData_counts_nothing].
    intros [res | e] tr H; [| contradiction]. cbn. split; [reflexivity | exact H].
  - split; [reflexivity |]. cbn. discriminate.
Qed.

Lemma tally_keeps_zero results broker syncResult :
  TradingService.totalImported results = VNum 0 ->
  counts_nothing syncResult ->
  TradingService.totalImported (TradingService.tally rt results broker syncResult)
  = VNum 0.
Proof.
  intros Hz Hc. unfold TradingService.tally.
  destruct (truthy (get syncResult "success")) eqn:Hs; cbn.
  - unfold js_or. rewrite (Hc eq_refl), Hz. reflexivity.
  - exact Hz.
Qed.

Lemma sync_one_keeps_zero results broker :
  TradingService.totalImported results = VNum 0 ->
  wp upstox_imports_nothing (TradingService.sync_one rt results broker)
    (fun c _ =>
       exists results',
         c = Returned results'
         /\ TradingService.totalImported results' = VNum 0).
Proof.
  intros Hz. unfold TradingService.sync_one.
  apply wp_try_catch. apply wp_bind.
  eapply wp_mono; [| apply dispatch_counts_nothing].
  intros [[results' syncResult] | e] tr H; cbn.
  - destruct H as [Ht Hc]. eexists. split; [reflexivity |].
    apply tally_keeps_zero; [congruence | exact Hc].
  - eexists. split; [reflexivity | exact Hz].
Qed.

Lemma sync_each_keeps_zero brokers results :
  TradingService.totalImported results = VNum 0 ->
  wp upstox_imports_nothing (TradingService.sync_each rt brokers results)
    (fun c _ =>
       exists results',
         c = Returned results'
         /\ TradingService.totalImported results' = VNum 0).
Proof.
  revert results.
  induction brokers as [| broker rest IH]; intros results Hz; cbn [TradingService.sync_each].
  - cbn. eauto.
  - apply wp_bind. eapply wp_mono; [| apply sync_one_keeps_zero; exact Hz].
    intros c tr (results' & -> & Hz'). cbn.
    eapply wp_mono; [| apply IH; exact Hz']. auto.
Qed.

End SyncInvariant.

Lemma syncFromBrokers_outcomes (rt : Runtime) :
  wp upstox_imports_nothing (TradingService.syncFromBrokers rt)
    (fun c _ =>
       c = Returned (result3 false VNull (VStr "Failed to get brokers"))
       \/ c = Returned (result3 false VNull (VStr "Failed to sync broker data"))
       \/ exists results,
            c = Returned (TradingService.sync_report rt results)
            /\ TradingService.totalImported results = VNum 0).
Proof.
  unfold TradingService.syncFromBrokers.
  apply wp_try_catch. apply wp_bind. apply wp_any.
  intros [brokersResult | e] tr; cbn [wp]; [| auto].
  destruct (negb (truthy (get brokersResult "success"))); cbn [wp]; [auto |].
  wp_go; auto.
  eapply wp_mono; [| apply sync_each_keeps_zero; reflexivity].
  intros c tr' (results & -> & Hz). cbv beta iota.
  wp_go; eauto.
Qed.

(** What [syncFromBrokers] returns and requests, by what [getBrokers]
    reports and by the outcome of the timestamp update. *)






Example syncFromBrokers_one_zerodha_broker :
  fst (run (TradingService.syncFromBrokers Sample.rt)
         (broker_backend "Zerodha") 0)
  = Returned
      (result3 true
         (VObj [("totalImported", VNum 0);
                ("brokerResults",
                 VObj [("upstox", result3 false VNull VNull);
                       ("zerodha", TradingService.imported_nothing);
                       ("interactive", result3 false VNull VNull);
                       ("alpaca", result3 false VNull VNull);
                       ("totalImported", VNum 0);
                       ("errors", VArr [])])])
         VNull).
Proof. vm_compute. reflexivity. Qed.

Example syncFromBrokers_unsupported_broker :
  fst (run (TradingService.syncFromBrokers Sample.rt)
         (broker_backend "Robinhood") 0)
  = Returned
      (result3 false
         (VObj [("totalImported", VNum 0);
                ("brokerResults",
                 VObj [("upstox", result3 false VNull VNull);
                       ("zerodha", result3 false VNull VNull);
                       ("interactive", result3 false VNull VNull);
                       ("alpaca", result3 false VNull VNull);
                       ("totalImported", VNum 0);
                       ("errors", VArr [VStr "Robinhood: Unsupported broker"])])])
         (VStr "Robinhood: Unsupported broker")).
Proof. vm_compute. reflexivity. Qed.


(** ** C7: no retry *)

Create HintDb services.

#[global] Hint Unfold
  TradingService.getTradingAccounts TradingService.getTrades
  TradingService.createTrade TradingService.updateTrade
  TradingService.closeTrade TradingService.deleteTrade
  TradingService.getPortfolioSummary TradingService.getAnalyticsData
  TradingService.getBrokers TradingService.getStrategies
  TradingService.createTradingAccountFromBroker
  TradingService.syncZerodhaData TradingService.syncInteractiveBrokersData
  TradingService.syncAlpacaData
  BrokerCredentialService.storeBrokerCredentials
  BrokerCredentialService.getBrokerCredentials
  BrokerCredentialService.updateBrokerCredentials
  BrokerCredentialService.testBrokerConnection
  BrokerCredentialService.testZerodhaConnection
  BrokerCredentialService.testUpstoxConnection
  BrokerCredentialService.testInteractiveBrokersConnection
  BrokerCredentialService.testMT5Connection
  BrokerCredentialService.testAlpacaConnection
  BrokerCredentialService.updateBrokerStatus
  BrokerCredentialService.deleteBrokerCredentials
  AuthService.signUp AuthService.signIn AuthService.signOut
  AuthService.getCurrentSession AuthService.getCurrentUserProfile
  AuthService.updateProfile AuthService.resetPassword
  AuthService.updatePassword AuthService.signInWithProvider
  AuthService.connection_catch : services.

Ltac wp_all :=
  repeat (first [wp_step | progress autounfold with services]; cbv beta iota).

Ltac distinct_requests :=
  cbn [app];
  repeat match goal with
  | |- NoDup [] => constructor
  | |- NoDup (_ :: _) => constructor
  | |- ~ In _ _ => cbn [In]; intuition discriminate
  end.


Section SyncLoop.

Context (rt : Runtime).

Lemma dispatch_single_flight results broker :
  wp any_outcome (TradingService.dispatch rt results broker)
    (fun c tr =>
       NoDup tr /\
       match c with
       | Returned (results', _) =>
           TradingService.totalImported results'
           = TradingService.totalImported results
           /\ TradingService.errors results' = TradingService.errors results
       | Thrown _ => True
       end).
Proof.
  unfold TradingService.dispatch.
  wp_all; (split; [distinct_requests | try exact I; try (split; reflexivity)]).
Qed.

Lemma sync_one_run results broker (o : oracle) (n : nat) :
  run (TradingService.sync_one rt results broker) o n =
  (Returned
     match fst (run (TradingService.dispatch rt results broker) o n) with
     | Returned (results', syncResult) =>
         TradingService.tally rt results' broker syncResult
     | Thrown error =>
         TradingService.push_error results
           (to_string rt (get broker "name") ++ ": "
            ++ to_string rt (get error "message"))
     end,
   snd (run (TradingService.dispatch rt results broker) o n)).
Proof.
  unfold TradingService.sync_one. rewrite run_try_catch, run_bind.
  destruct (run (TradingService.dispatch rt results broker) o n)
    as [[[results' syncResult] | e] tr]; cbn; rewrite app_nil_r; reflexivity.
Qed.


Lemma sync_each_trace brokers results (o : oracle) (n : nat) :
  snd (run (TradingService.sync_each rt brokers results) o n)
  = List.concat (sync_traces rt brokers results o n)
  /\ List.length (sync_traces rt brokers results o n) = List.length brokers
  /\ Forall (@NoDup request) (sync_traces rt brokers results o n).
Proof.
  assert (Ho : answers any_outcome o) by (intros k r; exact I).
  revert results n.
  induction brokers as [| broker rest IH]; intros results n;
    cbn [TradingService.sync_each sync_traces].
  - repeat split. constructor.
  - rewrite run_bind.
    pose proof (wp_run _ _ _ o n Ho (dispatch_single_flight results broker))
      as [Hnd _].
    rewrite sync_one_run in *. cbn [fst snd].
    destruct (IH
      match fst (run (TradingService.dispatch rt results broker) o n) with
      | Returned (results', syncResult) =>
          TradingService.tally rt results' broker syncResult
      | Thrown error =>
          TradingService.push_error results
            (to_string rt (get broker "name") ++ ": "
             ++ to_string rt (get error "message"))
      end
      (n + steps (TradingService.sync_one rt results broker) o n))
      as (Htr & Hlen & Hall).
    destruct (run (TradingService.sync_each rt rest _) o _) as [c tr'].
    cbn [snd List.concat List.length] in *.
    rewrite Htr, Hlen. repeat split. constructor; assumption.
Qed.

End SyncLoop.





Section AddBroker.

Context (rt : Runtime).






End AddBroker.

Section StatusLoop.

Context (rt : Runtime).



End StatusLoop.

(** The traces of the operations built from operations. *)








Example unsupported_broker_is_only_recorded :
  run (TradingService.sync_one Sample.rt TradingService.initial_results
         (sample_broker "Robinhood")) (broker_backend "Robinhood") 0
  = (Returned
       (TradingService.push_error TradingService.initial_results
          "Robinhood: Unsupported broker"),
     []).
Proof. vm_compute. reflexivity. Qed.


(** ** C2: the credential cipher round trip *)

(** C2.  For a credential object [d] that is JSON-serializable, and a
    cipher that is reversible under the service's [ENCRYPTION_KEY],
    [encrypt d] returns a ciphertext (it does not throw) and [decrypt] of
    that ciphertext returns [d].  Both calls read the same key. *)
Theorem decrypt_inverts_encrypt
  (rt : Runtime) (d : value) (text ciphertext : string) (o : oracle) (n : nat) :
  json_round_trips rt d text ->
  cipher_round_trips rt (BrokerCredentialService.ENCRYPTION_KEY rt)
    (local_answer o n QSalt) text ciphertext ->
  run (BrokerCredentialService.encrypt rt d) o n
  = (Returned (VStr ciphertext), [])
  /\ forall o' m,
       run (BrokerCredentialService.decrypt rt (VStr ciphertext)) o' m
       = (Returned d, []).
Proof.
  intros [Hs Hp] [He Hd].
  unfold BrokerCredentialService.encrypt, BrokerCredentialService.decrypt.
  split.
  - cbn [try_catch run]. rewrite Hs, He. reflexivity.
  - intros o' m. rewrite Hd, Hp. reflexivity.
Qed.

Example sample_credentials_ciphertext :
  run (BrokerCredentialService.encrypt Sample.rt sample_credentials)
    (broker_backend "Zerodha") 0
  = (Returned sample_ciphertext, []).
Proof. vm_compute. reflexivity. Qed.

Example sample_credentials_decrypted :
  run (BrokerCredentialService.decrypt Sample.rt sample_ciphertext)
    (broker_backend "Zerodha") 0
  = (Returned sample_credentials, []).
Proof. vm_compute. reflexivity. Qed.

(** Under another key the stand-in cipher does not give the text back. *)
Example other_key_does_not_decrypt :
  Sample.decipher sample_ciphertext (VStr "another-key")
  <> match Sample.stringify sample_credentials with
     | VStr text => Some text
     | _ => None
     end.
Proof. vm_compute. discriminate. Qed.

(** The sample credentials under the sample runtime. *)
Lemma decrypt_inverts_encrypt_witness :
  exists text ciphertext,
    json_round_trips Sample.rt sample_credentials text
    /\ cipher_round_trips Sample.rt
         (BrokerCredentialService.ENCRYPTION_KEY Sample.rt)
         (local_answer (broker_backend "Zerodha") 0 QSalt) text ciphertext
    /\ run (BrokerCredentialService.encrypt Sample.rt sample_credentials)
         (broker_backend "Zerodha") 0
       = (Returned (VStr ciphertext), [])
    /\ forall o' m,
         run (BrokerCredentialService.decrypt Sample.rt (VStr ciphertext)) o' m
         = (Returned sample_credentials, []).
Proof.
  eexists _, _.
  assert (Hj : json_round_trips Sample.rt sample_credentials
                 (Sample.print sample_credentials))
    by (split; vm_compute; reflexivity).
  assert (Hc : cipher_round_trips Sample.rt
                 (BrokerCredentialService.ENCRYPTION_KEY Sample.rt)
                 (local_answer (broker_backend "Zerodha") 0 QSalt)
                 (Sample.print sample_credentials)
                 (match sample_ciphertext with VStr c => c | _ => "" end))
    by (split; vm_compute; reflexivity).
  split; [exact Hj |]. split; [exact Hc |].
  exact (decrypt_inverts_encrypt Sample.rt sample_credentials _ _
           (broker_backend "Zerodha") 0 Hj Hc).
Defined.

(** What [getBrokerCredentials] returns for a stored row: the row, with the
    decrypted credentials next to it. *)
Lemma getBrokerCredentials_decrypts
  (rt : Runtime) (brokerId row d : value) (text ciphertext : string)
  (o : oracle) (n : nat) (user : value) :
  json_round_trips rt d text ->
  AES_decrypt_utf8 rt (VStr ciphertext) (BrokerCredentialService.ENCRYPTION_KEY rt)
  = Some text ->
  succeeds_with (answer o n auth_getUser) user ->
  truthy (get user "user") = true ->
  succeeds_with
    (answer o (S n)
       (RQuery "brokers"
          [OpSelect (Some "*"); OpEq "id" brokerId;
           OpEq "user_profile_id" (get (get user "user") "id"); OpSingle]))
    row ->
  get row "api_key" = VStr ciphertext ->
  ciphertext <> "" ->
  fst (run (BrokerCredentialService.getBrokerCredentials rt brokerId) o n)
  = Returned
      (result3 true (VObj (obj_set (spread row) "credentials" d)) VNull).
Proof.
  intros [Hs Hp] Hd (resp1 & H1 & Hn1 & He1 & Hd1) Hu
    (resp2 & H2 & Hn2 & He2 & Hd2) Hk Hne.
  unfold BrokerCredentialService.getBrokerCredentials,
    BrokerCredentialService.decrypt, await_destructured, await, destructurable,
    auth_getUser in *.
  cbn. rewrite H1. cbn. rewrite Hn1. cbn. rewrite Hd1, Hu. cbn.
  rewrite H2. cbn. rewrite Hn2. cbn. rewrite He2. cbn.
  rewrite Hd2, Hk. cbn.
  destruct (String.eqb ciphertext "") eqn:Heq.
  - apply String.eqb_eq in Heq. contradiction.
  - cbn. rewrite Hd, Hp. reflexivity.
Qed.

(** Stored through [storeBrokerCredentials], the sample credentials reach
    the backend encrypted; read back through [getBrokerCredentials], they
    come out as they went in. *)
Example stored_credentials_are_encrypted :
  trace_of
    (BrokerCredentialService.storeBrokerCredentials Sample.rt
       (VObj [("name", VStr "Zerodha"); ("apiKey", VStr "kite-key");
              ("apiSecret", VStr "kite-secret")]))
    (broker_backend "Zerodha")
  = [auth_getUser;
     RQuery "brokers"
       [OpInsert (VObj [("name", VStr "Zerodha");
                        ("api_key", sample_ciphertext);
                        ("api_secret", VNull);
                        ("account_id", VNull);
                        ("status", VStr "inactive");
                        ("user_profile_id", VStr "user-1")]);
        OpSelect None; OpSingle]].
Proof. vm_compute. reflexivity. Qed.

Example stored_credentials_come_back :
  match result_of
          (BrokerCredentialService.getBrokerCredentials Sample.rt (VStr "broker-1"))
          (broker_backend "Zerodha") with
  | Returned res => get (get res "data") "credentials"
  | Thrown _ => VUndef
  end = sample_credentials.
Proof. vm_compute. reflexivity. Qed.

(** ** Further checks *)

(** With an Upstox import that reports records, [syncFromBrokers] reports
    success together with the message of the broker that failed. *)
Example syncFromBrokers_partial_success :
  fst (run (TradingService.syncFromBrokers Sample.rt) upstox_backend 0)
  = Returned
      (result3 true
         (VObj [("totalImported", VNum 5);
                ("brokerResults",
                 VObj [("upstox",
                        result3 true (VObj [("importedCount", VNum 5)]) VNull);
                       ("zerodha", result3 false VNull VNull);
                       ("interactive", result3 false VNull VNull);
                       ("alpaca", result3 false VNull VNull);
                       ("totalImported", VNum 5);
                       ("errors", VArr [VStr "Robinhood: Unsupported broker"])])])
         (VStr "Robinhood: Unsupported broker")).
Proof. vm_compute. reflexivity. Qed.

(** The [catch] block of [signIn] calls [includes] on the message of what
    was thrown; a thrown value whose message is a number makes the block
    itself throw.  Rejections that are [Error] objects never do. *)
Example signIn_catch_needs_an_error_object :
  fst (run (AuthService.signIn (VStr "a@b.c") (VStr "secret"))
         (always (Rejected (VObj [("message", VNum 42)]))) 0)
  = Thrown (TypeError "includes is not a function").
Proof. reflexivity. Qed.

Lemma when_set_spec (v : value) (op op' : qop) :
  In op' (when_set v op) <-> truthy v = true /\ op' = op.
Proof.
  unfold when_set. destruct (truthy v); cbn; split.
  - intros [<- | []]. split; reflexivity.
  - intros [_ ->]. left. reflexivity.
  - intros [].
  - intros [H _]. discriminate.
Qed.

(** The results [deleteTrade] can return, and none has [data]. *)
Lemma deleteTrade_never_returns_data (tradeId : value) (o : oracle) (n : nat) :
  match fst (run (TradingService.deleteTrade tradeId) o n) with
  | Returned res => has_field res "data" = false
  | Thrown _ => False
  end.
Proof.
  assert (Ho : answers any_outcome o) by (intros k r; exact I).
  apply (wp_run any_outcome (TradingService.deleteTrade tradeId)
           (fun c _ => match c with
                       | Returned res => has_field res "data" = false
                       | Thrown _ => False
                       end) o n Ho).
  unfold TradingService.deleteTrade. wp_go; reflexivity.
Qed.

(** * Further properties of the services *)

(** ** Traces *)

Lemma trace_of_call {A : Type} (r : request) (k : outcome -> prog A)
  (o : oracle) (n : nat) :
  snd (run (Call r k) o n) = r :: snd (run (k (answer o n r)) o (S n)).
Proof. cbn [run]. destruct (run (k (answer o n r)) o (S n)). reflexivity. Qed.

Lemma any_outcome_answers (o : oracle) : answers any_outcome o.
Proof. intros k r. exact I. Qed.

Ltac in_trace :=
  cbn [In app];
  let Hin := fresh "Hin" in
  intros Hin; repeat (destruct Hin as [<- | Hin]); try contradiction.

Ltac trace_done := unfold all_requests; intros ?r; in_trace.

(** The first request is [auth.getUser()]; what follows is read off the
    continuation, which has the answer to it in hand. *)
Ltac after_getUser o n :=
  unfold await_destructured at 1; unfold await at 1; unfold auth_getUser;
  cbn [bind try_catch]; rewrite trace_of_call;
  (intros [<- | ?Hin]; [left; reflexivity | right]);
  match goal with
  | Hin : In ?r _ |- _ => revert r Hin
  end;
  refine (wp_run any_outcome _ (all_requests _) o (S n)
            (any_outcome_answers o) _);
  destruct (answer o n (RAuth "getUser" [])) as [?resp | ?e].

Lemma run_returns (rt : Runtime) (op : operation) (o : oracle) (n : nat) :
  inspects_rejection op = false ->
  exists res,
    run (perform rt op) o n = (Returned res, snd (run (perform rt op) o n)).
Proof.
  intros Hop. destruct (operations_never_throw rt op o n Hop) as [res H].
  exists res. destruct (run (perform rt op) o n) as [c tr].
  cbn [fst snd] in *. subst c. reflexivity.
Qed.

(** ** Every operation settles with a result *)

Lemma connection_catch_returns (P : request -> outcome -> Prop) (e : value) :
  error_like e = true -> wp P (AuthService.connection_catch e) returned.
Proof.
  unfold error_like, AuthService.connection_catch, call_includes, returned.
  destruct (get e "message") as [| | b | x | m | items | fields];
    try discriminate; intros _; cbn.
  - eexists. reflexivity.
  - destruct (includes "Failed to fetch" m); cbn; [eexists; reflexivity |].
    destruct (includes "AuthRetryableFetchError" m); eexists; reflexivity.
Qed.

Lemma sign_methods_return (rt : Runtime) (op : operation) :
  inspects_rejection op = true ->
  wp rejections_are_errors (perform rt op) returned.
Proof.
  destruct op; try discriminate; intros _; cbn [perform].
  - unfold AuthService.signUp. wp_go;
      try (apply connection_catch_returns; first [assumption | reflexivity]);
      eexists; reflexivity.
  - unfold AuthService.signIn. wp_go;
      try (apply connection_catch_returns; first [assumption | reflexivity]);
      eexists; reflexivity.
Qed.

(** X1.  Every asynchronous operation of the three services settles with a
    result object and never rejects, whatever the backend, [fetch], the Upstox
    service, [JSON] and the cipher do: each method body sits in a [try] whose
    [catch] block returns an object literal. The [catch] blocks of [signUp]
    and [signIn] call [includes] on the message of what was thrown, so for
    these two the promises they await must reject with an [Error] (a string
    message, or none). *)
Theorem every_operation_returns
  (rt : Runtime) (op : operation) (o : oracle) (n : nat) :
  (inspects_rejection op = true -> answers rejections_are_errors o) ->
  exists res, fst (run (perform rt op) o n) = Returned res.
Proof.
  intros H. destruct (inspects_rejection op) eqn:Hop.
  - exact (wp_run _ _ _ o n (H eq_refl) (sign_methods_return rt op Hop)).
  - apply operations_never_throw. exact Hop.
Qed.

Lemma offline_rejections_are_errors : answers rejections_are_errors offline_backend.
Proof. intros k r. reflexivity. Qed.

(** [signIn] with the network down. *)
Lemma every_operation_returns_witness :
  (inspects_rejection (A_signIn (VStr "ana@example.com") (VStr "secret")) = true ->
   answers rejections_are_errors offline_backend)
  /\ exists res,
       fst (run (perform Sample.rt
                   (A_signIn (VStr "ana@example.com") (VStr "secret")))
              offline_backend 0) = Returned res.
Proof.
  split.
  - intros _. apply offline_rejections_are_errors.
  - apply (every_operation_returns Sample.rt
             (A_signIn (VStr "ana@example.com") (VStr "secret"))
             offline_backend 0).
    intros _. apply offline_rejections_are_errors.
Defined.

(** ** Error messages of [AuthService] *)

(** X2.  When the promise [signIn] or [signUp] awaits rejects with an error
    that has a string message, the caller never sees that message: a message
    containing [Failed to fetch] or [AuthRetryableFetchError] is reported as
    the paused-project notice, any other as [Something went wrong. Please try
    again.], and no second request is made. *)
Theorem sign_in_rejections_are_reworded
  (email password userData : value) (o : oracle) (n : nat)
  (e : value) (message : string) :
  get e "message" = VStr message ->
  let reworded :=
    result2 false
      (VStr (if looks_like_network_failure message
             then AuthService.paused_project_message
             else "Something went wrong. Please try again.")) in
  (answer o n (signIn_request email password) = Rejected e ->
   run (AuthService.signIn email password) o n
   = (Returned reworded, [signIn_request email password]))
  /\ (answer o n (signUp_request email password userData) = Rejected e ->
      run (AuthService.signUp email password userData) o n
      = (Returned reworded, [signUp_request email password userData])).
Proof.
  intros Hm. cbv zeta.
  unfold AuthService.signIn, AuthService.signUp, signIn_request, signUp_request,
    await_destructured, await, AuthService.connection_catch,
    looks_like_network_failure, AuthService.something_went_wrong.
  split; intros Ha; cbn [run bind try_catch]; rewrite Ha;
    cbn [run bind try_catch]; rewrite Hm; cbn [call_includes bind truthy];
    destruct (includes "Failed to fetch" message); cbn;
    try reflexivity;
    destruct (includes "AuthRetryableFetchError" message); reflexivity.
Qed.

(** With the network down, [signIn] reports the paused-project notice. *)
Lemma sign_in_rejections_are_reworded_witness :
  get (TypeError "Failed to fetch") "message" = VStr "Failed to fetch"
  /\ run (AuthService.signIn (VStr "ana@example.com") (VStr "secret"))
       offline_backend 0
     = (Returned (result2 false (VStr AuthService.paused_project_message)),
        [signIn_request (VStr "ana@example.com") (VStr "secret")]).
Proof.
  split; [reflexivity |].
  exact (proj1 (sign_in_rejections_are_reworded
                  (VStr "ana@example.com") (VStr "secret") VUndef
                  offline_backend 0 (TypeError "Failed to fetch")
                  "Failed to fetch" eq_refl) eq_refl).
Defined.

Lemma js_or_default_truthy (a b : value) :
  truthy b = true -> truthy (js_or a b) = true.
Proof. intros Hb. unfold js_or. destruct (truthy a) eqn:Ha; assumption. Qed.

Lemma connection_catch_tells (P : request -> outcome -> Prop) (e : value) :
  wp P (AuthService.connection_catch e)
    (fun c _ => match c with
                | Returned res => tells_outcome res
                | Thrown _ => True
                end).
Proof.
  unfold AuthService.connection_catch, AuthService.something_went_wrong.
  wp_go; try exact I; right; split; reflexivity.
Qed.

Lemma default_message_tells (rt : Runtime) (op : operation) :
  has_default_message op = true ->
  wp any_outcome (perform rt op)
    (fun c _ => match c with
                | Returned res => tells_outcome res
                | Thrown _ => True
                end).
Proof.
  destruct op; try discriminate; intros _; cbn [perform];
    autounfold with services; unfold AuthService.something_went_wrong;
    repeat (first [ apply connection_catch_tells | wp_step ]; cbv beta iota);
    try exact I;
    try (left; split; reflexivity);
    right; (split; [reflexivity |]);
    try reflexivity; apply js_or_default_truthy; reflexivity.
Qed.

(** X3.  The seven operations of [AuthService] that report the backend's error
    as [error?.message || '<default>'] say what happened even when the
    backend's error carries no message: the result has [error: null] when
    [success] is true and a truthy [error] when [success] is false. *)
Theorem auth_failures_carry_a_message
  (rt : Runtime) (op : operation) (o : oracle) (n : nat) :
  has_default_message op = true ->
  (inspects_rejection op = true -> answers rejections_are_errors o) ->
  exists res,
    fst (run (perform rt op) o n) = Returned res /\ tells_outcome res.
Proof.
  intros Hop Hrej.
  assert (exists res, fst (run (perform rt op) o n) = Returned res)
    as [res Hres].
  { destruct (inspects_rejection op) eqn:Hi.
    - exact (wp_run _ _ _ o n (Hrej eq_refl) (sign_methods_return rt op Hi)).
    - apply operations_never_throw. exact Hi. }
  exists res. split; [exact Hres |].
  pose proof (wp_run _ _ _ o n (any_outcome_answers o)
                (default_message_tells rt op Hop)) as H.
  cbv beta in H. rewrite Hres in H. exact H.
Qed.

(** An error object without a message: [updatePassword] falls back on its
    own. *)
Lemma auth_failures_carry_a_message_witness :
  has_default_message (A_updatePassword (VStr "hunter2")) = true
  /\ exists res,
       fst (run (perform Sample.rt (A_updatePassword (VStr "hunter2")))
              (always (Resolved (VObj [("error", VObj [("status", VNum 422)])])))
              0) = Returned res
       /\ tells_outcome res.
Proof.
  split; [reflexivity |].
  apply (auth_failures_carry_a_message Sample.rt
           (A_updatePassword (VStr "hunter2"))
           (always (Resolved (VObj [("error", VObj [("status", VNum 422)])])))
           0).
  - reflexivity.
  - discriminate.
Defined.

Example updatePassword_default_message :
  result_of (AuthService.updatePassword (VStr "hunter2"))
    (always (Resolved (VObj [("error", VObj [("status", VNum 422)])])))
  = Returned (result2 false (VStr "Password update failed")).
Proof. reflexivity. Qed.

(** [getTrades] has no such fallback. *)
Example getTrades_failure_without_message :
  result_of (TradingService.getTrades Sample.rt (VObj []))
    (always (Resolved (VObj [("data", VNull);
                             ("error", VObj [("code", VStr "42501")])])))
  = Returned (result3 false (VArr []) VUndef).
Proof. vm_compute. reflexivity. Qed.

(** ** Nothing is stored without a signed-in user *)

Ltac guard_cases o n :=
  unfold await_destructured, await, destructurable, auth_getUser,
    reported_user, getUser_resolved in *;
  cbn [run steps bind try_catch];
  destruct (answer o n (RAuth "getUser" [])) as [resp | e];
  cbn [run steps bind try_catch];
  [ destruct (nullish resp) eqn:Hnull; cbn [run steps bind try_catch negb];
    [ | match goal with
        | H : truthy _ = false |- _ => rewrite H
        end; cbn [run steps bind try_catch negb] ]
  | ].

Ltac guard_done o n :=
  guard_cases o n; eexists; repeat split; intros; discriminate.

Lemma getBrokerCredentials_needs_a_user
  (rt : Runtime) (brokerId : value) (o : oracle) (n : nat) :
  truthy (reported_user (answer o n auth_getUser)) = false ->
  exists res,
    run (BrokerCredentialService.getBrokerCredentials rt brokerId) o n
    = (Returned res, [auth_getUser])
    /\ steps (BrokerCredentialService.getBrokerCredentials rt brokerId) o n = 1
    /\ truthy (get res "success") = false
    /\ get res "success" = VBool false
    /\ (getUser_resolved (answer o n auth_getUser) = true ->
        get res "error" = VStr "User not authenticated").
Proof.
  intros H. unfold BrokerCredentialService.getBrokerCredentials.
  guard_done o n.
Qed.

Lemma storeBrokerCredentials_needs_a_user
  (rt : Runtime) (brokerData : value) (o : oracle) (n : nat) :
  truthy (reported_user (answer o n auth_getUser)) = false ->
  exists res,
    run (BrokerCredentialService.storeBrokerCredentials rt brokerData) o n
    = (Returned res, [auth_getUser])
    /\ truthy (get res "success") = false
    /\ get res "success" = VBool false
    /\ (getUser_resolved (answer o n auth_getUser) = true ->
        get res "error" = VStr "User not authenticated").
Proof.
  intros H. unfold BrokerCredentialService.storeBrokerCredentials.
  guard_done o n.
Qed.

Ltac after_credentials rt brokerId o n H :=
  destruct (getBrokerCredentials_needs_a_user rt brokerId o n H)
    as (res & Hrun & Hsteps & Hfalsy & Hsuccess & Hmessage);
  rewrite run_try_catch, run_bind, Hrun; cbn [fst snd]; rewrite Hfalsy;
  cbn [negb run]; rewrite app_nil_r;
  exists res; repeat split; assumption.

(** X4.  When [auth.getUser()] reports no user (or fails), the operations that
    work on stored broker credentials stop there: the only request issued is
    [auth.getUser()], no table is read or written and nothing is fetched, and
    the result has [success: false]. When [getUser] resolved, the error is
    [User not authenticated]. *)
Theorem broker_operations_need_a_user
  (rt : Runtime) (op : operation) (o : oracle) (n : nat) :
  asks_user_first op = true ->
  truthy (reported_user (answer o n auth_getUser)) = false ->
  exists res,
    run (perform rt op) o n = (Returned res, [auth_getUser])
    /\ get res "success" = VBool false
    /\ (getUser_resolved (answer o n auth_getUser) = true ->
        get res "error" = VStr "User not authenticated").
Proof.
  intros Hop H.
  destruct op; try discriminate Hop; cbn [perform].
  - unfold TradingService.addBroker.
    destruct (storeBrokerCredentials_needs_a_user rt brokerData o n H)
      as (res & Hrun & Hfalsy & Hsuccess & Hmessage).
    rewrite run_try_catch, run_bind, Hrun. cbn [fst snd]. rewrite Hfalsy.
    cbn [negb run]. rewrite app_nil_r.
    exists res. repeat split; assumption.
  - unfold TradingService.createTradingAccountFromBroker. guard_done o n.
  - unfold TradingService.syncZerodhaData. after_credentials rt brokerId o n H.
  - unfold TradingService.syncInteractiveBrokersData.
    after_credentials rt brokerId o n H.
  - unfold TradingService.syncAlpacaData. after_credentials rt brokerId o n H.
  - destruct (storeBrokerCredentials_needs_a_user rt brokerData o n H)
      as (res & Hrun & _ & Hsuccess & Hmessage).
    exists res. repeat split; assumption.
  - destruct (getBrokerCredentials_needs_a_user rt brokerId o n H)
      as (res & Hrun & _ & _ & Hsuccess & Hmessage).
    exists res. repeat split; assumption.
  - unfold BrokerCredentialService.updateBrokerCredentials. guard_done o n.
  - unfold BrokerCredentialService.testBrokerConnection.
    after_credentials rt brokerId o n H.
  - unfold BrokerCredentialService.updateBrokerStatus. guard_done o n.
  - unfold BrokerCredentialService.deleteBrokerCredentials. guard_done o n.
Qed.

(** Signed out, [addBroker] stores nothing. *)
Lemma broker_operations_need_a_user_witness :
  asks_user_first
    (T_addBroker (VObj [("name", VStr "Zerodha"); ("apiKey", VStr "kite-key")]))
  = true
  /\ truthy (reported_user (answer signed_out_backend 0 auth_getUser)) = false
  /\ exists res,
       run (perform Sample.rt
              (T_addBroker (VObj [("name", VStr "Zerodha");
                                  ("apiKey", VStr "kite-key")])))
         signed_out_backend 0
       = (Returned res, [auth_getUser])
       /\ get res "success" = VBool false
       /\ (getUser_resolved (answer signed_out_backend 0 auth_getUser) = true ->
           get res "error" = VStr "User not authenticated").
Proof.
  split; [reflexivity |]. split; [reflexivity |].
  apply (broker_operations_need_a_user Sample.rt
           (T_addBroker (VObj [("name", VStr "Zerodha");
                               ("apiKey", VStr "kite-key")]))
           signed_out_backend 0); reflexivity.
Defined.

(** ** Broker rows are reached through the user's id *)

(** X5.  Every query that [getBrokerCredentials], [updateBrokerCredentials],
    [updateBrokerStatus] and [deleteBrokerCredentials] issue is on the
    [brokers] table and is restricted both to the broker id given and to the
    id of the user [auth.getUser()] reported: a broker row of another user is
    never selected, updated or deleted. *)
Theorem broker_queries_are_scoped
  (rt : Runtime) (op : operation) (brokerId : value) (o : oracle) (n : nat) :
  broker_row op = Some brokerId ->
  Forall
    (fun r =>
       r = auth_getUser
       \/ exists ops,
            r = RQuery "brokers" ops
            /\ In (OpEq "id" brokerId) ops
            /\ In (OpEq "user_profile_id"
                     (get (reported_user (answer o n auth_getUser)) "id")) ops)
    (snd (run (perform rt op) o n)).
Proof.
  intros Hop. apply Forall_forall. intros r.
  destruct op; try discriminate Hop; injection Hop as ->; cbn [perform];
    autounfold with services; after_getUser o n;
    cbn [reported_user]; wp_go; trace_done;
    eexists; (split; [reflexivity |]); cbn [In]; auto 10.
Qed.

(** Deleting a broker as user [user-1]. *)
Lemma broker_queries_are_scoped_witness :
  broker_row (B_deleteBrokerCredentials (VStr "broker-1"))
  = Some (VStr "broker-1")
  /\ snd (run (perform Sample.rt (B_deleteBrokerCredentials (VStr "broker-1")))
            (single_broker_backend "Zerodha") 0)
     = [auth_getUser;
        RQuery "brokers" [OpDelete; OpEq "id" (VStr "broker-1");
                          OpEq "user_profile_id" (VStr "user-1")]]
  /\ Forall
       (fun r =>
          r = auth_getUser
          \/ exists ops,
               r = RQuery "brokers" ops
               /\ In (OpEq "id" (VStr "broker-1")) ops
               /\ In (OpEq "user_profile_id"
                        (get (reported_user
                                (answer (single_broker_backend "Zerodha") 0
                                   auth_getUser)) "id")) ops)
       (snd (run (perform Sample.rt
                    (B_deleteBrokerCredentials (VStr "broker-1")))
               (single_broker_backend "Zerodha") 0)).
Proof.
  split; [reflexivity |]. split; [reflexivity |].
  apply (broker_queries_are_scoped Sample.rt
           (B_deleteBrokerCredentials (VStr "broker-1")) (VStr "broker-1")
           (single_broker_backend "Zerodha") 0).
  reflexivity.
Defined.

(** ** Credentials reach the database encrypted *)

Lemma wp_encrypt_result (P : request -> outcome -> Prop) (rt : Runtime)
  (data : value) (Q : completion value -> list request -> Prop) :
  (forall salt ciphertext,
     AES_encrypt rt (JSON_stringify rt data)
       (BrokerCredentialService.ENCRYPTION_KEY rt) salt = Some ciphertext ->
     Q (Returned (VStr ciphertext)) []) ->
  (forall e, Q (Thrown e) []) ->
  wp P (BrokerCredentialService.encrypt rt data) Q.
Proof.
  intros HR HT. unfold BrokerCredentialService.encrypt. cbn [wp try_catch].
  intros salt.
  destruct (AES_encrypt rt _ _ salt) as [ciphertext |] eqn:Hc; cbn [wp try_catch].
  - apply (HR salt). exact Hc.
  - apply HT.
Qed.

(** X6.  Whatever [brokerData] holds and whatever the backend answers, the
    only request [storeBrokerCredentials] makes besides [auth.getUser()] is
    one insert into [brokers] whose [api_key] is the ciphertext of the six
    credential fields (each [null] when absent), whose [api_secret] is [null],
    whose [status] is [inactive] and whose [user_profile_id] is the id of the
    signed-in user. No credential is sent in the clear, and when encryption
    fails nothing is inserted. *)
Theorem credentials_are_stored_encrypted
  (rt : Runtime) (brokerData : value) (o : oracle) (n : nat) :
  Forall
    (fun r =>
       r = auth_getUser
       \/ exists ciphertext salt,
            AES_encrypt rt (JSON_stringify rt (credential_fields brokerData))
              (BrokerCredentialService.ENCRYPTION_KEY rt) salt
            = Some ciphertext
            /\ r = RQuery "brokers"
                     [OpInsert
                        (broker_row_of brokerData
                           (get (reported_user (answer o n auth_getUser)) "id")
                           ciphertext);
                      OpSelect None; OpSingle])
    (snd (run (BrokerCredentialService.storeBrokerCredentials rt brokerData) o n)).
Proof.
  apply Forall_forall. intros r.
  unfold BrokerCredentialService.storeBrokerCredentials.
  fold (credential_fields brokerData).
  after_getUser o n; cbn [reported_user];
    repeat (first [ apply wp_encrypt_result; [intros salt ciphertext Hc | intros]
                  | wp_step ]; cbv beta iota);
    trace_done.
  all: exists ciphertext, salt; split; [exact Hc | reflexivity].
Qed.

(** ** Connection tests that contact nobody *)

Lemma truthy_field_not_nullish (v : value) (k : string) :
  truthy (get v k) = true -> nullish v = false.
Proof. destruct v; cbn; intros H; try discriminate; reflexivity. Qed.

(** X7.  Once the stored credentials of a broker have been retrieved,
    [testBrokerConnection] decides by the broker's name in lower case. For
    [interactive brokers], [metatrader 5] and [mt5] it reports [{ success:
    true, data: { status: 'connected' }, error: null }] without contacting
    anything: no request follows the two that retrieved the credentials. For a
    name outside the eight it knows it reports [Unsupported broker type],
    again without a further request. *)
Theorem connection_tests_without_network
  (rt : Runtime) (brokerId : value) (o : oracle) (n : nat)
  (credentialsResult : value) (name : string) :
  fst (run (BrokerCredentialService.getBrokerCredentials rt brokerId) o n)
  = Returned credentialsResult ->
  truthy (get credentialsResult "success") = true ->
  get (get credentialsResult "data") "name" = VStr name ->
  let lowered := toLowerCase rt name in
  let credentials_trace :=
    snd (run (BrokerCredentialService.getBrokerCredentials rt brokerId) o n) in
  (In lowered ["interactive brokers"; "metatrader 5"; "mt5"] ->
   run (BrokerCredentialService.testBrokerConnection rt brokerId) o n
   = (Returned BrokerCredentialService.connected, credentials_trace))
  /\ (~ In lowered known_brokers ->
      run (BrokerCredentialService.testBrokerConnection rt brokerId) o n
      = (Returned (result2 false (VStr "Unsupported broker type")),
         credentials_trace)).
Proof.
  intros Hcr Hs Hname. cbv zeta.
  destruct (getBrokerCredentials_success rt brokerId o n _ Hcr Hs)
    as (Hsteps & Hdata & _).
  pose proof (truthy_field_not_nullish _ _ Hs) as Hobj.
  unfold BrokerCredentialService.testBrokerConnection.
  rewrite run_try_catch, run_bind.
  destruct (run (BrokerCredentialService.getBrokerCredentials rt brokerId) o n)
    as [c tr].
  cbn [fst snd] in *. subst c. rewrite Hs. cbn [negb].
  unfold destructurable. rewrite Hobj, Hdata, Hname.
  cbn [bind call_toLowerCase str_is].
  split.
  - intros [<- | [<- | [<- | []]]]; cbn; rewrite app_nil_r; reflexivity.
  - intros Hnot. unfold known_brokers in Hnot. cbn [In] in Hnot.
    repeat match goal with
    | |- context [String.eqb (toLowerCase rt name) ?k] =>
        replace (String.eqb (toLowerCase rt name) k) with false
          by (symmetry; apply String.eqb_neq; intros E; apply Hnot;
              rewrite E; auto 10)
    end.
    cbn. rewrite app_nil_r. reflexivity.
Qed.

(** A stored MetaTrader account tests as connected after the two requests
    that fetch its credentials. *)
Lemma connection_tests_without_network_witness :
  run (BrokerCredentialService.testBrokerConnection Sample.rt (VStr "broker-1"))
    (single_broker_backend "MT5") 0
  = (Returned BrokerCredentialService.connected,
     [auth_getUser;
      RQuery "brokers" [OpSelect (Some "*"); OpEq "id" (VStr "broker-1");
                        OpEq "user_profile_id" (VStr "user-1"); OpSingle]]).
Proof.
  refine (proj1 (connection_tests_without_network Sample.rt (VStr "broker-1")
                   (single_broker_backend "MT5") 0
                   (result3 true
                      (VObj (obj_set (spread (sample_broker "MT5"))
                               "credentials" sample_credentials))
                      VNull)
                   "MT5" _ _ _) _).
  - vm_compute. reflexivity.
  - reflexivity.
  - reflexivity.
  - right. right. left. reflexivity.
Defined.

(** ** [addBroker] *)

(** X8.  [addBroker] returns the result of [storeBrokerCredentials] as it is
    when that fails, and issues no further request. Once the credentials are
    stored, it reports [success: true] whatever the connection test and the
    later writes do: its [data] is the stored row with the test result
    attached as [connectionTest]. The requests are those of the store, then of
    the connection test, then of a status update to [active] followed by the
    creation of a trading account when the test succeeded, or of a status
    update to [error] alone when it did not. *)
Theorem addBroker_succeeds_once_stored
  (rt : Runtime) (brokerData : value) (o : oracle) (n : nat)
  (stored : value) :
  let store := BrokerCredentialService.storeBrokerCredentials rt brokerData in
  let id := get (get stored "data") "id" in
  let test := BrokerCredentialService.testBrokerConnection rt id in
  let n1 := n + steps store o n in
  let n2 := n1 + steps test o n1 in
  fst (run store o n) = Returned stored ->
  (truthy (get stored "success") = false ->
   run (TradingService.addBroker rt brokerData) o n
   = (Returned stored, snd (run store o n)))
  /\ (truthy (get stored "success") = true ->
      exists testResult,
        fst (run test o n1) = Returned testResult
        /\ fst (run (TradingService.addBroker rt brokerData) o n)
           = Returned
               (result3 true
                  (VObj (obj_set (spread (get stored "data"))
                           "connectionTest" testResult))
                  VNull)
        /\ snd (run (TradingService.addBroker rt brokerData) o n)
           = snd (run store o n) ++ snd (run test o n1)
             ++ if truthy (get testResult "success") then
                  let activate :=
                    BrokerCredentialService.updateBrokerStatus id (VStr "active") in
                  snd (run activate o n2)
                  ++ snd (run (TradingService.createTradingAccountFromBroker
                                 rt id brokerData) o (n2 + steps activate o n2))
                else
                  snd (run (BrokerCredentialService.updateBrokerStatus
                              id (VStr "error")) o n2)).
Proof.
  cbv zeta. intros Hstore.
  unfold TradingService.addBroker.
  rewrite run_try_catch, run_bind.
  destruct (run (BrokerCredentialService.storeBrokerCredentials rt brokerData) o n)
    as [c tr] eqn:Hrun.
  cbn [fst snd] in *. subst c.
  split; intros Hs; rewrite Hs; cbn [negb].
  - cbn [run]. rewrite app_nil_r. reflexivity.
  - set (id := get (get stored "data") "id").
    set (n1 := n + steps _ o n).
    destruct (run_returns rt (B_testBrokerConnection id) o n1 eq_refl)
      as [testResult Htest].
    cbn [perform] in Htest.
    exists testResult. rewrite !run_bind, Htest. cbn [fst snd].
    split; [reflexivity |].
    set (n2 := n1 + steps _ o n1).
    destruct (truthy (get testResult "success")) eqn:Hts.
    + destruct (run_returns rt (B_updateBrokerStatus id (VStr "active")) o n2
                  eq_refl) as [r1 H1].
      cbn [perform] in H1. rewrite !run_bind, H1. cbn [fst snd].
      set (n3 := n2 + steps _ o n2).
      destruct (run_returns rt (T_createTradingAccountFromBroker id brokerData)
                  o n3 eq_refl) as [r2 H2].
      cbn [perform] in H2. rewrite H2. cbn [fst snd run].
      rewrite !app_nil_r. split; reflexivity.
    + destruct (run_returns rt (B_updateBrokerStatus id (VStr "error")) o n2
                  eq_refl) as [r1 H1].
      cbn [perform] in H1. rewrite ?run_bind, H1. cbn [fst snd run].
      rewrite !app_nil_r. split; reflexivity.
Qed.

(** A Zerodha account whose connection test is refused is still reported
    as added. *)
Example addBroker_with_a_failed_test :
  fst (run (TradingService.addBroker Sample.rt
              (VObj [("name", VStr "Zerodha"); ("apiKey", VStr "kite-key")]))
         (single_broker_backend "Zerodha") 0)
  = Returned
      (result3 true
         (VObj (obj_set (spread (sample_broker "Zerodha")) "connectionTest"
                  (result2 false (VStr "Invalid Zerodha credentials"))))
         VNull).
Proof. vm_compute. reflexivity. Qed.

Lemma addBroker_succeeds_once_stored_witness :
  exists testResult,
    fst (run (TradingService.addBroker Sample.rt
                (VObj [("name", VStr "Zerodha"); ("apiKey", VStr "kite-key")]))
           (single_broker_backend "Zerodha") 0)
    = Returned
        (result3 true
           (VObj (obj_set (spread (sample_broker "Zerodha")) "connectionTest"
                    testResult))
           VNull)
    /\ get testResult "success" = VBool false.
Proof.
  destruct (proj2 (addBroker_succeeds_once_stored Sample.rt
                     (VObj [("name", VStr "Zerodha"); ("apiKey", VStr "kite-key")])
                     (single_broker_backend "Zerodha") 0
                     (result3 true (sample_broker "Zerodha") VNull)
                     eq_refl) eq_refl)
    as (testResult & Htest & Hres & _).
  exists testResult. split; [exact Hres |].
  vm_compute in Htest. injection Htest as <-. reflexivity.
Defined.

(** ** The sync timestamp *)


Example status_error_erases_last_sync :
  snd (run (BrokerCredentialService.updateBrokerStatus
              (VStr "broker-1") (VStr "error"))
         (single_broker_backend "Zerodha") 0)
  = [auth_getUser;
     RQuery "brokers"
       [OpUpdate (status_row (VStr "error") VNull "2025-01-01T00:00:00.000Z");
        OpEq "id" (VStr "broker-1"); OpEq "user_profile_id" (VStr "user-1");
        OpSelect None; OpSingle]].
Proof. reflexivity. Qed.

(** ** [syncFromBrokers]: which brokers are visited *)

Lemma getBrokers_run (o : oracle) (n : nat) (rows : list value) :
  succeeds_with (answer o n brokers_query) (VArr rows) ->
  run TradingService.getBrokers o n
  = (Returned (result3 true (VArr rows) VNull), [brokers_query])
  /\ steps TradingService.getBrokers o n = 1.
Proof.
  intros (resp & Ha & Hn & He & Hd).
  unfold TradingService.getBrokers, brokers_query, await_destructured, await,
    destructurable in *.
  cbn [run steps bind try_catch]. rewrite Ha. cbn [run steps bind try_catch].
  rewrite Hn. cbn [run steps bind try_catch]. rewrite He, Hd. split; reflexivity.
Qed.

(** X10.  When the list of brokers has been fetched, [syncFromBrokers] syncs
    the brokers whose [status] is the string [active], in the order of the
    list, and no other; then it issues one update that sets [last_sync_at] on
    every row whose status is [active]. That update is the last request in
    every case: it is issued when no broker is active, and when every sync
    failed or the broker is of a kind that is not supported. *)
Theorem syncFromBrokers_visits_active_brokers
  (rt : Runtime) (o : oracle) (n : nat) (rows : list value) :
  succeeds_with (answer o n brokers_query) (VArr rows) ->
  let active := filter is_active rows in
  let loop := TradingService.sync_each rt active TradingService.initial_results in
  snd (run (TradingService.syncFromBrokers rt) o n)
  = brokers_query
    :: List.concat
         (sync_traces rt active TradingService.initial_results o (S n))
    ++ [stamp_active_brokers
          (local_answer o (S n + steps loop o (S n)) QNow)].
Proof.
  intros Hrows. cbv zeta.
  destruct (getBrokers_run o n rows Hrows) as [Hrun Hsteps].
  unfold TradingService.syncFromBrokers.
  rewrite run_try_catch, run_bind, Hrun, Hsteps.
  cbn [truthy get assoc result3 String.eqb Ascii.eqb Bool.eqb negb
       call_filter iterate bind].
  fold is_active.
  rewrite run_bind.
  pose proof (wp_run _ _ _ o (n + 1) (any_outcome_answers o)
                (sync_each_returns rt any_outcome (filter is_active rows)
                   TradingService.initial_results)) as [results Hres].
  destruct (sync_each_trace rt (filter is_active rows)
              TradingService.initial_results o (n + 1)) as [Htr _].
  replace (n + 1) with (S n) in * by lia.
  destruct (run (TradingService.sync_each rt _ _) o (S n)) as [c tr].
  cbn [fst snd] in *. subst c tr.
  unfold now_iso, await, stamp_active_brokers. cbn [bind run].
  match goal with
  | |- context [match answer o ?k ?r with _ => _ end] =>
      destruct (answer o k r)
  end; cbn [run bind fst snd app]; rewrite ?app_nil_r; reflexivity.
Qed.

(** Of an active Interactive Brokers account and an inactive Alpaca one,
    only the first is synced. *)
Lemma syncFromBrokers_visits_active_brokers_witness :
  succeeds_with (answer two_brokers_backend 0 brokers_query)
    (VArr [sample_broker "Interactive Brokers";
           VObj [("id", VStr "broker-2"); ("name", VStr "Alpaca");
                 ("status", VStr "inactive")]])
  /\ snd (run (TradingService.syncFromBrokers Sample.rt) two_brokers_backend 0)
     = [brokers_query;
        auth_getUser;
        RQuery "brokers" [OpSelect (Some "*"); OpEq "id" (VStr "broker-1");
                          OpEq "user_profile_id" (VStr "user-1"); OpSingle];
        stamp_active_brokers "2025-01-01T00:00:00.000Z"].
Proof.
  assert (H : succeeds_with (answer two_brokers_backend 0 brokers_query)
                (VArr [sample_broker "Interactive Brokers";
                       VObj [("id", VStr "broker-2"); ("name", VStr "Alpaca");
                             ("status", VStr "inactive")]])).
  { eexists. repeat split. }
  split; [exact H |].
  exact (syncFromBrokers_visits_active_brokers Sample.rt two_brokers_backend 0
           _ H).
Defined.

(** ** [getBrokerStatus] *)

Lemma obj_set_keeps (fs : list (string * value)) (k k' : string) (x : value) :
  assoc k fs <> None -> assoc k (obj_set fs k' x) <> None.
Proof.
  induction fs as [| [k0 v0] rest IH]; cbn [assoc obj_set]; intros H.
  - contradiction.
  - destruct (String.eqb k' k0) eqn:E'; cbn [assoc];
      destruct (String.eqb k k0) eqn:E; try discriminate; auto.
Qed.

Lemma set_property_keeps (rt : Runtime) (fs : list (string * value))
  (k : string) (key x : value) :
  assoc k fs <> None -> assoc k (set_property rt fs key x) <> None.
Proof.
  intros H. unfold set_property.
  destruct (String.eqb _ "__proto__"); [exact H | apply obj_set_keeps; exact H].
Qed.

Lemma status_each_keeps (rt : Runtime) (P : request -> outcome -> Prop)
  (k : string) brokers statuses :
  assoc k statuses <> None ->
  wp P (TradingService.status_each rt brokers statuses)
    (fun c _ => match c with
                | Returned statuses' => assoc k statuses' <> None
                | Thrown _ => True
                end).
Proof.
  revert statuses.
  induction brokers as [| broker rest IH]; intros statuses H;
    cbn [TradingService.status_each wp]; [exact H |].
  apply wp_bind. apply wp_any. intros [testResult | e] tr; [| exact I].
  apply wp_bind. unfold TradingService.broker_status_key.
  wp_go; try exact I;
    (eapply wp_mono; [| apply IH; apply set_property_keeps; exact H]);
    intros [st | e'] tr'; auto.
Qed.

(** X11.  Once the Upstox service has answered, a broker list that cannot be
    fetched does not make [getBrokerStatus] fail: it reports [success: true]
    with the Upstox entry alone, after two requests. And whenever
    [getBrokerStatus] reports success, its [data] has an [upstox] entry: the
    entries added for the stored brokers may overwrite it (a stored broker
    named Upstox does) but never remove it. *)
Theorem getBrokerStatus_survives_a_failed_broker_list
  (rt : Runtime) (o : oracle) (n : nat) (upstoxStatus : value) :
  answer o n upstox_status_query = Resolved upstoxStatus ->
  (forall brokersResult,
     fst (run TradingService.getBrokers o (S n)) = Returned brokersResult ->
     truthy (get brokersResult "success") = false ->
     run (TradingService.getBrokerStatus rt) o n
     = (Returned (result3 true (VObj [("upstox", upstox_entry upstoxStatus)])
                    VNull),
        [upstox_status_query; brokers_query]))
  /\ (forall res,
        fst (run (TradingService.getBrokerStatus rt) o n) = Returned res ->
        get res "success" = VBool true ->
        has_field (get res "data") "upstox" = true).
Proof.
  intros Hu. split.
  - intros brokersResult Hb Hs.
    destruct (list_read_passes_rows rt T_getBrokers o (S n) eq_refl)
      as (r & failure & Hrun).
    cbn [perform] in Hrun.
    unfold TradingService.getBrokerStatus, upstox_status_query, await in *.
    cbn [run bind try_catch]. rewrite Hu. cbn [run bind try_catch].
    rewrite run_try_catch, run_bind.
    rewrite Hrun in Hb |- *. cbn [fst] in Hb. injection Hb as Hb.
    rewrite Hb, Hs. cbn [run bind]. rewrite app_nil_r.
    unfold upstox_entry.
    assert (r = brokers_query) as ->; [| reflexivity].
    unfold TradingService.getBrokers in Hrun.
    rewrite run_list_read in Hrun. injection Hrun as _ Hr. symmetry. exact Hr.
  - intros res Hres Hs.
    revert Hs. revert res Hres.
    refine (wp_run any_outcome (TradingService.getBrokerStatus rt)
              (fun c _ => forall res, c = Returned res ->
                 get res "success" = VBool true ->
                 has_field (get res "data") "upstox" = true) o n
              (any_outcome_answers o) _).
    unfold TradingService.getBrokerStatus.
    apply wp_try_catch. apply wp_bind. unfold await. cbn [wp].
    intros [v | e] _; cbn [wp].
    2: { intros res [= <-]. discriminate. }
    apply wp_bind. apply wp_any. intros [brokersResult | e] tr.
    2: { cbn [wp]. intros res [= <-]. discriminate. }
    apply wp_bind.
    destruct (truthy (get brokersResult "success")).
    + apply wp_bind. apply wp_iterate.
      2: { intros e. cbn [wp]. intros res [= <-]. discriminate. }
      intros l.
      eapply wp_mono; [| apply (status_each_keeps rt any_outcome "upstox");
                         cbn; discriminate].
      intros [statuses | e] tr'; cbn [wp].
      * intros Hk res [= <-] _. cbn.
        destruct (assoc "upstox" statuses); [reflexivity | contradiction].
      * intros _ res [= <-]. discriminate.
    + cbn [wp]. intros res [= <-] _. reflexivity.
Qed.

(** Upstox is connected and the [brokers] table cannot be read. *)
Lemma getBrokerStatus_survives_a_failed_broker_list_witness :
  run (TradingService.getBrokerStatus Sample.rt) upstox_only_backend 0
  = (Returned
       (result3 true
          (VObj [("upstox",
                  VObj [("name", VStr "Upstox");
                        ("connected", VBool true);
                        ("lastSync", VStr "2024-12-31T18:00:00.000Z");
                        ("status", VStr "active");
                        ("error", VNull)])])
          VNull),
     [upstox_status_query; brokers_query]).
Proof.
  exact (proj1 (getBrokerStatus_survives_a_failed_broker_list Sample.rt
                  upstox_only_backend 0 _ eq_refl)
           (result3 false (VArr [])
              (VStr "permission denied for table brokers"))
           eq_refl eq_refl).
Defined.

(** A stored broker named Upstox takes the place of the Upstox entry. *)
Example stored_upstox_overwrites_the_entry :
  get (get (get (match result_of (TradingService.getBrokerStatus Sample.rt)
                         (scripted (fun _ r =>
                            match r with
                            | RUpstox _ => Resolved (VObj [("connected", VBool true)])
                            | RAuth _ _ => Resolved (ok_response (VObj [("user", VNull)]))
                            | _ => Resolved (ok_response
                                               (VArr [sample_broker "Upstox"]))
                            end)) with
                 | Returned res => res
                 | Thrown _ => VUndef
                 end) "data") "upstox") "connected"
  = VBool false.
Proof. vm_compute. reflexivity. Qed.

(** ** The profile operations of [AuthService] *)

(** X12.  [getCurrentUserProfile] and [updateProfile] act on the signed-in
    user only. When [auth.getUser()] reports an error or no user, they issue
    no other request and return [success: false]; and every query they issue
    on [user_profiles] is restricted to the id of the user reported. *)
Theorem profile_operations_act_on_the_signed_in_user
  (rt : Runtime) (op : operation) (o : oracle) (n : nat) :
  is_profile_operation op = true ->
  let user := session_user (answer o n auth_getUser) in
  (truthy user = false ->
   exists res,
     run (perform rt op) o n = (Returned res, [auth_getUser])
     /\ get res "success" = VBool false)
  /\ Forall
       (fun r =>
          r = auth_getUser
          \/ exists ops,
               r = RQuery "user_profiles" ops
               /\ In (OpEq "id" (get user "id")) ops)
       (snd (run (perform rt op) o n)).
Proof.
  intros Hop. cbv zeta.
  split.
  - intros Hu.
    destruct op; try discriminate Hop; cbn [perform];
      autounfold with services;
      unfold await_destructured, await, destructurable, auth_getUser,
        session_user in *;
      cbn [run bind try_catch];
      destruct (answer o n (RAuth "getUser" [])) as [resp | e];
      cbn [run bind try_catch];
      try (eexists; split; reflexivity);
      destruct (nullish resp); cbn [run bind try_catch];
      try (eexists; split; reflexivity);
      destruct (nullish (get resp "data")); cbn [run bind try_catch];
      try (eexists; split; reflexivity);
      destruct (truthy (get resp "error")); cbn [run bind try_catch orb];
      try (eexists; split; reflexivity);
      rewrite Hu; cbn [run bind try_catch negb];
      eexists; split; reflexivity.
  - apply Forall_forall. intros r.
    destruct op; try discriminate Hop; cbn [perform];
      autounfold with services; unfold session_user; after_getUser o n;
      wp_go; trace_done;
      match goal with
      | H : truthy (get ?resp "error") || _ = false |- _ =>
          apply orb_false_elim in H; destruct H as [H _]; rewrite H
      end;
      eexists; (split; [reflexivity |]); cbn [In]; auto 10.
Qed.

(** Signed out, a profile update writes nothing; signed in as [user-1], it
    updates the row of [user-1]. *)
Lemma profile_operations_act_on_the_signed_in_user_witness :
  (exists res,
     run (perform Sample.rt
            (A_updateProfile (VObj [("full_name", VStr "Ana")])))
       signed_out_backend 0
     = (Returned res, [auth_getUser])
     /\ get res "success" = VBool false)
  /\ Forall
       (fun r =>
          r = auth_getUser
          \/ exists ops,
               r = RQuery "user_profiles" ops
               /\ In (OpEq "id" (VStr "user-1")) ops)
       (snd (run (perform Sample.rt
                    (A_updateProfile (VObj [("full_name", VStr "Ana")])))
               (single_broker_backend "Zerodha") 0)).
Proof.
  split.
  - exact (proj1 (profile_operations_act_on_the_signed_in_user Sample.rt
                    (A_updateProfile (VObj [("full_name", VStr "Ana")]))
                    signed_out_backend 0 eq_refl) eq_refl).
  - exact (proj2 (profile_operations_act_on_the_signed_in_user Sample.rt
                    (A_updateProfile (VObj [("full_name", VStr "Ana")]))
                    (single_broker_backend "Zerodha") 0 eq_refl)).
Defined.

(** ** Update payloads *)

Lemma assoc_obj_set_same (fs : list (string * value)) (k : string) (x : value) :
  assoc k (obj_set fs k x) = Some x.
Proof.
  induction fs as [| [k0 v0] rest IH]; cbn [assoc obj_set].
  - rewrite String.eqb_refl. reflexivity.
  - destruct (String.eqb k k0) eqn:E; cbn [assoc]; rewrite E; auto.
Qed.

Lemma assoc_obj_set_other (fs : list (string * value)) (k k' : string)
  (x : value) :
  k <> k' -> assoc k (obj_set fs k' x) = assoc k fs.
Proof.
  intros Hk. apply String.eqb_neq in Hk.
  induction fs as [| [k0 v0] rest IH]; cbn [assoc obj_set].
  - rewrite Hk. reflexivity.
  - destruct (String.eqb k' k0) eqn:E'; cbn [assoc].
    + apply String.eqb_eq in E'. subst k0. rewrite Hk. reflexivity.
    + rewrite IH. reflexivity.
Qed.


(** The caller's [updated_at] is replaced; any other column, [userId]
    included, is forwarded. *)
Example updateTrade_forwards_any_column :
  snd (run (TradingService.updateTrade (VStr "trade-1")
              (VObj [("userId", VStr "user-2");
                     ("updated_at", VStr "1999-12-31T00:00:00.000Z")]))
         (always (Resolved (ok_response VNull))) 0)
  = [RQuery "trades"
       [OpUpdate (VObj [("userId", VStr "user-2");
                        ("updated_at", VStr "2025-01-01T00:00:00.000Z")]);
        OpEq "id" (VStr "trade-1"); OpSelect None; OpSingle]].
Proof. reflexivity. Qed.

(** ** The row [createTrade] inserts *)

(** X14.  Whatever [tradeData] holds, every insert of [createTrade] writes a
    row of exactly twelve columns whose [userId] is the id of the user
    [auth.getUser()] reported, as a string: a [userId] or any other property
    the caller adds to [tradeData] does not reach the row. In that row
    [instrument] is a string, and [quantity] and [entryPrice] are numbers (the
    results of [parseInt] and [parseFloat], which may be [NaN]). *)
Theorem createTrade_inserts_for_the_signed_in_user
  (rt : Runtime) (tradeData : value) (o : oracle) (n : nat) :
  Forall
    (fun r =>
       r = auth_getUser
       \/ exists row,
            r = RQuery "trades" [OpInsert row; OpSelect None; OpSingle]
            /\ map fst (spread row) = trade_columns
            /\ get row "userId"
               = user_id_text rt (session_user (answer o n auth_getUser))
            /\ is_string (get row "userId") = true
            /\ is_string (get row "instrument") = true
            /\ is_number (get row "quantity") = true
            /\ is_number (get row "entryPrice") = true)
    (snd (run (TradingService.createTrade rt tradeData) o n)).
Proof.
  apply Forall_forall. intros r.
  unfold TradingService.createTrade, session_user, user_id_text.
  after_getUser o n;
    wp_go; trace_done;
    match goal with
    | H : truthy (get ?resp "error") || _ = false |- _ =>
        apply orb_false_elim in H; destruct H as [H _]; rewrite H
    end;
    eexists; (split; [reflexivity |]);
    cbn [get assoc String.eqb Ascii.eqb Bool.eqb spread map fst];
    repeat split;
    unfold toString_method in *;
    repeat match goal with
    | H : negb (truthy (if nullish ?x then _ else _)) = false |- _ =>
        destruct (nullish x); [discriminate H | clear H]
    | H : negb (truthy (get tradeData "instrument")) || _ = false |- _ =>
        apply orb_false_elim in H; destruct H as [H _];
        apply orb_false_elim in H; destruct H as [H _];
        apply negb_false_iff in H
    end;
    try reflexivity.
  all: destruct (get tradeData "instrument"); try discriminate; reflexivity.
Qed.

(** A [userId] slipped into [tradeData] is ignored, and a quantity that is
    not a numeral is inserted as [NaN]. *)
Example createTrade_ignores_a_foreign_userId :
  snd (run (TradingService.createTrade Sample.rt
              (VObj [("instrument", VStr "NIFTY"); ("quantity", VStr "ten");
                     ("entryPrice", VNum 100); ("userId", VStr "user-2");
                     ("tradeDate", VStr "2025-01-02")]))
         (single_broker_backend "Zerodha") 0)
  = [auth_getUser;
     RQuery "trades"
       [OpInsert
          (VObj [("instrument", VStr "NIFTY"); ("tradeType", VUndef);
                 ("quantity", VNum nan); ("entryPrice", VNum 100);
                 ("exitPrice", VNull); ("tradeDate", VStr "2025-01-02");
                 ("strategy", VNull); ("notes", VNull);
                 ("process", VStr "manual"); ("pnl", VNum 0);
                 ("pnlCurrency", VStr "INR"); ("userId", VStr "user-1")]);
        OpSelect None; OpSingle]].
Proof. vm_compute. reflexivity. Qed.

(** ** Credentials, stored and read back *)

(** X15.  What [storeBrokerCredentials] stores, [getBrokerCredentials] gives
    back. With [JSON] and a cipher that round-trip, the row inserted for
    [brokerData] carries the ciphertext of the six credential fields; and
    whenever the backend later answers the select of [getBrokerCredentials]
    with a row holding that ciphertext in [api_key], the [credentials]
    returned are those six fields, absent ones as [null], and nothing else of
    [brokerData]. *)
Theorem stored_credentials_are_read_back
  (rt : Runtime) (brokerData brokerId row user user' : value)
  (text ciphertext : string) (o o' : oracle) (n m : nat) :
  json_round_trips rt (credential_fields brokerData) text ->
  cipher_round_trips rt (BrokerCredentialService.ENCRYPTION_KEY rt)
    (local_answer o (S n) QSalt) text ciphertext ->
  ciphertext <> "" ->
  succeeds_with (answer o n auth_getUser) user ->
  truthy (get user "user") = true ->
  succeeds_with (answer o' m auth_getUser) user' ->
  truthy (get user' "user") = true ->
  succeeds_with
    (answer o' (S m)
       (RQuery "brokers"
          [OpSelect (Some "*"); OpEq "id" brokerId;
           OpEq "user_profile_id" (get (get user' "user") "id"); OpSingle]))
    row ->
  get row "api_key" = VStr ciphertext ->
  snd (run (BrokerCredentialService.storeBrokerCredentials rt brokerData) o n)
  = [auth_getUser;
     RQuery "brokers"
       [OpInsert (broker_row_of brokerData (get (get user "user") "id")
                    ciphertext);
        OpSelect None; OpSingle]]
  /\ exists res,
       fst (run (BrokerCredentialService.getBrokerCredentials rt brokerId) o' m)
       = Returned res
       /\ get res "success" = VBool true
       /\ get (get res "data") "credentials" = credential_fields brokerData.
Proof.
  intros Hj [He Hd] Hne (resp & Ha & Hn & Herr & Hdata) Hu Hu' Hu'' Hrow Hkey.
  split.
  - destruct Hj as [Hs _].
    unfold BrokerCredentialService.storeBrokerCredentials,
      BrokerCredentialService.encrypt, await_destructured, await,
      destructurable, auth_getUser in *.
    fold (credential_fields brokerData).
    cbn [run bind try_catch]. rewrite Ha. cbn [run bind try_catch].
    rewrite Hn. cbn [run bind try_catch]. rewrite Hdata, Hu.
    cbn [run bind try_catch negb]. rewrite Hs, He.
    cbn [run bind try_catch].
    match goal with
    | |- context [answer o ?k ?r] => destruct (answer o k r) as [resp2 | e]
    end; cbn [run bind try_catch snd]; [| reflexivity].
    destruct (nullish resp2); cbn [run bind try_catch snd]; [reflexivity |].
    destruct (truthy (get resp2 "error")); reflexivity.
  - eexists. split.
    + apply (getBrokerCredentials_decrypts rt brokerId row
               (credential_fields brokerData) text ciphertext o' m user');
        assumption.
    + split; [reflexivity |]. cbn [get result3 assoc String.eqb Ascii.eqb
                                   Bool.eqb].
      rewrite assoc_obj_set_same. reflexivity.
Qed.

Lemma broker_backend_user (name : string) (n : nat) :
  succeeds_with (answer (broker_backend name) n auth_getUser)
    (VObj [("user", VObj [("id", VStr "user-1")])]).
Proof. eexists. repeat split. Qed.

Lemma broker_backend_row (name : string) (n : nat) (brokerId user_id : value) :
  succeeds_with
    (answer (broker_backend name) n
       (RQuery "brokers"
          [OpSelect (Some "*"); OpEq "id" brokerId;
           OpEq "user_profile_id" user_id; OpSingle]))
    (sample_broker name).
Proof. eexists. repeat split. Qed.

(** The sample credentials, stored and read back under the sample
    runtime. *)
Lemma stored_credentials_are_read_back_witness :
  snd (run (BrokerCredentialService.storeBrokerCredentials Sample.rt
              (VObj [("name", VStr "Zerodha"); ("apiKey", VStr "kite-key");
                     ("apiSecret", VStr "kite-secret")]))
         (broker_backend "Zerodha") 0)
  = [auth_getUser;
     RQuery "brokers"
       [OpInsert
          (broker_row_of
             (VObj [("name", VStr "Zerodha"); ("apiKey", VStr "kite-key");
                    ("apiSecret", VStr "kite-secret")])
             (VStr "user-1")
             match sample_ciphertext with VStr c => c | _ => "" end);
        OpSelect None; OpSingle]]
  /\ exists res,
       fst (run (BrokerCredentialService.getBrokerCredentials Sample.rt
                   (VStr "broker-1")) (broker_backend "Zerodha") 0)
       = Returned res
       /\ get res "success" = VBool true
       /\ get (get res "data") "credentials" = sample_credentials.
Proof.
  refine (stored_credentials_are_read_back Sample.rt
            (VObj [("name", VStr "Zerodha"); ("apiKey", VStr "kite-key");
                   ("apiSecret", VStr "kite-secret")])
            (VStr "broker-1") (sample_broker "Zerodha")
            (VObj [("user", VObj [("id", VStr "user-1")])])
            (VObj [("user", VObj [("id", VStr "user-1")])])
            (Sample.print sample_credentials)
            match sample_ciphertext with VStr c => c | _ => "" end
            (broker_backend "Zerodha") (broker_backend "Zerodha") 0 0
            _ _ _ (broker_backend_user "Zerodha" 0) eq_refl
            (broker_backend_user "Zerodha" 0) eq_refl
            (broker_backend_row "Zerodha" 1 _ _) _).
  - split; vm_compute; reflexivity.
  - split; vm_compute; reflexivity.
  - vm_compute. discriminate.
  - vm_compute. reflexivity.
Defined.

(** ** The closing date of a trade *)

(** X16.  [closeTrade] calls [toISOString] on its third argument, so that
    argument has to be a [Date]. Given any other value that is not nullish (a
    date string, a number), or a [Date] that is invalid, it returns [Failed to
    close trade] without issuing a request. Called without the argument, as
    the hook calls it, it issues one update that sets [status] to [closed] and
    stamps [closed_at] and [updated_at] with two readings of the clock. *)
Theorem closeTrade_needs_a_Date
  (tradeId exitPrice : value) (o : oracle) (n : nat) :
  (forall v,
     nullish v = false ->
     run (TradingService.closeTrade tradeId exitPrice (TradingService.DateOther v))
       o n
     = (Returned (result3 false VNull (VStr "Failed to close trade")), []))
  /\ run (TradingService.closeTrade tradeId exitPrice
            (TradingService.DateObject None)) o n
     = (Returned (result3 false VNull (VStr "Failed to close trade")), [])
  /\ snd (run (TradingService.closeTrade tradeId exitPrice
                 TradingService.DateOmitted) o n)
     = [RQuery "trades"
          [OpUpdate (closing_row exitPrice (VStr (local_answer o n QNow))
                       (local_answer o (S n) QNow));
           OpEq "id" tradeId; OpSelect None; OpSingle]].
Proof.
  unfold TradingService.closeTrade, TradingService.closedAt_toISOString,
    now_iso, await_destructured, await, destructurable, closing_row.
  split; [| split].
  - intros v Hv. destruct v; try discriminate Hv; reflexivity.
  - reflexivity.
  - cbn [run bind try_catch].
    match goal with
    | |- context [answer o ?k ?r] => destruct (answer o k r) as [resp | e]
    end; cbn [run bind try_catch snd]; [| reflexivity].
    destruct (nullish resp); cbn [run bind try_catch snd]; [reflexivity |].
    destruct (truthy (get resp "error")); reflexivity.
Qed.

(** ** A portfolio summary of nothing *)

(** X17.  When both queries of [getPortfolioSummary] succeed and neither has
    any row ([data] is [null] or the empty array), the summary is all zeros:
    no portfolios, a balance and a profit of 0, and a percentage of 0 rather
    than the quotient 0/0. *)
Theorem portfolio_summary_of_nothing
  (rt : Runtime) (o : oracle) (n : nat) (portfolios accounts : value) :
  succeeds_with (answer o n portfolios_query) portfolios ->
  succeeds_with (answer o (S n) accounts_query) accounts ->
  no_rows portfolios = true ->
  no_rows accounts = true ->
  run (TradingService.getPortfolioSummary rt) o n
  = (Returned
       (result3 true
          (VObj [("portfolios", VArr []); ("totalBalance", VNum 0);
                 ("totalPnL", VNum 0); ("totalPnLPercentage", VNum 0)])
          VNull),
     [portfolios_query; accounts_query]).
Proof.
  intros (resp1 & H1 & Hn1 & He1 & Hd1) (resp2 & H2 & Hn2 & He2 & Hd2) Hp Ha.
  unfold TradingService.getPortfolioSummary, await_destructured, await,
    destructurable, portfolios_query, accounts_query in *.
  cbn [run bind try_catch]. rewrite H1. cbn [run bind try_catch].
  rewrite Hn1. cbn [run bind try_catch]. rewrite He1.
  cbn [run bind try_catch]. rewrite H2. cbn [run bind try_catch].
  rewrite Hn2. cbn [run bind try_catch]. rewrite He2, Hd1, Hd2.
  destruct portfolios as [| | | | | [| p ps] |]; try discriminate Hp;
    destruct accounts as [| | | | | [| a acs] |]; try discriminate Ha;
    reflexivity.
Qed.

(** Every query answered with [data: null]. *)
Lemma portfolio_summary_of_nothing_witness :
  run (TradingService.getPortfolioSummary Sample.rt)
    (always (Resolved (ok_response VNull))) 0
  = (Returned
       (result3 true
          (VObj [("portfolios", VArr []); ("totalBalance", VNum 0);
                 ("totalPnL", VNum 0); ("totalPnLPercentage", VNum 0)])
          VNull),
     [portfolios_query; accounts_query]).
Proof.
  apply (portfolio_summary_of_nothing Sample.rt
           (always (Resolved (ok_response VNull))) 0 VNull VNull).
  - eexists. repeat split.
  - eexists. repeat split.
  - reflexivity.
  - reflexivity.
Defined.

(** * Properties of the [useTrading] hook *)

(** ** Loaders *)

Lemma loader_run (rt : Runtime) (key : string) (target : UseTrading.slot)
  (op : operation) (fallback : value) (failed threw : string)
  (o : oracle) (n : nat) :
  inspects_rejection op = false ->
  exists result,
    fst (run (perform rt op) o n) = Returned result
    /\ run (UseTrading.loader key target (perform rt op) fallback failed threw)
         o n
       = (Returned
            (UseTrading.Set_ UseTrading.Loading (UseTrading.Flag key true)
             :: (if truthy (get result "success")
                 then [UseTrading.Set_ target
                         (UseTrading.Value (js_or (get result "data") fallback));
                       UseTrading.Set_ UseTrading.Failure
                         (UseTrading.Value VNull)]
                 else [UseTrading.Set_ UseTrading.Failure
                         (UseTrading.Value
                            (js_or (get result "error") (VStr failed)))])
             ++ [UseTrading.Set_ UseTrading.Loading
                   (UseTrading.Flag key false)]),
          snd (run (perform rt op) o n)).
Proof.
  intros Hop. destruct (run_returns rt op o n Hop) as [result Hrun].
  exists result. split; [rewrite Hrun; reflexivity |].
  unfold UseTrading.loader. rewrite run_bind, run_try_catch, run_bind, Hrun.
  cbn [fst snd].
  destruct (truthy (get result "success")); cbn [run];
    rewrite !app_nil_r; reflexivity.
Qed.

(** X18.  Each of the six [load...] callbacks issues the requests of the one
    service method it awaits and nothing else, and whatever the backend
    answers, the state updates it makes can all be applied and leave its own
    flag in [loading] at [false] and every other flag as it was: no loader
    leaves its spinner on. When the service reports success the loader stores
    [data] (or its fallback, when [data] is falsy) and clears [error];
    otherwise it leaves its list as it was and sets [error] to a truthy
    message. No other piece of state changes. *)
Theorem loaders_settle
  (rt : Runtime) (l : UseTrading.load) (o : oracle) (n : nat)
  (st : UseTrading.state) :
  exists result calls st',
    fst (run (perform rt (UseTrading.load_operation l)) o n) = Returned result
    /\ run (UseTrading.perform_load rt l) o n
       = (Returned calls,
          snd (run (perform rt (UseTrading.load_operation l)) o n))
    /\ UseTrading.apply_calls calls st = Ret st'
    /\ get (UseTrading.loading st') (UseTrading.load_key l) = VBool false
    /\ (forall k, k <> UseTrading.load_key l ->
          assoc k (spread (UseTrading.loading st'))
          = assoc k (spread (UseTrading.loading st)))
    /\ (forall s, s <> UseTrading.load_target l ->
          s <> UseTrading.Loading -> s <> UseTrading.Failure ->
          UseTrading.read s st' = UseTrading.read s st)
    /\ if truthy (get result "success")
       then UseTrading.read (UseTrading.load_target l) st'
            = js_or (get result "data") (UseTrading.load_fallback l)
            /\ UseTrading.error st' = VNull
       else UseTrading.read (UseTrading.load_target l) st'
            = UseTrading.read (UseTrading.load_target l) st
            /\ truthy (UseTrading.error st') = true.
Proof.
  destruct st as [tr ac br sg pf an ld er].
  destruct l; cbn [UseTrading.perform_load UseTrading.load_operation
                   UseTrading.load_key UseTrading.load_target
                   UseTrading.load_fallback];
    unfold UseTrading.loadAccounts, UseTrading.loadTrades,
      UseTrading.loadBrokers, UseTrading.loadStrategies,
      UseTrading.loadPortfolio, UseTrading.loadAnalytics;
    match goal with
    | |- context [UseTrading.loader ?key ?target ?fetch ?fallback ?failed ?threw] =>
        match goal with
        | |- context [perform rt ?op] =>
            destruct (loader_run rt key target op fallback failed threw o n
                        eq_refl) as (result & Hres & Hrun)
        end
    end;
    cbn [perform] in Hres, Hrun |- *;
    exists result; rewrite Hrun;
    destruct (truthy (get result "success")) eqn:Hs;
    eexists _, _;
    (split; [exact Hres |]); (split; [reflexivity |]);
    (split; [reflexivity |]);
    (split; [cbn; rewrite assoc_obj_set_same; reflexivity |]);
    (split; [intros k Hk; cbn; rewrite !assoc_obj_set_other by exact Hk;
             reflexivity |]).
  all: try (split; [intros s H1 H2 H3; destruct s; cbn; congruence |]).
  all: cbn; try (split; reflexivity).
  all: try (split; [reflexivity | apply js_or_default_truthy; reflexivity]).
Qed.

(** ** Mutations *)

Ltac mutation_run rt op o n :=
  destruct (operations_never_throw rt op o n eq_refl) as [result Hres];
  cbn [perform] in Hres |- *;
  exists result;
  rewrite run_try_catch, run_bind;
  match type of Hres with
  | fst (run ?p o n) = _ =>
      let settled := fresh "settled" in
      let issued := fresh "issued" in
      destruct (run p o n) as [settled issued];
      cbn [fst snd] in *; subst settled
  end;
  destruct (truthy (get result "success")) eqn:Hs; cbn [run];
  rewrite !app_nil_r; eexists _, _;
  (split; [reflexivity |]); (split; [reflexivity |]);
  (split; [reflexivity |]).

(** X19.  The five callbacks that change rows ([createTrade], [updateTrade],
    [closeTrade], [deleteTrade], [addBroker]) issue the requests of the one
    service method they await and return an object whose [success] is [true]
    or [false] as the service's [success] is truthy or not. When the service
    reports a failure, the callback passes the service's [error] on, sets the
    hook's [error] to a truthy message and touches no other piece of state:
    nothing is changed in the lists ahead of the backend's answer, so there is
    nothing to roll back. When it reports success, the callback makes two
    setter calls: one on its list, and one that clears [error]. *)
Theorem mutations_mirror_the_service
  (rt : Runtime) (m : UseTrading.mutation) (o : oracle) (n : nat)
  (st : UseTrading.state) :
  exists result returned calls,
    fst (run (perform rt (UseTrading.mutation_operation m)) o n)
    = Returned result
    /\ run (UseTrading.perform_mutation rt m) o n
       = (Returned (returned, calls),
          snd (run (perform rt (UseTrading.mutation_operation m)) o n))
    /\ get returned "success" = VBool (truthy (get result "success"))
    /\ if truthy (get result "success")
       then exists u,
              calls = [UseTrading.Set_ (UseTrading.mutation_target m) u;
                       UseTrading.Set_ UseTrading.Failure
                         (UseTrading.Value VNull)]
       else get returned "error" = get result "error"
            /\ exists st',
                 UseTrading.apply_calls calls st = Ret st'
                 /\ (forall s, s <> UseTrading.Failure ->
                       UseTrading.read s st' = UseTrading.read s st)
                 /\ truthy (UseTrading.error st') = true.
Proof.
  destruct st as [s1 s2 s3 s4 s5 s6 s7 s8].
  destruct m; cbn [UseTrading.perform_mutation UseTrading.mutation_operation
                   UseTrading.mutation_target];
    unfold UseTrading.createTrade, UseTrading.updateTrade,
      UseTrading.closeTrade, UseTrading.deleteTrade, UseTrading.addBroker;
    match goal with
    | |- context [perform rt ?op] => mutation_run rt op o n
    end;
    try (eexists; reflexivity);
    (split; [reflexivity |]); eexists; (split; [reflexivity |]);
    (split; [intros s Hne; destruct s; cbn; congruence |]);
    cbn; apply js_or_default_truthy; reflexivity.
Qed.

(** ** The lists of the hook *)

Lemma map_unless_absent (id row : value) (rows : list value) :
  absent id rows ->
  map (fun t => if strict_equal (get t "id") id then row else t) rows = rows.
Proof.
  induction 1 as [| t rest Ht _ IH]; cbn [map]; [reflexivity |].
  rewrite Ht, IH. reflexivity.
Qed.

Lemma filter_unless_absent (id : value) (rows : list value) :
  absent id rows ->
  filter (fun t => negb (strict_equal (get t "id") id)) rows = rows.
Proof.
  induction 1 as [| t rest Ht _ IH]; cbn [filter]; [reflexivity |].
  rewrite Ht, IH. reflexivity.
Qed.

Lemma filter_makes_absent (id : value) (rows : list value) :
  absent id (filter (fun t => negb (strict_equal (get t "id") id)) rows).
Proof.
  unfold absent. apply Forall_forall. intros t Ht.
  apply filter_In in Ht. destruct Ht as [_ Ht].
  apply negb_true_iff in Ht. exact Ht.
Qed.

Lemma map_replaces (id row : value) (rows : list value) :
  Forall2
    (fun before after =>
       after = if strict_equal (get before "id") id then row else before)
    rows
    (map (fun t => if strict_equal (get t "id") id then row else t) rows).
Proof. induction rows as [| t rest IH]; cbn [map]; constructor; auto. Qed.

(** X20.  What the subscription to the [trades] table does to a list of
    trades. An [INSERT] event puts the new row in front, whether or not a row
    with its id is already listed. An [UPDATE] event replaces, in place, every
    row whose id is that of the new row, and changes nothing when no such row
    is listed: a row that was not loaded is not added. A [DELETE] event
    removes every row whose id is that of the old row and keeps the others in
    their order. An event of any other type makes no setter call. *)
Theorem trade_events_update_the_list
  (payload : value) (rows : list value) (st : UseTrading.state) :
  UseTrading.trades st = VArr rows ->
  let event := get payload "eventType" in
  let row := get payload "new" in
  let listed rows' :=
    UseTrading.apply_calls (UseTrading.on_trades_change payload) st
    = Ret (UseTrading.write UseTrading.Trades (VArr rows') st) in
  (str_is event "INSERT" = true -> listed (row :: rows))
  /\ (str_is event "UPDATE" = true ->
      primitive (get row "id") = true ->
      exists rows',
        listed rows'
        /\ List.length rows' = List.length rows
        /\ Forall2
             (fun before after =>
                after = if strict_equal (get before "id") (get row "id")
                        then row else before)
             rows rows'
        /\ (absent (get row "id") rows -> rows' = rows))
  /\ (str_is event "DELETE" = true ->
      primitive (get (get payload "old") "id") = true ->
      exists rows',
        listed rows'
        /\ rows' = filter
                     (fun t => negb (strict_equal (get t "id")
                                       (get (get payload "old") "id")))
                     rows
        /\ absent (get (get payload "old") "id") rows'
        /\ (absent (get (get payload "old") "id") rows -> rows' = rows))
  /\ (str_is event "INSERT" = false -> str_is event "UPDATE" = false ->
      str_is event "DELETE" = false ->
      UseTrading.on_trades_change payload = []).
Proof.
  intros Hst. cbv zeta. unfold UseTrading.on_trades_change.
  split; [| split; [| split]].
  - intros ->. cbn. rewrite Hst. reflexivity.
  - intros Hu _.
    destruct (str_is (get payload "eventType") "INSERT") eqn:Hi.
    { destruct (get payload "eventType"); try discriminate.
      cbn in Hi, Hu. apply String.eqb_eq in Hi, Hu. congruence. }
    rewrite Hu. cbn. rewrite Hst. eexists.
    split; [reflexivity |]. split; [apply length_map |].
    split; [apply map_replaces | apply map_unless_absent].
  - intros Hd _.
    destruct (str_is (get payload "eventType") "INSERT") eqn:Hi.
    { destruct (get payload "eventType"); try discriminate.
      cbn in Hi, Hd. apply String.eqb_eq in Hi, Hd. congruence. }
    destruct (str_is (get payload "eventType") "UPDATE") eqn:Hu.
    { destruct (get payload "eventType"); try discriminate.
      cbn in Hu, Hd. apply String.eqb_eq in Hu, Hd. congruence. }
    rewrite Hd. cbn. rewrite Hst. eexists.
    split; [reflexivity |]. split; [reflexivity |].
    split; [apply filter_makes_absent | apply filter_unless_absent].
  - intros -> -> ->. reflexivity.
Qed.

Lemma SFeqb_sym (x y : SpecFloat.spec_float) : SpecFloat.SFeqb x y = SpecFloat.SFeqb y x.
Proof.
  unfold SpecFloat.SFeqb, SpecFloat.SFcompare.
  destruct x as [sx | sx | | sx mx ex], y as [sy | sy | | sy my ey];
    try reflexivity;
    try (destruct sx, sy; reflexivity);
    try (destruct sx; reflexivity);
    try (destruct sy; reflexivity).
  change (Pos.compare_cont Eq mx my) with (Pos.compare mx my).
  change (Pos.compare_cont Eq my mx) with (Pos.compare my mx).
  destruct sx, sy; try reflexivity;
    rewrite (Z.compare_antisym ey ex), (Pos.compare_antisym my mx);
    destruct (ey ?= ex)%Z; cbn; try reflexivity;
    destruct (my ?= mx)%positive; reflexivity.
Qed.

Lemma SFeqb_finite (sx sy : bool) (mx my : positive) (ex ey : Z) :
  SpecFloat.SFeqb (SpecFloat.S754_finite sx mx ex) (SpecFloat.S754_finite sy my ey) = true ->
  sx = sy /\ mx = my /\ ex = ey.
Proof.
  unfold SpecFloat.SFeqb, SpecFloat.SFcompare.
  change (Pos.compare_cont Eq mx my) with (Pos.compare mx my).
  destruct sx, sy; try discriminate;
    destruct (ex ?= ey)%Z eqn:He; try discriminate;
    destruct (mx ?= my)%positive eqn:Hm; try discriminate; intros _;
    apply Z.compare_eq in He; apply Pos.compare_eq in Hm; auto.
Qed.

Lemma SFeqb_trans (x y z : SpecFloat.spec_float) :
  SpecFloat.SFeqb x y = true -> SpecFloat.SFeqb y z = true ->
  SpecFloat.SFeqb x z = true.
Proof.
  intros H1 H2.
  destruct x as [sx | sx | | sx mx ex], y as [sy | sy | | sy my ey];
    try discriminate H1;
    try (destruct sx; discriminate H1);
    try (destruct sx, sy; discriminate H1).
  - destruct z as [sz | sz | | sz mz ez]; try discriminate H2;
      try (destruct sz; discriminate H2); reflexivity.
  - destruct z as [sz | sz | | sz mz ez]; try discriminate H2;
      try (destruct sy; discriminate H2).
    destruct sx, sy, sz; try discriminate H1; try discriminate H2; reflexivity.
  - apply SFeqb_finite in H1. destruct H1 as (-> & -> & ->). exact H2.
Qed.

Lemma strict_equal_sym (a b : value) : strict_equal a b = strict_equal b a.
Proof.
  destruct a, b; cbn; try reflexivity.
  - destruct b, b0; reflexivity.
  - rewrite !FloatAxioms.eqb_spec. apply SFeqb_sym.
  - apply String.eqb_sym.
Qed.

Lemma strict_equal_trans (a b c : value) :
  strict_equal a b = true -> strict_equal b c = true ->
  strict_equal a c = true.
Proof.
  destruct a, b; cbn; try discriminate; destruct c; cbn; try discriminate;
    try reflexivity.
  - intros H1 H2. apply Bool.eqb_prop in H1, H2. subst. apply Bool.eqb_reflx.
  - rewrite !FloatAxioms.eqb_spec. apply SFeqb_trans.
  - intros H1 H2. apply String.eqb_eq in H1, H2. subst. apply String.eqb_refl.
Qed.

Lemma strict_equal_other (a b c : value) :
  strict_equal a b = true -> strict_equal a c = false ->
  strict_equal b c = false.
Proof.
  intros Hab Hac. destruct (strict_equal b c) eqn:Hbc; [| reflexivity].
  rewrite (strict_equal_trans a b c Hab Hbc) in Hac. discriminate.
Qed.

Section Upsert.

Variables (row : value).

Let id := get row "id".
Let matches (item : value) : bool := strict_equal (get item "id") id.
Let replace (item : value) : value := if matches item then row else item.

Lemma find_absent (rows : list value) :
  absent id rows -> find matches rows = None.
Proof.
  induction 1 as [| t rest Ht _ IH]; cbn [find]; [reflexivity |].
  unfold matches at 1. rewrite Ht. exact IH.
Qed.

Lemma find_present (rows : list value) :
  ~ absent id rows -> exists x, find matches rows = Some x /\ In x rows.
Proof.
  induction rows as [| t rest IH]; intros H.
  - exfalso. apply H. constructor.
  - cbn [find]. destruct (matches t) eqn:Ht.
    + exists t. split; [reflexivity | left; reflexivity].
    + destruct IH as (x & Hx & Hin).
      * intros Habs. apply H. constructor; assumption.
      * exists x. split; [exact Hx | right; exact Hin].
Qed.

Lemma split_at_match (rows : list value) :
  distinct_ids rows -> ~ absent id rows ->
  exists before x after,
    rows = before ++ x :: after
    /\ matches x = true /\ absent id before /\ absent id after.
Proof.
  induction 1 as [| t rest Ht Hrest IH]; intros H.
  - exfalso. apply H. constructor.
  - destruct (matches t) eqn:Hm.
    + exists [], t, rest. repeat split; [exact Hm | constructor |].
      apply Forall_forall. intros u Hu.
      rewrite Forall_forall in Ht. specialize (Ht u Hu). cbv beta in Ht.
      rewrite strict_equal_sym.
      apply (strict_equal_other (get t "id")); [exact Hm |].
      exact Ht.
    + destruct IH as (before & x & after & -> & Hx & Hb & Ha).
      * intros Habs. apply H. constructor; assumption.
      * exists (t :: before), x, after. repeat split; try assumption.
        constructor; assumption.
Qed.

Lemma replace_at_match (before after : list value) (x : value) :
  matches x = true -> absent id before -> absent id after ->
  map replace (before ++ x :: after) = before ++ row :: after.
Proof.
  intros Hx Hb Ha. rewrite map_app. cbn [map]. unfold replace at 2.
  rewrite Hx. unfold replace, matches.
  rewrite (map_unless_absent id row before Hb),
    (map_unless_absent id row after Ha).
  reflexivity.
Qed.

Lemma find_at_match (before after : list value) (x : value) :
  matches x = true -> absent id before ->
  find matches (before ++ x :: after) = Some x.
Proof.
  intros Hx. induction 1 as [| t rest Ht _ IH]; cbn [app find].
  - rewrite Hx. reflexivity.
  - unfold matches at 1. rewrite Ht. exact IH.
Qed.

Lemma distinct_after_replace (before after : list value) (x : value) :
  matches x = true ->
  distinct_ids (before ++ x :: after) -> distinct_ids (before ++ row :: after).
Proof.
  intros Hx. unfold distinct_ids.
  induction before as [| t rest IH]; cbn [app]; intros H;
    inversion H as [| a l Ha Hl]; subst; constructor.
  - rewrite Forall_forall in *. intros u Hu.
    apply (strict_equal_other (get x "id")); [exact Hx | apply Ha; exact Hu].
  - exact Hl.
  - rewrite Forall_forall in *. intros u Hu.
    apply in_app_or in Hu. destruct Hu as [Hu | [<- | Hu]].
    + apply Ha. apply in_or_app. left. exact Hu.
    + fold id. rewrite strict_equal_sym.
      apply (strict_equal_other (get x "id")); [exact Hx |].
      rewrite strict_equal_sym. apply Ha. apply in_or_app. right. left.
      reflexivity.
    + apply Ha. apply in_or_app. right. right. exact Hu.
  - apply IH. exact Hl.
Qed.

Lemma distinct_after_append (rows : list value) :
  absent id rows -> distinct_ids rows -> distinct_ids (rows ++ [row]).
Proof.
  unfold distinct_ids. intros Habs.
  induction 1 as [| t rest Ht Hrest IH]; cbn [app].
  - constructor; constructor.
  - inversion Habs as [| a l Ha Hl]; subst. constructor.
    + apply Forall_app. split; [exact Ht |]. constructor; [exact Ha | constructor].
    + apply IH. exact Hl.
Qed.

End Upsert.

Lemma upsert_keeps_one_row_per_id
  (row : value) (rows : list value) :
  Forall (fun item => truthy item = true) rows ->
  truthy row = true ->
  identifies (get row "id") = true ->
  distinct_ids rows ->
  exists rows',
    UseTrading.apply_updater (UseTrading.Upsert row) (VArr rows)
    = Ret (VArr rows')
    /\ distinct_ids rows'
    /\ In row rows'
    /\ Forall (fun item => truthy item = true) rows'
    /\ (absent (get row "id") rows -> rows' = rows ++ [row])
    /\ (~ absent (get row "id") rows -> List.length rows' = List.length rows)
    /\ UseTrading.apply_updater (UseTrading.Upsert row) (VArr rows')
       = Ret (VArr rows').
Proof.
  intros Htruthy Hrow Hid Hdistinct.
  apply andb_prop in Hid. destruct Hid as [_ Hself].
  set (id := get row "id") in *.
  set (matches := fun item : value => strict_equal (get item "id") id).
  assert (Hdec : absent id rows \/ ~ absent id rows).
  { unfold absent.
    destruct (Forall_dec (fun t => strict_equal (get t "id") id = false)
                (fun t => bool_dec _ _) rows); auto. }
  cbn [UseTrading.apply_updater call_find bind].
  destruct Hdec as [Habs | Hpresent].
  - exists (rows ++ [row]).
    rewrite (find_absent row rows Habs). cbn [truthy bind iterate].
    split; [reflexivity |].
    split; [apply distinct_after_append; assumption |].
    split; [apply in_or_app; right; left; reflexivity |].
    split; [apply Forall_app; split; [assumption | constructor; auto] |].
    split; [reflexivity |].
    split; [intros H; contradiction |].
    rewrite (find_at_match row rows [] row Hself Habs). rewrite Hrow.
    cbn [bind call_map].
    rewrite (replace_at_match row rows [] row Hself Habs); [reflexivity |].
    constructor.
  - destruct (split_at_match row rows Hdistinct Hpresent)
      as (before & x & after & -> & Hx & Hb & Ha).
    exists (before ++ row :: after).
    rewrite (find_at_match row before after x Hx Hb).
    assert (Hxt : truthy x = true).
    { rewrite Forall_forall in Htruthy. apply Htruthy.
      apply in_or_app. right. left. reflexivity. }
    rewrite Hxt. cbn [bind call_map].
    rewrite (replace_at_match row before after x Hx Hb Ha).
    split; [reflexivity |].
    split; [apply (distinct_after_replace row before after x Hx Hdistinct) |].
    split; [apply in_or_app; right; left; reflexivity |].
    split.
    { apply Forall_app. apply Forall_app in Htruthy.
      destruct Htruthy as [H1 H2]. inversion H2; subst.
      split; [assumption | constructor; assumption]. }
    split.
    { intros Habs. exfalso. apply Hpresent. exact Habs. }
    split; [intros _; rewrite !length_app; reflexivity |].
    rewrite (find_at_match row before after row Hself Hb). rewrite Hrow.
    cbn [bind call_map].
    rewrite (replace_at_match row before after row Hself Hb Ha). reflexivity.
Qed.

(** X21.  What the subscription to the [analytics_data] table does to the list
    of analytics rows. On an [INSERT] or [UPDATE] event it keeps one row per
    id: on a list of truthy rows with distinct ids, and for a new truthy row
    whose id identifies, the new row takes the place of the one listed row
    with its id, or is appended when there is none, and the ids stay distinct.
    Delivering the same event a second time changes nothing. An event of any
    other type, [DELETE] included, makes no setter call: a deleted row stays
    listed. *)
Theorem analytics_changes_keep_one_row_per_id
  (payload : value) (rows : list value) (st : UseTrading.state) :
  UseTrading.analytics st = VArr rows ->
  let event := get payload "eventType" in
  let row := get payload "new" in
  let listed st rows' :=
    UseTrading.apply_calls (UseTrading.on_analytics_change payload) st
    = Ret (UseTrading.write UseTrading.Analytics (VArr rows') st) in
  (str_is event "INSERT" || str_is event "UPDATE" = true ->
   Forall (fun item => truthy item = true) rows ->
   truthy row = true ->
   identifies (get row "id") = true ->
   distinct_ids rows ->
   exists rows',
     listed st rows'
     /\ distinct_ids rows'
     /\ In row rows'
     /\ (absent (get row "id") rows -> rows' = rows ++ [row])
     /\ (~ absent (get row "id") rows -> List.length rows' = List.length rows)
     /\ listed (UseTrading.write UseTrading.Analytics (VArr rows') st) rows')
  /\ (str_is event "INSERT" || str_is event "UPDATE" = false ->
      UseTrading.on_analytics_change payload = []).
Proof.
  intros Hst. cbv zeta. unfold UseTrading.on_analytics_change.
  split.
  - intros -> Htruthy Hrow Hid Hdistinct.
    destruct (upsert_keeps_one_row_per_id (get payload "new") rows
                Htruthy Hrow Hid Hdistinct)
      as (rows' & H1 & H2 & H3 & _ & H5 & H6 & H7).
    exists rows'. cbn [UseTrading.apply_calls UseTrading.apply_call bind].
    destruct st as [s1 s2 s3 s4 s5 s6 s7 s8].
    cbn [UseTrading.read UseTrading.write UseTrading.analytics] in *.
    subst s6. rewrite H1, H7. cbn [bind].
    repeat split; assumption.
  - intros ->. reflexivity.
Qed.

(** An id that is [NaN] identifies nothing: the row is appended each time. *)
Example upsert_with_a_NaN_id :
  UseTrading.apply_updater (UseTrading.Upsert (VObj [("id", VNum nan)]))
    (VArr [VObj [("id", VNum nan)]])
  = Ret (VArr [VObj [("id", VNum nan)]; VObj [("id", VNum nan)]]).
Proof. vm_compute. reflexivity. Qed.

(** The trade with id 8 is deleted elsewhere. *)
Lemma trade_events_update_the_list_witness :
  UseTrading.trades (with_trades sample_trades) = VArr sample_trades
  /\ UseTrading.apply_calls
       (UseTrading.on_trades_change
          (change "DELETE" (VObj [("id", VNum 8)]) VUndef))
       (with_trades sample_trades)
     = Ret (with_trades
              [VObj [("id", VNum 7); ("instrument", VStr "NIFTY");
                     ("status", VStr "open")]]).
Proof.
  split; [reflexivity |].
  destruct (proj1 (proj2 (proj2
              (trade_events_update_the_list
                 (change "DELETE" (VObj [("id", VNum 8)]) VUndef)
                 sample_trades (with_trades sample_trades) eq_refl)))
              eq_refl eq_refl)
    as (rows' & Hlisted & Hrows & _).
  rewrite Hlisted, Hrows. reflexivity.
Defined.

Lemma sample_analytics_distinct : distinct_ids sample_analytics.
Proof.
  unfold distinct_ids, sample_analytics.
  repeat constructor.
Qed.

Lemma sample_analytics_truthy :
  Forall (fun item => truthy item = true) sample_analytics.
Proof. repeat constructor. Qed.

(** The figures of the second day are revised. *)
Lemma analytics_changes_keep_one_row_per_id_witness :
  UseTrading.analytics (with_analytics sample_analytics) = VArr sample_analytics
  /\ exists rows',
       UseTrading.apply_calls
         (UseTrading.on_analytics_change
            (change "UPDATE" VUndef
               (VObj [("id", VStr "2025-01-02"); ("daily_pnl", VNum 60)])))
         (with_analytics sample_analytics)
       = Ret (with_analytics rows')
       /\ distinct_ids rows'
       /\ In (VObj [("id", VStr "2025-01-02"); ("daily_pnl", VNum 60)]) rows'.
Proof.
  split; [reflexivity |].
  destruct (proj1 (analytics_changes_keep_one_row_per_id
                     (change "UPDATE" VUndef
                        (VObj [("id", VStr "2025-01-02");
                               ("daily_pnl", VNum 60)]))
                     sample_analytics (with_analytics sample_analytics)
                     eq_refl)
              eq_refl
              sample_analytics_truthy
              eq_refl eq_refl sample_analytics_distinct)
    as (rows' & Hlisted & Hdistinct & Hin & _).
  exists rows'. repeat split; assumption.
Defined.

Example analytics_row_is_replaced :
  UseTrading.apply_calls
    (UseTrading.on_analytics_change
       (change "UPDATE" VUndef
          (VObj [("id", VStr "2025-01-02"); ("daily_pnl", VNum 60)])))
    (with_analytics sample_analytics)
  = Ret (with_analytics
           [VObj [("id", VStr "2025-01-01"); ("daily_pnl", VNum 120)];
            VObj [("id", VStr "2025-01-02"); ("daily_pnl", VNum 60)]]).
Proof. vm_compute. reflexivity. Qed.

(** ** Own changes and their events *)

(** X22.  The hook does not tell its own changes from those of others. When
    [createTrade] has succeeded and the [INSERT] event of the created row
    arrives, the row is listed twice, at the head of the list. When
    [deleteTrade] has succeeded, the trades with that id are gone from the
    list, and the [DELETE] event of the row changes nothing more. *)
Theorem own_changes_come_back_as_events
  (rt : Runtime) (o : oracle) (n : nat) (rows : list value)
  (st : UseTrading.state) :
  UseTrading.trades st = VArr rows ->
  (forall tradeData result payload,
     fst (run (TradingService.createTrade rt tradeData) o n) = Returned result ->
     truthy (get result "success") = true ->
     get payload "eventType" = VStr "INSERT" ->
     get payload "new" = get result "data" ->
     exists returned calls st1 st2,
       fst (run (UseTrading.createTrade rt tradeData) o n)
       = Returned (returned, calls)
       /\ UseTrading.apply_calls calls st = Ret st1
       /\ UseTrading.apply_calls (UseTrading.on_trades_change payload) st1
          = Ret st2
       /\ UseTrading.trades st2
          = VArr (get result "data" :: get result "data" :: rows))
  /\ (forall tradeId result payload,
        primitive tradeId = true ->
        fst (run (TradingService.deleteTrade tradeId) o n) = Returned result ->
        truthy (get result "success") = true ->
        get payload "eventType" = VStr "DELETE" ->
        get (get payload "old") "id" = tradeId ->
        exists returned calls st1,
          fst (run (UseTrading.deleteTrade tradeId) o n)
          = Returned (returned, calls)
          /\ UseTrading.apply_calls calls st = Ret st1
          /\ UseTrading.trades st1
             = VArr (filter
                       (fun t => negb (strict_equal (get t "id") tradeId))
                       rows)
          /\ absent tradeId
               (filter (fun t => negb (strict_equal (get t "id") tradeId)) rows)
          /\ UseTrading.apply_calls (UseTrading.on_trades_change payload) st1
             = Ret st1).
Proof.
  intros Hst. destruct st as [s1 s2 s3 s4 s5 s6 s7 s8].
  cbn [UseTrading.trades] in Hst. subst s1.
  split.
  - intros tradeData result payload Hres Hs He Hnew.
    unfold UseTrading.createTrade, UseTrading.on_trades_change.
    rewrite run_try_catch, run_bind.
    destruct (run (TradingService.createTrade rt tradeData) o n) as [c tr].
    cbn [fst snd] in *. subst c. rewrite Hs, He, Hnew. cbn [run fst str_is].
    eexists _, _, _, _. split; [reflexivity |].
    split; [reflexivity |]. split; reflexivity.
  - intros tradeId result payload _ Hres Hs He Hold.
    unfold UseTrading.deleteTrade, UseTrading.on_trades_change.
    rewrite run_try_catch, run_bind.
    destruct (run (TradingService.deleteTrade tradeId) o n) as [c tr].
    cbn [fst snd] in *. subst c. rewrite Hs, He, Hold. cbn [run fst str_is].
    eexists _, _, _. split; [reflexivity |].
    split; [reflexivity |]. split; [reflexivity |].
    split; [apply filter_makes_absent |].
    cbn. rewrite (filter_unless_absent tradeId _ (filter_makes_absent _ _)).
    reflexivity.
Qed.

(** A trade is created, and its [INSERT] event follows. *)
Lemma own_changes_come_back_as_events_witness :
  UseTrading.trades (with_trades sample_trades) = VArr sample_trades
  /\ exists returned calls st1 st2,
       fst (run (UseTrading.createTrade Sample.rt
                   (VObj [("instrument", VStr "TCS"); ("quantity", VNum 10);
                          ("entryPrice", VNum 4000)]))
              trade_backend 0)
       = Returned (returned, calls)
       /\ UseTrading.apply_calls calls (with_trades sample_trades) = Ret st1
       /\ UseTrading.apply_calls
            (UseTrading.on_trades_change (change "INSERT" VUndef created_trade))
            st1
          = Ret st2
       /\ UseTrading.trades st2
          = VArr (created_trade :: created_trade :: sample_trades).
Proof.
  split; [reflexivity |].
  apply (proj1 (own_changes_come_back_as_events Sample.rt trade_backend 0
                  sample_trades (with_trades sample_trades) eq_refl)
           (VObj [("instrument", VStr "TCS"); ("quantity", VNum 10);
                  ("entryPrice", VNum 4000)])
           (result3 true created_trade VNull)
           (change "INSERT" VUndef created_trade)).
  - vm_compute. reflexivity.
  - reflexivity.
  - reflexivity.
  - reflexivity.
Defined.

(** ** Merged objects *)

Lemma assoc_fold_set_none (k : string) (gs fs : list (string * value)) :
  assoc k gs = None ->
  assoc k (fold_left (fun fs kv => obj_set fs (fst kv) (snd kv)) gs fs)
  = assoc k fs.
Proof.
  revert fs. induction gs as [| [k0 v0] rest IH]; intros fs H; cbn [fold_left].
  - reflexivity.
  - cbn [assoc] in H. destruct (String.eqb k k0) eqn:E; [discriminate |].
    rewrite IH by exact H. cbn [fst snd].
    apply assoc_obj_set_other. apply String.eqb_neq. exact E.
Qed.

Lemma assoc_none_not_in (k : string) (gs : list (string * value)) :
  ~ In k (map fst gs) -> assoc k gs = None.
Proof.
  induction gs as [| [k0 v0] rest IH]; cbn [map fst In assoc]; intros H.
  - reflexivity.
  - destruct (String.eqb k k0) eqn:E.
    + apply String.eqb_eq in E. subst k0. exfalso. apply H. left. reflexivity.
    + apply IH. intros Hin. apply H. right. exact Hin.
Qed.

Lemma assoc_fold_set_some (k : string) (v : value)
  (gs fs : list (string * value)) :
  NoDup (map fst gs) -> assoc k gs = Some v ->
  assoc k (fold_left (fun fs kv => obj_set fs (fst kv) (snd kv)) gs fs)
  = Some v.
Proof.
  revert fs. induction gs as [| [k0 v0] rest IH]; intros fs Hnd H;
    cbn [fold_left assoc map fst snd] in *.
  - discriminate.
  - inversion Hnd as [| a l Hnot Hrest]; subst.
    destruct (String.eqb k k0) eqn:E.
    + apply String.eqb_eq in E. subst k0. injection H as ->.
      rewrite assoc_fold_set_none by (apply assoc_none_not_in; exact Hnot).
      apply assoc_obj_set_same.
    + apply IH; assumption.
Qed.

(** ** Updated trades in the list of the hook *)

Lemma merge_merges (before data : value) :
  NoDup (map fst (spread data)) -> merges before data (merge before data).
Proof.
  intros Hnd k. unfold merge. cbn [get].
  destruct (assoc k (spread data)) as [v |] eqn:Hv.
  - rewrite (assoc_fold_set_some k v _ _ Hnd Hv). reflexivity.
  - rewrite (assoc_fold_set_none k _ _ Hv). reflexivity.
Qed.

Lemma map_merges (id data : value) (rows : list value) :
  NoDup (map fst (spread data)) ->
  Forall2
    (fun before after =>
       if strict_equal (get before "id") id
       then merges before data after else after = before)
    rows
    (map (fun t => if strict_equal (get t "id") id then merge t data else t)
       rows).
Proof.
  intros Hnd. induction rows as [| t rest IH]; cbn [map]; constructor; auto.
  destruct (strict_equal (get t "id") id); [| reflexivity].
  apply merge_merges. exact Hnd.
Qed.

(** X23.  When [updateTrade] or [closeTrade] of the hook succeeds, the row the
    backend returned is merged into every listed trade with that id, not put
    in its place: such a trade takes the properties of the returned row and
    keeps those of its own that the returned row does not name (the joined
    account that [getTrades] selected, for one). The other trades and the
    length of the list are unchanged, and [error] is cleared. *)
Theorem updated_trades_keep_their_other_fields
  (rt : Runtime) (m : UseTrading.mutation) (tradeId : value)
  (o : oracle) (n : nat) (rows : list value) (st : UseTrading.state)
  (result : value) :
  merged_trade m = Some tradeId ->
  primitive tradeId = true ->
  UseTrading.trades st = VArr rows ->
  fst (run (perform rt (UseTrading.mutation_operation m)) o n)
  = Returned result ->
  truthy (get result "success") = true ->
  NoDup (map fst (spread (get result "data"))) ->
  exists returned calls st' rows',
    fst (run (UseTrading.perform_mutation rt m) o n)
    = Returned (returned, calls)
    /\ UseTrading.apply_calls calls st = Ret st'
    /\ UseTrading.trades st' = VArr rows'
    /\ UseTrading.error st' = VNull
    /\ Forall2
         (fun before after =>
            if strict_equal (get before "id") tradeId
            then merges before (get result "data") after
            else after = before)
         rows rows'.
Proof.
  intros Hm _ Hst Hres Hs Hnd.
  destruct st as [s1 s2 s3 s4 s5 s6 s7 s8].
  cbn [UseTrading.trades] in Hst. subst s1.
  destruct m; try discriminate Hm; injection Hm as ->;
    cbn [UseTrading.perform_mutation UseTrading.mutation_operation perform]
      in *;
    unfold UseTrading.updateTrade, UseTrading.closeTrade;
    rewrite run_try_catch, run_bind;
    match type of Hres with
    | fst (run ?p o n) = _ => destruct (run p o n) as [c tr]
    end;
    cbn [fst snd] in *; subst c; rewrite Hs; cbn [run fst];
    eexists _, _, _, _;
    (split; [reflexivity |]); (split; [reflexivity |]);
    (split; [reflexivity |]); (split; [reflexivity |]);
    apply map_merges; exact Hnd.
Qed.

(** A listed trade is closed: the row that comes back has no joined
    account, and the listed trade keeps its own. *)
Lemma updated_trades_keep_their_other_fields_witness :
  exists returned calls st',
    fst (run (UseTrading.closeTrade (VNum 9) (VNum 4100)) trade_backend 0)
    = Returned (returned, calls)
    /\ UseTrading.apply_calls calls
         (with_trades
            [VObj [("id", VNum 9); ("status", VStr "pending");
                   ("trading_accounts",
                    VObj [("account_name", VStr "Main")])]])
       = Ret st'
    /\ UseTrading.trades st'
       = VArr [VObj [("id", VNum 9); ("status", VStr "open");
                     ("trading_accounts",
                      VObj [("account_name", VStr "Main")]);
                     ("instrument", VStr "TCS")]].
Proof.
  destruct (updated_trades_keep_their_other_fields Sample.rt
              (UseTrading.CloseTrade (VNum 9) (VNum 4100)) (VNum 9)
              trade_backend 0
              [VObj [("id", VNum 9); ("status", VStr "pending");
                     ("trading_accounts",
                      VObj [("account_name", VStr "Main")])]]
              (with_trades
                 [VObj [("id", VNum 9); ("status", VStr "pending");
                        ("trading_accounts",
                         VObj [("account_name", VStr "Main")])]])
              (result3 true created_trade VNull)
              eq_refl eq_refl eq_refl eq_refl eq_refl)
    as (returned & calls & st' & rows' & Hrun & Happly & Htrades & _).
  { repeat constructor; cbn; intuition discriminate. }
  exists returned, calls, st'. split; [exact Hrun |]. split; [exact Happly |].
  cbn [UseTrading.perform_mutation] in Hrun.
  vm_compute in Hrun. injection Hrun as <- <-.
  vm_compute in Happly. injection Happly as <-. reflexivity.
Defined.

(** * The filters of the trade management page *)

(** X24.  A change of filters restarts paging. [handleFilterChange] merges the
    new filters over the previous ones and then sets [offset] to 0, whatever
    the new filters say about [offset]; so the query [getTrades] builds from
    the result asks for the rows from 0 on. Every other filter has its new
    value when the new filters name it, and its previous value otherwise. *)
Theorem filter_change_restarts_paging
  (rt : Runtime) (prev newFilters : value) :
  NoDup (map fst (spread newFilters)) ->
  let filters := TradeManagement.handleFilterChange prev newFilters in
  get filters "offset" = VNum 0
  /\ In (OpRange (VNum 0)
           (js_sub rt
              (js_add rt (VNum 0) (js_or (get filters "limit") (VNum 50)))
              (VNum 1)))
        (TradingService.trades_query rt filters)
  /\ forall k, k <> "offset" ->
       get filters k
       = match assoc k (spread newFilters) with
         | Some v => v
         | None => get (VObj (spread prev)) k
         end.
Proof.
  intros Hnd. cbv zeta.
  assert (Hoff : get (TradeManagement.handleFilterChange prev newFilters)
                   "offset" = VNum 0).
  { unfold TradeManagement.handleFilterChange. cbn [get].
    rewrite assoc_obj_set_same. reflexivity. }
  split; [exact Hoff |]. split.
  - rewrite trades_query_spec, Hoff.
    repeat (apply in_or_app; right). left. reflexivity.
  - intros k Hk. unfold TradeManagement.handleFilterChange, merge.
    cbn [get spread]. rewrite assoc_obj_set_other by exact Hk.
    destruct (assoc k (spread newFilters)) as [v |] eqn:Hv.
    + rewrite (assoc_fold_set_some k v _ _ Hnd Hv). reflexivity.
    + rewrite (assoc_fold_set_none k _ _ Hv). reflexivity.
Qed.

(** On the third page, the user asks for closed trades only. *)
Lemma filter_change_restarts_paging_witness :
  NoDup (map fst (spread (VObj [("status", VStr "closed")])))
  /\ TradeManagement.handleFilterChange
       (TradeManagement.handleLoadMore Sample.rt
          (TradeManagement.handleLoadMore Sample.rt
             TradeManagement.initial_filters))
       (VObj [("status", VStr "closed")])
     = VObj [("status", VStr "closed"); ("symbol", VStr "");
             ("dateFrom", VStr ""); ("dateTo", VStr "");
             ("limit", VNum 50); ("offset", VNum 0)]
  /\ In (OpRange (VNum 0) (VNum 49))
        (TradingService.trades_query Sample.rt
           (TradeManagement.handleFilterChange
              (TradeManagement.handleLoadMore Sample.rt
                 (TradeManagement.handleLoadMore Sample.rt
                    TradeManagement.initial_filters))
              (VObj [("status", VStr "closed")]))).
Proof.
  assert (Hnd : NoDup (map fst (spread (VObj [("status", VStr "closed")])))).
  { repeat constructor. intros []. }
  split; [exact Hnd |]. split; [vm_compute; reflexivity |].
  exact (proj1 (proj2 (filter_change_restarts_paging Sample.rt
                         (TradeManagement.handleLoadMore Sample.rt
                            (TradeManagement.handleLoadMore Sample.rt
                               TradeManagement.initial_filters))
                         (VObj [("status", VStr "closed")]) Hnd))).
Defined.

(** [Load More] moves the offset on by the limit: the third page. *)
Example third_page :
  TradingService.trades_query Sample.rt
    (TradeManagement.handleLoadMore Sample.rt
       (TradeManagement.handleLoadMore Sample.rt
          TradeManagement.initial_filters))
  = [OpSelect (Some TradingService.trades_columns);
     OpRange (VNum 100) (VNum 149); OpOrder "opened_at" false].
Proof. vm_compute. reflexivity. Qed.
